(** * User registration and JWT login backend: validation rules and
      the register / lookup services

    Shallow embedding of
      - [src/user/dto/create-user.dto.ts] and [src/auth/dto/login.dto.ts]
        (the decorator tables of the two request DTOs),
      - [src/main.ts] (the global [ValidationPipe] configuration and the
        CORS origins),
      - [src/user/user.service.ts] (register, createUser, getUsers,
        getUserById),
      - [src/user/user.controller.ts],
    together with the documented behaviour of the library calls they
    make (class-validator, class-transformer, Prisma, bcrypt, JwtService):
    which keys of a body class-transformer copies, how it converts a value
    to the reflected type of a property and when that throws, in which
    order class-validator runs the decorators, and the unique index on
    [email] of the documented [User] model.

    Strings are sequences of code points below U+0100: a Rocq [ascii] is
    read as one Latin-1 character, which is the range the DTO patterns
    ([a-z], [A-Z], [À-ÿ], [\s], [\d], the symbol set) speak about. *)

From Stdlib Require Import List String Ascii Bool Arith ZArith QArith Lia Permutation.
Import ListNotations.
Local Open Scope string_scope.
Local Open Scope nat_scope.
Set Default Proof Using "Type".

(* ===================================================================== *)
(** ** JavaScript values and the string primitives the DTOs call *)

Module Js.

(** A JS number: a finite value, NaN, or an infinity. *)
Inductive Number :=
| Finite (q : Q)
| NaN
| Infinity (negative : bool).

(** The values a JSON request body can carry for a field, plus
    [undefined] for a field that is absent. *)
#[local] Unset Elimination Schemes.
Inductive Value :=
| Undefined
| Null
| Boolean (b : bool)
| Num (n : Number)
| Str (s : string)
| Arr (items : list Value)
| Obj (fields : list (string * Value)).
#[local] Set Elimination Schemes.

(** A primitive value: neither an array nor an object. *)
Definition isPrimitive (v : Value) : bool :=
  match v with
  | Arr _ | Obj _ => false
  | _ => true
  end.

(** A plain object: its own properties in insertion order. *)
Definition Object := list (string * Value).

(** [obj[k]]: [undefined] when the property is absent. *)
Fixpoint get (k : string) (o : Object) : Value :=
  match o with
  | [] => Undefined
  | (k', v) :: rest => if String.eqb k k' then v else get k rest
  end.

Definition keys (o : Object) : list string := map fst o.

Definition code (c : ascii) : nat := nat_of_ascii c.

Definition between (lo hi : nat) (c : ascii) : bool :=
  (lo <=? code c) && (code c <=? hi).

(** WhiteSpace and LineTerminator code points below U+0100: TAB, LF, VT,
    FF, CR, SPACE, NBSP.  This is both what [String.prototype.trim]
    strips and what [\s] matches. *)
Definition isWhiteSpace (c : ascii) : bool :=
  between 9 13 c || (code c =? 32) || (code c =? 160).

(** LineTerminator code points below U+0100 (what [.] does not match). *)
Definition isLineTerminator (c : ascii) : bool :=
  (code c =? 10) || (code c =? 13).

Fixpoint trimStart (s : string) : string :=
  match s with
  | EmptyString => EmptyString
  | String c rest => if isWhiteSpace c then trimStart rest else s
  end.

Fixpoint trimEnd (s : string) : string :=
  match s with
  | EmptyString => EmptyString
  | String c rest =>
      match trimEnd rest with
      | EmptyString => if isWhiteSpace c then EmptyString else String c EmptyString
      | kept => String c kept
      end
  end.

(** [s.trim()] *)
Definition trim (s : string) : string := trimEnd (trimStart s).

(** Upper-case letters below U+0100: A-Z, and U+00C0..U+00DE except the
    multiplication sign U+00D7.  Their lower-case form is 32 above. *)
Definition isUpperCase (c : ascii) : bool :=
  between 65 90 c || (between 192 222 c && negb (code c =? 215)).

Definition lowerChar (c : ascii) : ascii :=
  if isUpperCase c then ascii_of_nat (code c + 32) else c.

(** [s.toLowerCase()] *)
Fixpoint toLowerCase (s : string) : string :=
  match s with
  | EmptyString => EmptyString
  | String c rest => String (lowerChar c) (toLowerCase rest)
  end.

(** [Number.isInteger(n)] *)
Definition isInteger (n : Number) : bool :=
  match n with
  | Finite q => (Qnum q mod Zpos (Qden q) =? 0)%Z
  | _ => false
  end.

(** [n >= k] for an integer literal [k]. *)
Definition geZ (n : Number) (k : Z) : bool :=
  match n with
  | Finite q => Qle_bool (inject_Z k) q
  | NaN => false
  | Infinity negative => negb negative
  end.

(** [n <= k] for an integer literal [k]. *)
Definition leZ (n : Number) (k : Z) : bool :=
  match n with
  | Finite q => Qle_bool q (inject_Z k)
  | NaN => false
  | Infinity negative => negative
  end.

(** The integer a finite integral number denotes. *)
Definition toZ (n : Number) : option Z :=
  match n with
  | Finite q => if isInteger n then Some (Qnum q / Zpos (Qden q))%Z else None
  | _ => None
  end.

Definition ofZ (z : Z) : Number := Finite (inject_Z z).

End Js.

(* ===================================================================== *)
(** ** The regular expressions of [CreateUserDto] *)

Module Pattern.
Import Js.

Definition lower (c : ascii) : bool := between 97 122 c.     (* [a-z] *)
Definition upper (c : ascii) : bool := between 65 90 c.      (* [A-Z] *)
Definition digit (c : ascii) : bool := between 48 57 c.      (* \d *)

(** [[@$!%*?&]] *)
Definition symbol (c : ascii) : bool :=
  existsb (Ascii.eqb c) ["@"; "$"; "!"; "%"; "*"; "?"; "&"]%char.

(** [[A-Za-z\d@$!%*?&]] *)
Definition passwordChar (c : ascii) : bool :=
  upper c || lower c || digit c || symbol c.

(** [[a-zA-ZÀ-ÿ\s'-]]; À is U+00C0 (192) and ÿ is U+00FF (255). *)
Definition nameChar (c : ascii) : bool :=
  lower c || upper c || between 192 255 c || isWhiteSpace c
  || Ascii.eqb c "'"%char || Ascii.eqb c "-"%char.

(** [.*C] tried at the start of [s]: some character of class [C] is
    reached by skipping characters that are not line terminators. *)
Fixpoint dotStarThen (C : ascii -> bool) (s : string) : bool :=
  match s with
  | EmptyString => false
  | String c rest => C c || (negb (isLineTerminator c) && dotStarThen C rest)
  end.

(** One character of class [C] at the start of [s]. *)
Definition startsWith (C : ascii -> bool) (s : string) : bool :=
  match s with
  | EmptyString => false
  | String c _ => C c
  end.

(** [C*$]: every character up to the end of input is in [C]. *)
Fixpoint allOf (C : ascii -> bool) (s : string) : bool :=
  match s with
  | EmptyString => true
  | String c rest => C c && allOf C rest
  end.

(** [/^[a-zA-ZÀ-ÿ\s'-]+$/.test(s)] *)
Definition namePattern (s : string) : bool :=
  startsWith nameChar s && allOf nameChar s.

(** [/^(?=.*[a-z])(?=.*[A-Z])(?=.*\d)(?=.*[@$!%*?&])[A-Za-z\d@$!%*?&]/.test(s)]:
    four look-aheads at position 0, then one character of the class;
    the pattern has no [$], so nothing is required of what follows. *)
Definition passwordPattern (s : string) : bool :=
  dotStarThen lower s && dotStarThen upper s && dotStarThen digit s
  && dotStarThen symbol s && startsWith passwordChar s.

End Pattern.

(* ===================================================================== *)
(** ** class-validator decorators and class-transformer metadata *)

Module ClassValidator.
Import Js.

(** The decorators the two DTOs use.  [IsString] is always written without
    options in the source, so it carries the library's default message;
    every other decorator is written with its own [message]. *)
Inductive Decorator :=
| IsString
| IsNotEmpty (message : string)
| MinLength (min : nat) (message : string)
| MaxLength (max : nat) (message : string)
| Matches (pattern : string -> bool) (message : string)
| IsEmail (message : string)
| IsInt (message : string)
| Min (minValue : Z) (message : string)
| Max (maxValue : Z) (message : string).

(** The key under which a failed decorator is recorded in
    [ValidationError.constraints]. *)
Definition constraintName (d : Decorator) : string :=
  match d with
  | IsString => "isString"
  | IsNotEmpty _ => "isNotEmpty"
  | MinLength _ _ => "minLength"
  | MaxLength _ _ => "maxLength"
  | Matches _ _ => "matches"
  | IsEmail _ => "isEmail"
  | IsInt _ => "isInt"
  | Min _ _ => "min"
  | Max _ _ => "max"
  end.

Definition messageOf (property : string) (d : Decorator) : string :=
  match d with
  | IsString => property ++ " must be a string"
  | IsNotEmpty m | MinLength _ m | MaxLength _ m | Matches _ m
  | IsEmail m | IsInt m | Min _ m | Max _ m => m
  end.

Section Checks.
(** validator.js [isEmail] with default options. *)
Variable isEmailValidator : string -> bool.

(** Whether value [v] satisfies decorator [d]. *)
Definition holds (d : Decorator) (v : Value) : bool :=
  match d, v with
  | IsString, Str _ => true
  | IsNotEmpty _, Str s => negb (String.eqb s "")
  | IsNotEmpty _, (Undefined | Null) => false
  | IsNotEmpty _, _ => true
  | MinLength n _, Str s => n <=? String.length s
  | MaxLength n _, Str s => String.length s <=? n
  | Matches pattern _, Str s => pattern s
  | IsEmail _, Str s => isEmailValidator s
  | IsInt _, Num n => isInteger n
  | Min k _, Num n => geZ n k
  | Max k _, Num n => leZ n k
  | _, _ => false
  end.

Definition violated (d : Decorator) (v : Value) : bool := negb (holds d v).
End Checks.

(** The reflected [design:type] of a DTO property. *)
Inductive DesignType := TString | TNumber.

(** One decorated property of a DTO class: its decorators in the order
    they are written (top to bottom) and its [@Transform] callback, which
    returns [None] when the callback would throw a [TypeError]. *)
Record Property := {
  propertyName : string;
  designType : DesignType;
  decorators : list Decorator;
  transformFn : option (Value -> option Value)
}.

Definition Metadata := list Property.

Definition findProperty (k : string) (dto : Metadata) : option Property :=
  find (fun p => String.eqb k (propertyName p)) dto.

Definition declared (dto : Metadata) (k : string) : bool :=
  existsb (fun p => String.eqb k (propertyName p)) dto.

Record ValidationError := {
  property : string;
  constraints : list (string * string)
}.

(** [constraints[name] = message] on a JS object: an existing key keeps
    its place and takes the new value, a new key is appended. *)
Fixpoint setConstraint (name message : string) (cs : list (string * string))
  : list (string * string) :=
  match cs with
  | [] => [(name, message)]
  | (n, m) :: rest =>
      if String.eqb n name then (n, message) :: rest
      else (n, m) :: setConstraint name message rest
  end.

End ClassValidator.

(* ===================================================================== *)
(** ** The DTO classes *)

Module Dto.
Import Js ClassValidator.

(** [({ value }) => value?.trim()] *)
Definition optTrim (v : Value) : option Value :=
  match v with
  | Undefined | Null => Some Undefined
  | Str s => Some (Str (trim s))
  | _ => None
  end.

(** [value.toLowerCase().trim()]: the normalized form of an email. *)
Definition normalizeEmail (s : string) : string := trim (toLowerCase s).

(** [({ value }) => value?.toLowerCase().trim()] *)
Definition optLowerTrim (v : Value) : option Value :=
  match v with
  | Undefined | Null => Some Undefined
  | Str s => Some (Str (normalizeEmail s))
  | _ => None
  end.

Definition CreateUserDto_name : Property := {|
  propertyName := "name";
  designType := TString;
  decorators :=
    [ IsString;
      IsNotEmpty "Le nom est obligatoire";
      MinLength 2 "Le nom doit contenir au moins 2 caractères";
      MaxLength 50 "Le nom ne peut pas dépasser 50 caractères";
      Matches Pattern.namePattern
        "Le nom ne peut contenir que des lettres, espaces, tirets et apostrophes" ];
  transformFn := Some optTrim
|}.

Definition CreateUserDto_email : Property := {|
  propertyName := "email";
  designType := TString;
  decorators :=
    [ IsEmail "Veuillez fournir une adresse email valide";
      IsNotEmpty "L'email est obligatoire" ];
  transformFn := Some optLowerTrim
|}.

Definition CreateUserDto_password : Property := {|
  propertyName := "password";
  designType := TString;
  decorators :=
    [ IsString;
      IsNotEmpty "Le mot de passe est obligatoire";
      MinLength 8 "Le mot de passe doit contenir au moins 8 caractères";
      MaxLength 128 "Le mot de passe ne peut pas dépasser 128 caractères";
      Matches Pattern.passwordPattern
        "Le mot de passe doit contenir au moins une lettre minuscule, une lettre majuscule, un chiffre et un caractère spécial (@$!%*?&)" ];
  transformFn := None
|}.

Definition CreateUserDto_age : Property := {|
  propertyName := "age";
  designType := TNumber;
  decorators :=
    [ IsInt "L'âge doit être un nombre entier";
      Min 13 "L'âge minimum est de 13 ans";
      Max 120 "L'âge maximum est de 120 ans";
      IsNotEmpty "L'âge est obligatoire" ];
  transformFn := None
|}.

(** [class CreateUserDto] *)
Definition CreateUserDto_class : Metadata :=
  [ CreateUserDto_name; CreateUserDto_email; CreateUserDto_password; CreateUserDto_age ].

Definition LoginDto_email : Property := {|
  propertyName := "email";
  designType := TString;
  decorators :=
    [ IsEmail "Veuillez fournir une adresse email valide";
      IsNotEmpty "L'email est obligatoire" ];
  transformFn := Some optLowerTrim
|}.

Definition LoginDto_password : Property := {|
  propertyName := "password";
  designType := TString;
  decorators :=
    [ IsString;
      IsNotEmpty "Le mot de passe est obligatoire" ];
  transformFn := None
|}.

(** [class LoginDto] *)
Definition LoginDto_class : Metadata := [ LoginDto_email; LoginDto_password ].

(** The object a controller method receives once the pipe has accepted
    the body, at the TypeScript type the method declares. *)
Record CreateUserDto := {
  name : string;
  email : string;
  password : string;
  age : Z
}.

Record LoginDto := {
  login_email : string;
  login_password : string
}.

Definition asCreateUserDto (instance : Object) : option CreateUserDto :=
  match get "name" instance, get "email" instance,
        get "password" instance, get "age" instance with
  | Str n, Str e, Str p, Num a =>
      match toZ a with
      | Some z => Some {| name := n; email := e; password := p; age := z |}
      | None => None
      end
  | _, _, _, _ => None
  end.

Definition asLoginDto (instance : Object) : option LoginDto :=
  match get "email" instance, get "password" instance with
  | Str e, Str p => Some {| login_email := e; login_password := p |}
  | _, _ => None
  end.

End Dto.

(* ===================================================================== *)
(** ** The global [ValidationPipe] of [main.ts]

    [whitelist: true, forbidNonWhitelisted: true, transform: true,
     transformOptions: { enableImplicitConversion: true }] *)

Module ValidationPipe.
Import Js ClassValidator.

Inductive PipeResult :=
| Accepted (instance : Object)
| BadRequest (messages : list string)
| InternalServerError.

(** The keys of a body that never reach the instance.  Nest's pipe deletes
    [__proto__] from the body, and class-transformer passes over
    [__proto__], [constructor] and every key under which the fresh instance
    already holds a function: for the DTO classes, which declare no method,
    these are the methods of [Object.prototype]. *)
Definition skippedKeys : list string :=
  [ "__proto__"; "constructor"; "__defineGetter__"; "__defineSetter__";
    "hasOwnProperty"; "__lookupGetter__"; "__lookupSetter__"; "isPrototypeOf";
    "propertyIsEnumerable"; "toString"; "valueOf"; "toLocaleString" ].

Definition skipped (k : string) : bool := existsb (String.eqb k) skippedKeys.

(** Whether [String(value)] and [Number(value)] return: on an object parsed
    from JSON they throw a [TypeError] exactly when the object has an own
    [toString] property, which is then not callable; an array is converted
    item by item. *)
Fixpoint convertible (v : Value) : bool :=
  match v with
  | Arr items => forallb convertible items
  | Obj fields => negb (existsb (fun kv => String.eqb (fst kv) "toString") fields)
  | _ => true
  end.

(** JS truthiness. *)
Definition truthy (v : Value) : bool :=
  match v with
  | Undefined | Null => false
  | Boolean b => b
  | Num (Finite q) => negb (Qeq_bool q 0)
  | Num NaN => false
  | Num (Infinity _) => true
  | Str s => negb (String.eqb s "")
  | Arr _ | Obj _ => true
  end.

(** Whether the copy of a value under no target type returns.  An object
    is rebuilt as [new value.constructor()] when it has an own
    [constructor] property holding anything truthy, which throws a
    [TypeError] since no JSON value is a constructor; its skipped keys are
    passed over, its other values copied in turn. *)
Fixpoint copyable (v : Value) : bool :=
  match v with
  | Arr items => forallb copyable items
  | Obj fields =>
      negb (truthy (get "constructor" fields))
      && forallb (fun kv => skipped (fst kv) || copyable (snd kv)) fields
  | _ => true
  end.

(** The copy itself: arrays item by item, objects key by key without
    their skipped keys. *)
Fixpoint copyValue (v : Value) : Value :=
  match v with
  | Arr items => Arr (map copyValue items)
  | Obj fields =>
      Obj (flat_map (fun kv => if skipped (fst kv) then []
                               else [(fst kv, copyValue (snd kv))]) fields)
  | _ => v
  end.

(** What class-transformer stores for a property without type metadata;
    [None] when the copy throws. *)
Definition transformPlain (v : Value) : option Value :=
  if copyable v then Some (copyValue v) else None.

Section Pipe.
(** validator.js [isEmail], and the built-in conversions [String(n)] and
    [Number(s)]. *)
Variable isEmailValidator : string -> bool.
Variable NumberToString : Number -> string.
Variable StringToNumber : string -> Number.

(** [enableImplicitConversion] towards [String]: [null] and [undefined]
    are kept, an array is converted item by item, anything else becomes
    [String(value)], which is ["[object Object]"] for an object. *)
Fixpoint toStringValue (v : Value) : Value :=
  match v with
  | Undefined | Null => v
  | Boolean b => Str (if b then "true" else "false")
  | Num n => Str (NumberToString n)
  | Str s => Str s
  | Arr items => Arr (map toStringValue items)
  | Obj _ => Str "[object Object]"
  end.

(** [enableImplicitConversion] towards [Number]: [null] and [undefined]
    are kept, an array is converted item by item, anything else becomes
    [Number(value)], which is [NaN] for an object. *)
Fixpoint toNumberValue (v : Value) : Value :=
  match v with
  | Undefined | Null => v
  | Boolean b => Num (ofZ (if b then 1 else 0))
  | Num n => Num n
  | Str s => Num (StringToNumber s)
  | Arr items => Arr (map toNumberValue items)
  | Obj _ => Num NaN
  end.

Definition implicitConversion (t : DesignType) (v : Value) : Value :=
  match t with
  | TString => toStringValue v
  | TNumber => toNumberValue v
  end.

(** What class-transformer stores for a declared property: the value
    converted to the reflected type, then passed to [@Transform]; [None]
    when the conversion or the callback throws. *)
Definition transformProperty (p : Property) (v : Value) : option Value :=
  if convertible v then
    let converted := implicitConversion (designType p) v in
    match transformFn p with
    | None => Some converted
    | Some f => f converted
    end
  else None.

(** [plainToInstance(dto, plain)]: the own keys of the plain object are
    copied, declared ones through [transformProperty], the others through
    [transformPlain], skipped ones not at all. *)
Fixpoint plainToInstance (dto : Metadata) (plain : Object) : option Object :=
  match plain with
  | [] => Some []
  | (k, v) :: rest =>
      if skipped k then plainToInstance dto rest
      else
        let stored :=
          match findProperty k dto with
          | Some p => transformProperty p v
          | None => transformPlain v
          end in
        match stored, plainToInstance dto rest with
        | Some v', Some rest' => Some ((k, v') :: rest')
        | _, _ => None
        end
  end.

(** The decorators of one property run in registration order, which for
    TypeScript decorators is bottom to top; each failure is written into
    the property's [constraints] object. *)
Definition customValidations (prop : string) (v : Value) (ds : list Decorator)
  : list (string * string) :=
  fold_left
    (fun cs d =>
       if violated isEmailValidator d v
       then setConstraint (constraintName d) (messageOf prop d) cs
       else cs)
    (rev ds) [].

Definition whitelistError (k : string) : ValidationError :=
  {| property := k;
     constraints := [("whitelistValidation", "property " ++ k ++ " should not exist")] |}.

(** [forbidNonWhitelisted]: one error per key without decorators. *)
Definition whitelist (dto : Metadata) (instance : Object) : list ValidationError :=
  map whitelistError (filter (fun k => negb (declared dto k)) (keys instance)).

Definition propertyError (instance : Object) (p : Property) : ValidationError :=
  {| property := propertyName p;
     constraints :=
       customValidations (propertyName p) (get (propertyName p) instance) (decorators p) |}.

Definition hasConstraints (e : ValidationError) : bool :=
  match constraints e with
  | [] => false
  | _ :: _ => true
  end.

(** class-validator [validate(instance, options)]. *)
Definition validate (dto : Metadata) (instance : Object) : list ValidationError :=
  filter hasConstraints (whitelist dto instance ++ map (propertyError instance) dto).

(** [Object.values(error.constraints)] of every error, concatenated. *)
Definition flattenValidationErrors (errors : list ValidationError) : list string :=
  flat_map (fun e => map snd (constraints e)) errors.

(** [ValidationPipe.transform(body, { metatype: dto })] *)
Definition transform (dto : Metadata) (body : Object) : PipeResult :=
  match plainToInstance dto body with
  | None => InternalServerError
  | Some instance =>
      match validate dto instance with
      | [] => Accepted instance
      | errors => BadRequest (flattenValidationErrors errors)
      end
  end.

End Pipe.
End ValidationPipe.

(* ===================================================================== *)
(** ** The [user] table behind [PrismaService] *)

Module Prisma.
Import Js.

(** A row of model [User] ([src/types/user.types.ts]); [password] holds
    the bcrypt digest. *)
Record User := {
  id : string;
  name : string;
  email : string;
  password : string;
  age : Z
}.

(** The row as the object Prisma materialises. *)
Definition toObject (u : User) : Object :=
  [ ("id", Str (id u)); ("name", Str (name u)); ("email", Str (email u));
    ("password", Str (password u)); ("age", Num (ofZ (age u))) ].

(** [select: { f1: true, ... }]: only the listed fields are returned. *)
Definition select (fields : list string) (row : Object) : Object :=
  filter (fun kv => existsb (String.eqb (fst kv)) fields) row.

(** [findUnique({ where: { email } })] *)
Definition findUniqueByEmail (e : string) (rows : list User) : option User :=
  find (fun u => String.eqb (email u) e) rows.

(** [findUnique({ where: { id } })] *)
Definition findUniqueById (i : string) (rows : list User) : option User :=
  find (fun u => String.eqb (id u) i) rows.

End Prisma.

(* ===================================================================== *)
(** ** Exceptions and results of the HTTP handlers *)

Inductive HttpException :=
| BadRequestException (messages : list string)      (* 400 *)
| UnauthorizedException (message : string)          (* 401 *)
| NotFoundException (message : string)              (* 404 *)
| ConflictException (message : string)              (* 409 *)
| InternalServerErrorException.                     (* 500 *)

Inductive Outcome (A : Type) :=
| Return (a : A)
| Throw (e : HttpException).
Arguments Return {A} a.
Arguments Throw {A} e.

(** [JwtPayload] as the services build it: [{ sub, email }]. *)
Record JwtPayload := {
  sub : Js.Value;
  jwt_email : Js.Value
}.

(** The state the services act on: the [user] table, and how many ids,
    digests and tokens the collaborators have produced so far.  The
    counters stand for the collaborators' own state (id sequence, salt
    source, clock) and record that a call was made. *)
Record World := {
  users : list Prisma.User;
  created : nat;
  hashed : nat;
  signed : nat
}.

(* ===================================================================== *)
(** ** [UserService] and [UserController] *)

Module UserService.
Import Js Prisma.

(** The [select] every query of the service passes. *)
Definition publicFields : list string := ["id"; "name"; "email"; "age"].

Definition saltRounds : nat := 10.

Section Service.
(** Tokens, the id default of the [User] model, [bcrypt.hash] with the
    salt drawn for the n-th call, and [JwtService.sign] at the n-th
    issuance. *)
Variable Token : Type.
Variable cuid : nat -> string.
Variable bcrypt_hash : string -> nat -> nat -> string.
Variable jwtSign : JwtPayload -> nat -> Token.

(** The body of a successful registration or login. *)
Record AccessToken := { access_token : Token }.

(** [getUsers()] *)
Definition getUsers (w : World) : list Object :=
  map (fun u => select publicFields (toObject u)) (users w).

(** [getUserById(id)]: the selected row, or [null]. *)
Definition getUserById (i : string) (w : World) : option Object :=
  option_map (fun u => select publicFields (toObject u)) (findUniqueById i (users w)).

(** [register(createUserDto)] *)
Definition register (dto : Dto.CreateUserDto) (w : World)
  : Outcome AccessToken * World :=
  match findUniqueByEmail (Dto.email dto) (users w) with
  | Some _ => (Throw (ConflictException "Cet email est déjà utilisé"), w)
  | None =>
      let hashedPassword := bcrypt_hash (Dto.password dto) saltRounds (hashed w) in
      let row :=
        {| id := cuid (created w);
           name := Dto.name dto;
           email := Dto.email dto;
           password := hashedPassword;
           age := Dto.age dto |} in
      let user := select publicFields (toObject row) in
      let payload := {| sub := get "id" user; jwt_email := get "email" user |} in
      let token := jwtSign payload (signed w) in
      (Return {| access_token := token |},
       {| users := users w ++ [row];
          created := S (created w);
          hashed := S (hashed w);
          signed := S (signed w) |})
  end.

(** [createUser(createUserDto)] of [src/user/user.service.ts]: hash, insert,
    return the selected fields of the new row.  The documented model has
    [email String @unique]: on an email that a row already has, [create]
    throws after the digest was computed, and as nothing catches it the
    reply is a 500. *)
Definition createUser (dto : Dto.CreateUserDto) (w : World)
  : Outcome Object * World :=
  let hashedPassword := bcrypt_hash (Dto.password dto) saltRounds (hashed w) in
  match findUniqueByEmail (Dto.email dto) (users w) with
  | Some _ =>
      (Throw InternalServerErrorException,
       {| users := users w; created := created w;
          hashed := S (hashed w); signed := signed w |})
  | None =>
      let row :=
        {| id := cuid (created w);
           name := Dto.name dto;
           email := Dto.email dto;
           password := hashedPassword;
           age := Dto.age dto |} in
      (Return (select publicFields (toObject row)),
       {| users := users w ++ [row];
          created := S (created w);
          hashed := S (hashed w);
          signed := signed w |})
  end.

End Service.
Arguments access_token {Token} _.
Arguments register {Token} cuid bcrypt_hash jwtSign dto w.
End UserService.

Module UserController.
Import Js.

Section Controller.
Variable isEmailValidator : string -> bool.
Variable NumberToString : Number -> string.
Variable StringToNumber : string -> Number.
Variable Token : Type.
Variable cuid : nat -> string.
Variable bcrypt_hash : string -> nat -> nat -> string.
Variable jwtSign : JwtPayload -> nat -> Token.

(** [GET /users] *)
Definition getUsers (w : World) : Outcome (list Object) :=
  Return (UserService.getUsers w).

(** [POST /users/register]: the body goes through the global pipe, then
    to [UserService.register]. *)
Definition register (body : Object) (w : World)
  : Outcome (UserService.AccessToken Token) * World :=
  match ValidationPipe.transform isEmailValidator NumberToString StringToNumber
          Dto.CreateUserDto_class body with
  | ValidationPipe.BadRequest messages => (Throw (BadRequestException messages), w)
  | ValidationPipe.InternalServerError => (Throw InternalServerErrorException, w)
  | ValidationPipe.Accepted instance =>
      match Dto.asCreateUserDto instance with
      | Some dto => UserService.register cuid bcrypt_hash jwtSign dto w
      | None => (Throw InternalServerErrorException, w)
      end
  end.

(** [GET /users/:id]: whatever the service returns is the reply. *)
Definition getUserById (i : string) (w : World) : Outcome (option Object) :=
  Return (UserService.getUserById i w).

End Controller.
End UserController.

(* ===================================================================== *)
(** ** [AuthService] and [AuthController] *)

Module AuthService.
Import Js Prisma.

(** The 401 reply documented for a failed login. *)
Definition InvalidCredentials : HttpException :=
  UnauthorizedException "Invalid credentials".

Section Service.
Variable Token : Type.
Variable bcrypt_compare : string -> string -> bool.
Variable jwtSign : JwtPayload -> nat -> Token.
Variable jwtVerify : Token -> option JwtPayload.

(** Modelled from the spec: [AuthService.login] is not among the sources;
    this follows Login steps 2 to 4 of the Auth Orchestrator (look the
    user up by the normalized email, [InvalidCredentials] when absent;
    verify the password against the stored hash, [InvalidCredentials] on
    mismatch; issue a token and return [{access_token}]). *)
Definition login (dto : Dto.LoginDto) (w : World)
  : Outcome (UserService.AccessToken Token) * World :=
  match findUniqueByEmail (Dto.login_email dto) (users w) with
  | None => (Throw InvalidCredentials, w)
  | Some u =>
      if bcrypt_compare (Dto.login_password dto) (password u)
      then
        let payload := {| sub := Str (id u); jwt_email := Str (email u) |} in
        (Return {| UserService.access_token := jwtSign payload (signed w) |},
         {| users := users w; created := created w; hashed := hashed w;
            signed := S (signed w) |})
      else (Throw InvalidCredentials, w)
  end.

(** Modelled from the spec: [AuthService.getProfile] is not among the
    sources; this follows GetProfile steps 1 to 3 (verify the token,
    [Unauthorized] on failure; look the user up by [claims.sub],
    [Unauthorized] when absent; return the PublicUserView). *)
Definition getProfile (token : Token) (w : World) : Outcome Object :=
  match jwtVerify token with
  | None => Throw (UnauthorizedException "Unauthorized")
  | Some claims =>
      match sub claims with
      | Str i =>
          match findUniqueById i (users w) with
          | Some u => Return (select UserService.publicFields (toObject u))
          | None => Throw (UnauthorizedException "User not found")
          end
      | _ => Throw (UnauthorizedException "User not found")
      end
  end.

End Service.
Arguments login {Token} bcrypt_compare jwtSign dto w.
Arguments getProfile {Token} jwtVerify token w.
End AuthService.

Module AuthController.
Import Js.

Section Controller.
Variable isEmailValidator : string -> bool.
Variable NumberToString : Number -> string.
Variable StringToNumber : string -> Number.
Variable Token : Type.
Variable bcrypt_compare : string -> string -> bool.
Variable jwtSign : JwtPayload -> nat -> Token.

(** Modelled from the spec: the auth controller is not among the sources;
    the external interface lists [POST /auth/login] with body
    [{email, password}], answered with [{access_token}], a validation
    error or [InvalidCredentials], and Login step 1 validates the input
    first.  The body goes through the global pipe with [LoginDto] (both
    taken from the sources), then to the login service. *)
Definition login (body : Object) (w : World)
  : Outcome (UserService.AccessToken Token) * World :=
  match ValidationPipe.transform isEmailValidator NumberToString StringToNumber
          Dto.LoginDto_class body with
  | ValidationPipe.BadRequest messages => (Throw (BadRequestException messages), w)
  | ValidationPipe.InternalServerError => (Throw InternalServerErrorException, w)
  | ValidationPipe.Accepted instance =>
      match Dto.asLoginDto instance with
      | Some dto => AuthService.login bcrypt_compare jwtSign dto w
      | None => (Throw InternalServerErrorException, w)
      end
  end.

End Controller.
End AuthController.

(* ===================================================================== *)
(** ** [bootstrap]: the CORS origins *)

Module Bootstrap.

(** [s.split(sep)] for a one-character separator. *)
Fixpoint split (sep : ascii) (s : string) : list string :=
  match s with
  | EmptyString => [EmptyString]
  | String c rest =>
      if Ascii.eqb c sep then EmptyString :: split sep rest
      else match split sep rest with
           | piece :: pieces => String c piece :: pieces
           | [] => [String c EmptyString]
           end
  end.

(** [pieces.join(sep)] *)
Fixpoint join (sep : ascii) (pieces : list string) : string :=
  match pieces with
  | [] => EmptyString
  | [piece] => piece
  | piece :: rest => piece ++ String sep (join sep rest)
  end.

(** [process.env.CORS_ORIGINS?.split(',') || ['http://localhost:5173']]:
    an array is always truthy, so the default is taken only when the
    variable is not set. *)
Definition corsOrigins (CORS_ORIGINS : option string) : list string :=
  match CORS_ORIGINS with
  | Some s => split "," s
  | None => ["http://localhost:5173"]
  end.

End Bootstrap.

(* ===================================================================== *)
(** ** Stand-ins for the collaborators

    Small executable stand-ins for the library calls, used to run the
    model on concrete requests.  The general theorems quantify over the
    collaborators and do not depend on these. *)

Module Demo.
Import Js.

(** Splits at the first occurrence of [c]. *)
Fixpoint splitAt (c : ascii) (s : string) : option (string * string) :=
  match s with
  | EmptyString => None
  | String d rest =>
      if Ascii.eqb d c then Some (EmptyString, rest)
      else match splitAt c rest with
           | Some (l, r) => Some (String d l, r)
           | None => None
           end
  end.

Definition plainPart (s : string) : bool :=
  negb (String.eqb s "")
  && Pattern.allOf (fun c => negb (isWhiteSpace c || Ascii.eqb c "@"%char)) s.

(** [local@host.tld] with non-empty parts free of blanks and of [@]. *)
Definition isEmailValidator (s : string) : bool :=
  match splitAt "@" s with
  | Some (l, d) =>
      match splitAt "." d with
      | Some (h, t) => plainPart l && plainPart h && plainPart t
      | None => false
      end
  | None => false
  end.

Fixpoint digitsValue (acc : Z) (s : string) : option Z :=
  match s with
  | EmptyString => Some acc
  | String c rest =>
      if Pattern.digit c
      then digitsValue (10 * acc + Z.of_nat (code c - 48)) rest
      else None
  end.

(** [Number(s)] on blank strings and on decimal digit strings with
    surrounding blanks; [NaN] elsewhere. *)
Definition StringToNumber (s : string) : Number :=
  match digitsValue 0 (trim s) with
  | Some z => ofZ z
  | None => NaN
  end.

Fixpoint natDigits (fuel n : nat) (acc : string) : string :=
  match fuel with
  | O => acc
  | S fuel' =>
      let acc' := String (ascii_of_nat (48 + n mod 10)) acc in
      if n / 10 =? 0 then acc' else natDigits fuel' (n / 10) acc'
  end.

Definition natToString (n : nat) : string := natDigits (S n) n "".

(** [String(n)] on non-negative integers; ["NaN"] elsewhere. *)
Definition NumberToString (n : Number) : string :=
  match toZ n with
  | Some z => if (0 <=? z)%Z then natToString (Z.to_nat z) else "NaN"
  | None => "NaN"
  end.

Definition Token : Type := JwtPayload * nat.
Definition jwtSign (p : JwtPayload) (issuedAt : nat) : Token := (p, issuedAt).
Definition jwtVerify (t : Token) : option JwtPayload := Some (fst t).

Definition cuid (n : nat) : string := "c" ++ natToString n.

Definition bcrypt_hash (plain : string) (rounds salt : nat) : string :=
  natToString rounds ++ "." ++ natToString salt ++ "$" ++ plain.

Definition bcrypt_compare (plain digest : string) : bool :=
  match splitAt "$" digest with
  | Some (_, p) => String.eqb p plain
  | None => false
  end.

(** A second id generator, plainly injective: the n-th id is n marks. *)
Fixpoint tally (n : nat) : string :=
  match n with
  | O => EmptyString
  | S k => String "i" (tally k)
  end.

Definition emptyWorld : World :=
  {| users := []; created := 0; hashed := 0; signed := 0 |}.

Definition register :=
  UserController.register isEmailValidator NumberToString StringToNumber
    Token cuid bcrypt_hash jwtSign.

Definition login :=
  AuthController.login isEmailValidator NumberToString StringToNumber
    Token bcrypt_compare jwtSign.

Definition transform :=
  ValidationPipe.transform isEmailValidator NumberToString StringToNumber.

(** [{name:"Jean Dupont", email:"Jean@Example.COM", password:"Secure1!abc", age:30}] *)
Definition jean : Object :=
  [ ("name", Str "Jean Dupont"); ("email", Str "Jean@Example.COM");
    ("password", Str "Secure1!abc"); ("age", Num (ofZ 30)) ].

(** [{name:"J", email:"a@b.com", password:"Secure1!abc", age:30}] *)
Definition shortName : Object :=
  [ ("name", Str "J"); ("email", Str "a@b.com");
    ("password", Str "Secure1!abc"); ("age", Num (ofZ 30)) ].

End Demo.


(* ===================================================================== *)
(** ** The password rule in the words of the specification *)

Module Spec.
Import Js.

(** "contains at least one character of class [C]" *)
Fixpoint contains (C : ascii -> bool) (s : string) : bool :=
  match s with
  | EmptyString => false
  | String c rest => C c || contains C rest
  end.


(** "one of the characters of [alphabet]" *)
Definition oneOf (alphabet : string) (c : ascii) : bool :=
  existsb (Ascii.eqb c) (list_ascii_of_string alphabet).

Definition lowercaseLetter : ascii -> bool := oneOf "abcdefghijklmnopqrstuvwxyz".
Definition uppercaseLetter : ascii -> bool := oneOf "ABCDEFGHIJKLMNOPQRSTUVWXYZ".
Definition decimalDigit : ascii -> bool := oneOf "0123456789".
Definition allowedSymbol : ascii -> bool := oneOf "@$!%*?&".


(** "a present string of length in [8,128] containing at least one
    lowercase letter, one uppercase letter, one digit, and one symbol from
    the fixed allowed set" *)
Definition passwordRule (v : Value) : bool :=
  match v with
  | Str s =>
      (8 <=? String.length s) && (String.length s <=? 128)
      && contains lowercaseLetter s && contains uppercaseLetter s
      && contains decimalDigit s && contains allowedSymbol s
  | _ => false
  end.










(** [String(value)] for a value that is neither [null] nor [undefined] nor
    an array; [None] when it throws. *)
Definition asString (NumberToString : Number -> string) (v : Value) : option string :=
  match v with
  | Str s => Some s
  | Boolean true => Some "true"
  | Boolean false => Some "false"
  | Num n => Some (NumberToString n)
  | Obj fields =>
      if existsb (fun kv => String.eqb (fst kv) "toString") fields then None
      else Some "[object Object]"
  | _ => None
  end.

(** [Number(value)], likewise. *)
Definition asNumber (StringToNumber : string -> Number) (v : Value) : option Number :=
  match v with
  | Num n => Some n
  | Str s => Some (StringToNumber s)
  | Boolean true => Some (Finite 1)
  | Boolean false => Some (Finite 0)
  | Obj fields =>
      if existsb (fun kv => String.eqb (fst kv) "toString") fields then None
      else Some NaN
  | _ => None
  end.

(** The part of [s] before its first line terminator. *)
Fixpoint firstLine (s : string) : string :=
  match s with
  | EmptyString => EmptyString
  | String c rest => if isLineTerminator c then EmptyString else String c (firstLine rest)
  end.

(** "known fields are never coerced beyond trimming/lowercasing plus
    numeric coercion of age from a numeric-looking string": what the
    accepted instance may hold for field [k], given the raw value. *)
Definition onlyStatedCoercion (StringToNumber : string -> Number)
  (k : string) (raw stored : Value) : Prop :=
  stored = raw
  \/ (exists s, raw = Str s /\ (stored = Str (trim s) \/ stored = Str (trim (toLowerCase s))))
  \/ (k = "age" /\ exists s, raw = Str s /\ stored = Num (StringToNumber s)).

End Spec.

(** The messages one DTO property reports for value [v]. *)
Definition fieldMessages (isEmailValidator : string -> bool)
  (p : ClassValidator.Property) (v : Js.Value) : list string :=
  map snd (ValidationPipe.customValidations isEmailValidator
             (ClassValidator.propertyName p) v (ClassValidator.decorators p)).

(** The validation rules an instance violates: every key its class does
    not declare, and every decorator of a declared property that the
    property's value fails. *)
Definition violatedRules (isEmailValidator : string -> bool)
  (dto : ClassValidator.Metadata) (instance : Js.Object) : nat :=
  List.length (filter (fun k => negb (ClassValidator.declared dto k)) (Js.keys instance))
  + list_sum
      (map (fun p =>
              List.length (filter
                        (fun d => ClassValidator.violated isEmailValidator d
                                    (Js.get (ClassValidator.propertyName p) instance))
                        (ClassValidator.decorators p)))
           dto).

(** A class whose properties each use a decorator at most once. *)
Definition distinctConstraints (dto : ClassValidator.Metadata) : Prop :=
  Forall (fun p => NoDup (map ClassValidator.constraintName (ClassValidator.decorators p))) dto.

(** A class whose property names are distinct and never skipped, and whose
    [@Transform] callbacks leave an absent property absent. *)
Definition regularClass (NumberToString : Js.Number -> string)
  (StringToNumber : string -> Js.Number) (dto : ClassValidator.Metadata) : Prop :=
  Forall (fun p =>
            ValidationPipe.skipped (ClassValidator.propertyName p) = false
            /\ ClassValidator.findProperty (ClassValidator.propertyName p) dto = Some p
            /\ ValidationPipe.transformProperty NumberToString StringToNumber p Js.Undefined
               = Some Js.Undefined)
         dto.

(** The messages [validate] reports for an instance, written out: one per
    undeclared key, then one per failed decorator of each property. *)
Definition reportedMessages (isEmailValidator : string -> bool)
  (dto : ClassValidator.Metadata) (instance : Js.Object) : list string :=
  (map (fun k => ("property " ++ k ++ " should not exist")%string)
       (filter (fun k => negb (ClassValidator.declared dto k)) (Js.keys instance))
   ++ flat_map
        (fun p =>
           map (ClassValidator.messageOf (ClassValidator.propertyName p))
               (filter (fun d => ClassValidator.violated isEmailValidator d
                                   (Js.get (ClassValidator.propertyName p) instance))
                       (rev (ClassValidator.decorators p))))
        dto)%list.

(** Every message text a DTO class declares. *)
Definition declaredMessages (dto : ClassValidator.Metadata) : list string :=
  flat_map (fun p => map (ClassValidator.messageOf (ClassValidator.propertyName p))
                         (ClassValidator.decorators p)) dto.

(** The store before any registration. *)
Definition initialWorld : World :=
  {| users := []; created := 0; hashed := 0; signed := 0 |}.

(** A row, a store and a request with the password column blanked. *)
Definition redactUser (u : Prisma.User) : Prisma.User :=
  {| Prisma.id := Prisma.id u; Prisma.name := Prisma.name u;
     Prisma.email := Prisma.email u; Prisma.password := "";
     Prisma.age := Prisma.age u |}.

Definition redactWorld (w : World) : World :=
  {| users := map redactUser (users w); created := created w;
     hashed := hashed w; signed := signed w |}.

Definition redactDto (dto : Dto.CreateUserDto) : Dto.CreateUserDto :=
  {| Dto.name := Dto.name dto; Dto.email := Dto.email dto;
     Dto.password := ""; Dto.age := Dto.age dto |}.

Section Reachability.
Variable isEmailValidator : string -> bool.
Variable NumberToString : Js.Number -> string.
Variable StringToNumber : string -> Js.Number.
Variable Token : Type.
Variable cuid : nat -> string.
Variable bcrypt_hash : string -> nat -> nat -> string.
Variable jwtSign : JwtPayload -> nat -> Token.

(** The store after a sequence of [POST /users/register] requests. *)
Fixpoint registerAll (bodies : list Js.Object) (w : World) : World :=
  match bodies with
  | [] => w
  | body :: rest =>
      registerAll rest
        (snd (UserController.register isEmailValidator NumberToString StringToNumber
                Token cuid bcrypt_hash jwtSign body w))
  end.

(** The stores that sequences of registrations reach from the empty one. *)
Inductive reachable : World -> Prop :=
| reachable_initial : reachable initialWorld
| reachable_register body w :
    reachable w ->
    reachable (snd (UserController.register isEmailValidator NumberToString
                      StringToNumber Token cuid bcrypt_hash jwtSign body w)).

End Reachability.

(* ===================================================================== *)
(** * Properties *)

(** ** Strings and patterns *)

Section PatternFacts.
Import Js Pattern.

Lemma contains_firstLine_dotStarThen (C : ascii -> bool) (s : string) :
  (forall c, C c = true -> isLineTerminator c = false) ->
  dotStarThen C s = Spec.contains C (Spec.firstLine s).
Proof.
  intros HC. induction s as [|c rest IH]; simpl; [reflexivity|].
  destruct (isLineTerminator c) eqn:Hlt; simpl.
  - destruct (C c) eqn:Hc; [|reflexivity].
    apply HC in Hc. congruence.
  - now rewrite IH.
Qed.

Lemma dotStarThen_app (C : ascii -> bool) (s t : string) :
  dotStarThen C s = true -> dotStarThen C (s ++ t) = true.
Proof.
  induction s as [|c rest IH]; simpl; [discriminate|].
  intros H. apply orb_true_iff in H. apply orb_true_iff.
  destruct H as [H|H]; [now left|right].
  apply andb_true_iff in H. destruct H as [H1 H2].
  apply andb_true_iff. split; [exact H1|now apply IH].
Qed.

Lemma startsWith_app (C : ascii -> bool) (s t : string) :
  startsWith C s = true -> startsWith C (s ++ t) = true.
Proof. destruct s; simpl; [discriminate|trivial]. Qed.

Lemma length_append (s t : string) :
  String.length (s ++ t) = String.length s + String.length t.
Proof. induction s; simpl; [reflexivity|now rewrite IHs]. Qed.

Lemma class_not_terminator (C : ascii -> bool) :
  (forall c, C c = true -> passwordChar c = true) ->
  forall c, C c = true -> isLineTerminator c = false.
Proof.
  intros Hsub c Hc. apply Hsub in Hc.
  destruct (isLineTerminator c) eqn:Hlt; [|reflexivity].
  unfold isLineTerminator in Hlt. apply orb_true_iff in Hlt.
  unfold passwordChar, upper, lower, digit, symbol, between in Hc.
  destruct Hlt as [H|H]; apply Nat.eqb_eq in H; rewrite H in Hc.
  - assert (E : c = ascii_of_nat 10)
      by (unfold code in H; rewrite <- H; symmetry; apply ascii_nat_embedding).
    subst c. discriminate Hc.
  - assert (E : c = ascii_of_nat 13)
      by (unfold code in H; rewrite <- H; symmetry; apply ascii_nat_embedding).
    subst c. discriminate Hc.
Qed.

Lemma isWhiteSpace_lowerChar c : isWhiteSpace (lowerChar c) = isWhiteSpace c.
Proof. destruct c as [[] [] [] [] [] [] [] []]; vm_compute; reflexivity. Qed.

Lemma lowerChar_idempotent c : lowerChar (lowerChar c) = lowerChar c.
Proof. destruct c as [[] [] [] [] [] [] [] []]; vm_compute; reflexivity. Qed.

Lemma toLowerCase_idempotent s : toLowerCase (toLowerCase s) = toLowerCase s.
Proof.
  induction s as [|c rest IH]; simpl; [reflexivity|].
  now rewrite lowerChar_idempotent, IH.
Qed.

Lemma toLowerCase_trimStart s : toLowerCase (trimStart s) = trimStart (toLowerCase s).
Proof.
  induction s as [|c rest IH]; simpl; [reflexivity|].
  rewrite isWhiteSpace_lowerChar. destruct (isWhiteSpace c); [exact IH|reflexivity].
Qed.

Lemma toLowerCase_trimEnd s : toLowerCase (trimEnd s) = trimEnd (toLowerCase s).
Proof.
  induction s as [|c rest IH]; simpl; [reflexivity|].
  rewrite <- IH, isWhiteSpace_lowerChar.
  destruct (trimEnd rest) as [|k kept]; simpl; [|reflexivity].
  destruct (isWhiteSpace c); reflexivity.
Qed.

Lemma trimEnd_idempotent s : trimEnd (trimEnd s) = trimEnd s.
Proof.
  induction s as [|c rest IH]; simpl; [reflexivity|].
  destruct (trimEnd rest) as [|k kept] eqn:E.
  - destruct (isWhiteSpace c) eqn:W; simpl; [reflexivity|now rewrite W].
  - change (trimEnd (String c (String k kept))) with
      (match trimEnd (String k kept) with
       | EmptyString => if isWhiteSpace c then EmptyString else String c EmptyString
       | String a b => String c (String a b)
       end).
    now rewrite IH.
Qed.

Lemma trimStart_fixed s :
  startsWith isWhiteSpace s = false -> trimStart s = s.
Proof. destruct s as [|c rest]; simpl; [reflexivity|]. now intros ->. Qed.

Lemma startsWith_trimStart s : startsWith isWhiteSpace (trimStart s) = false.
Proof.
  induction s as [|c rest IH]; simpl; [reflexivity|].
  destruct (isWhiteSpace c) eqn:W; [exact IH|]. simpl. exact W.
Qed.

Lemma startsWith_trimEnd s :
  startsWith isWhiteSpace s = false -> startsWith isWhiteSpace (trimEnd s) = false.
Proof.
  destruct s as [|c rest]; simpl; [reflexivity|]. intros W.
  destruct (trimEnd rest); [rewrite W|]; simpl; exact W.
Qed.

Lemma trim_idempotent s : trim (trim s) = trim s.
Proof.
  unfold trim.
  rewrite (trimStart_fixed (trimEnd (trimStart s))).
  - apply trimEnd_idempotent.
  - apply startsWith_trimEnd, startsWith_trimStart.
Qed.

Lemma normalizeEmail_idempotent s :
  Dto.normalizeEmail (Dto.normalizeEmail s) = Dto.normalizeEmail s.
Proof.
  unfold Dto.normalizeEmail, trim.
  rewrite toLowerCase_trimEnd, toLowerCase_trimStart, toLowerCase_idempotent.
  apply trim_idempotent.
Qed.

End PatternFacts.

(** ** class-validator: what [customValidations] and [validate] produce *)

Section ValidationFacts.
Import Js ClassValidator ValidationPipe.
Variable isEmailValidator : string -> bool.
Variable NumberToString : Number -> string.
Variable StringToNumber : string -> Number.

Let entry (prop : string) (d : Decorator) : string * string :=
  (constraintName d, messageOf prop d).

Lemma setConstraint_fresh name message cs :
  ~ In name (map fst cs) -> setConstraint name message cs = (cs ++ [(name, message)])%list.
Proof.
  induction cs as [|[n m] rest IH]; simpl; intros Hfresh; [reflexivity|].
  destruct (String.eqb n name) eqn:E.
  - apply String.eqb_eq in E. exfalso. apply Hfresh. now left.
  - f_equal. apply IH. intros Hin. apply Hfresh. now right.
Qed.

Lemma fold_constraints prop v (ds : list Decorator) :
  forall acc,
    NoDup (map constraintName ds) ->
    (forall d, In d ds -> ~ In (constraintName d) (map fst acc)) ->
    fold_left
      (fun cs d =>
         if violated isEmailValidator d v
         then setConstraint (constraintName d) (messageOf prop d) cs
         else cs) ds acc
    = (acc ++ map (entry prop) (filter (fun d => violated isEmailValidator d v) ds))%list.
Proof.
  induction ds as [|d rest IH]; simpl; intros acc Hnd Hfresh.
  - now rewrite app_nil_r.
  - inversion Hnd as [|? ? Hd Hrest]; subst.
    destruct (violated isEmailValidator d v).
    + rewrite setConstraint_fresh by (apply Hfresh; now left).
      rewrite IH; [simpl; now rewrite <- app_assoc|exact Hrest|].
      intros d' Hin. rewrite map_app, in_app_iff. simpl.
      intros [Hacc|[Heq|[]]].
      * apply (Hfresh d'); [now right|exact Hacc].
      * apply Hd. rewrite Heq. now apply in_map.
    + apply IH; [exact Hrest|]. intros d' Hin. apply Hfresh. now right.
Qed.

Lemma customValidations_spec prop v ds :
  NoDup (map constraintName ds) ->
  customValidations isEmailValidator prop v ds
  = map (entry prop) (filter (fun d => violated isEmailValidator d v) (rev ds)).
Proof.
  intros Hnd. unfold customValidations.
  rewrite fold_constraints; [reflexivity| |intros d _ []].
  rewrite map_rev. now apply NoDup_rev.
Qed.

Lemma filter_rev_length {A} (f : A -> bool) (l : list A) :
  List.length (filter f (rev l)) = List.length (filter f l).
Proof.
  induction l as [|a l IH]; simpl; [reflexivity|].
  rewrite filter_app, length_app, IH. simpl.
  destruct (f a); simpl; lia.
Qed.

Lemma customValidations_length prop v ds :
  NoDup (map constraintName ds) ->
  List.length (customValidations isEmailValidator prop v ds)
  = List.length (filter (fun d => violated isEmailValidator d v) ds).
Proof.
  intros Hnd. rewrite customValidations_spec by exact Hnd.
  now rewrite length_map, filter_rev_length.
Qed.

Lemma customValidations_nil prop v ds :
  NoDup (map constraintName ds) ->
  customValidations isEmailValidator prop v ds = []
  <-> forallb (fun d => holds isEmailValidator d v) ds = true.
Proof.
  intros Hnd. split.
  - intros H. apply forallb_forall. intros d Hin.
    pose proof (customValidations_length prop v ds Hnd) as L.
    rewrite H in L. simpl in L.
    destruct (holds isEmailValidator d v) eqn:E; [reflexivity|].
    assert (Hf : In d (filter (fun d => violated isEmailValidator d v) ds)).
    { apply filter_In. split; [exact Hin|]. unfold violated. now rewrite E. }
    destruct (filter (fun d => violated isEmailValidator d v) ds);
      [contradiction|discriminate].
  - intros H. apply length_zero_iff_nil.
    rewrite customValidations_length by exact Hnd.
    apply length_zero_iff_nil.
    rewrite forallb_forall in H.
    induction ds as [|d rest IH]; simpl; [reflexivity|].
    unfold violated at 1. rewrite (H d) by now left. simpl.
    inversion Hnd; subst. apply IH; [assumption|].
    intros x Hx. apply H. now right.
Qed.

Lemma CreateUserDto_distinct : distinctConstraints Dto.CreateUserDto_class.
Proof.
  repeat constructor; simpl; intuition discriminate.
Qed.

Lemma LoginDto_distinct : distinctConstraints Dto.LoginDto_class.
Proof.
  repeat constructor; simpl; intuition discriminate.
Qed.

Lemma CreateUserDto_regular :
  regularClass NumberToString StringToNumber Dto.CreateUserDto_class.
Proof. repeat constructor. Qed.

Lemma LoginDto_regular :
  regularClass NumberToString StringToNumber Dto.LoginDto_class.
Proof. repeat constructor. Qed.

End ValidationFacts.

(** ** The pipe: instances, reported messages, outcomes *)

Section PipeFacts.
Import Js ClassValidator ValidationPipe.
Variable isEmailValidator : string -> bool.
Variable NumberToString : Number -> string.
Variable StringToNumber : string -> Number.

Let toInstance := plainToInstance NumberToString StringToNumber.
Let regular := regularClass NumberToString StringToNumber.

Lemma findProperty_In k dto p :
  findProperty k dto = Some p -> In p dto /\ propertyName p = k.
Proof.
  unfold findProperty. intros H. apply find_some in H.
  destruct H as [Hin Heq]. apply String.eqb_eq in Heq. now split.
Qed.

Lemma regular_property dto p :
  regular dto -> In p dto ->
  skipped (propertyName p) = false
  /\ findProperty (propertyName p) dto = Some p
  /\ transformProperty NumberToString StringToNumber p Undefined = Some Undefined.
Proof.
  unfold regular, regularClass. rewrite Forall_forall. intros H Hp. now apply H.
Qed.

Lemma plainToInstance_keys dto plain instance :
  toInstance dto plain = Some instance ->
  keys instance = filter (fun k => negb (skipped k)) (keys plain).
Proof.
  unfold toInstance. revert instance.
  induction plain as [|[k v] rest IH]; simpl; intros instance H.
  - now inversion H.
  - destruct (skipped k); simpl; [now apply IH|].
    destruct (match findProperty k dto with
              | Some p => transformProperty NumberToString StringToNumber p v
              | None => transformPlain v
              end) as [v'|]; [|discriminate].
    destruct (plainToInstance NumberToString StringToNumber dto rest) as [rest'|];
      [|discriminate].
    inversion H; subst. simpl. f_equal. now apply IH.
Qed.

Lemma plainToInstance_get dto plain instance k p :
  regular dto ->
  toInstance dto plain = Some instance ->
  findProperty k dto = Some p ->
  transformProperty NumberToString StringToNumber p (get k plain) = Some (get k instance).
Proof.
  unfold toInstance. intros Hr H Hf.
  destruct (findProperty_In _ _ _ Hf) as [Hin Hname].
  destruct (regular_property dto p Hr Hin) as [Hskip [_ Habsent]].
  rewrite Hname in Hskip.
  revert instance H.
  induction plain as [|[k' v] rest IH]; simpl; intros instance H.
  - injection H as <-. exact Habsent.
  - destruct (skipped k') eqn:Sk.
    + destruct (String.eqb k k') eqn:E; [|now apply IH].
      apply String.eqb_eq in E. subst k'. congruence.
    + destruct (match findProperty k' dto with
                | Some p => transformProperty NumberToString StringToNumber p v
                | None => transformPlain v
                end) as [v'|] eqn:Hv; [|discriminate].
      destruct (plainToInstance NumberToString StringToNumber dto rest) as [rest'|];
        [|discriminate].
      injection H as <-. simpl.
      destruct (String.eqb k k') eqn:E.
      * apply String.eqb_eq in E. subst k'. rewrite Hf in Hv. exact Hv.
      * now apply IH.
Qed.

(** A body with distinct keys becomes an instance as soon as each declared
    field that is present converts and transforms without throwing. *)
Lemma plainToInstance_defined dto plain :
  NoDup (keys plain) ->
  (forall k p, In k (keys plain) -> skipped k = false ->
     findProperty k dto = Some p ->
     exists v, transformProperty NumberToString StringToNumber p (get k plain) = Some v) ->
  (forall k, In k (keys plain) -> skipped k = false ->
     findProperty k dto = None -> copyable (get k plain) = true) ->
  exists instance, toInstance dto plain = Some instance.
Proof.
  unfold toInstance.
  induction plain as [|[k v] rest IH]; simpl; intros Hnd Hall Hcopy; [now eexists|].
  inversion Hnd as [|? ? Hnotin Hrest]; subst.
  destruct IH as [inst Hinst]; [exact Hrest| | |].
  { intros k' p Hk' Hs Hf.
    destruct (Hall k' p (or_intror Hk') Hs Hf) as [v' Hv'].
    exists v'. destruct (String.eqb k' k) eqn:E; [|exact Hv'].
    apply String.eqb_eq in E. subst k'. contradiction. }
  { intros k' Hk' Hs Hf. specialize (Hcopy k' (or_intror Hk') Hs Hf).
    destruct (String.eqb k' k) eqn:E; [|exact Hcopy].
    apply String.eqb_eq in E. subst k'. contradiction. }
  rewrite Hinst. destruct (skipped k) eqn:Sk; [now eexists|].
  destruct (findProperty k dto) as [p|] eqn:Hf.
  - destruct (Hall k p (or_introl eq_refl) Sk Hf) as [v' Hv'].
    rewrite String.eqb_refl in Hv'. rewrite Hv'. now eexists.
  - specialize (Hcopy k (or_introl eq_refl) Sk Hf).
    rewrite String.eqb_refl in Hcopy. unfold transformPlain. rewrite Hcopy.
    now eexists.
Qed.

Lemma findProperty_declared k dto :
  declared dto k = match findProperty k dto with Some _ => true | None => false end.
Proof.
  unfold declared, findProperty. induction dto as [|p ps IH]; simpl; [reflexivity|].
  destruct (String.eqb k (propertyName p)); [reflexivity|exact IH].
Qed.

Lemma flatten_drops_empty (errors : list ValidationError) :
  flattenValidationErrors (filter hasConstraints errors) = flattenValidationErrors errors.
Proof.
  unfold flattenValidationErrors.
  induction errors as [|e rest IH]; simpl; [reflexivity|].
  unfold hasConstraints at 1. destruct (constraints e) eqn:E; simpl.
  - exact IH.
  - rewrite E. simpl. now rewrite IH.
Qed.

Lemma flatten_app (a b : list ValidationError) :
  flattenValidationErrors (a ++ b)
  = (flattenValidationErrors a ++ flattenValidationErrors b)%list.
Proof. unfold flattenValidationErrors. apply flat_map_app. Qed.

Lemma flatten_validate dto instance :
  distinctConstraints dto ->
  flattenValidationErrors (validate isEmailValidator dto instance)
  = reportedMessages isEmailValidator dto instance.
Proof.
  intros Hd. unfold validate, reportedMessages.
  rewrite flatten_drops_empty, flatten_app. f_equal.
  - unfold whitelist, flattenValidationErrors.
    induction (filter (fun k => negb (declared dto k)) (keys instance)) as [|k ks IH];
      simpl; [reflexivity|now rewrite IH].
  - unfold flattenValidationErrors, distinctConstraints in *.
    induction dto as [|p ps IH]; simpl; [reflexivity|].
    inversion Hd; subst. rewrite IH by assumption. f_equal.
    rewrite customValidations_spec by assumption.
    rewrite map_map. reflexivity.
Qed.

Lemma reportedMessages_length dto instance :
  List.length (reportedMessages isEmailValidator dto instance)
  = violatedRules isEmailValidator dto instance.
Proof.
  unfold reportedMessages, violatedRules.
  rewrite length_app, length_map. f_equal.
  induction dto as [|p ps IH]; simpl; [reflexivity|].
  rewrite length_app, length_map, IH.
  now rewrite filter_rev_length.
Qed.

Lemma validate_nil_flatten dto instance :
  validate isEmailValidator dto instance = []
  <-> flattenValidationErrors (validate isEmailValidator dto instance) = [].
Proof.
  split; [intros H; now rewrite H|].
  unfold validate.
  set (all := (whitelist dto instance ++ map (propertyError isEmailValidator instance) dto)%list).
  intros H. destruct (filter hasConstraints all) as [|e rest] eqn:E; [reflexivity|].
  assert (He : In e (filter hasConstraints all)) by (rewrite E; now left).
  apply filter_In in He. destruct He as [_ He].
  unfold flattenValidationErrors in H. simpl in H.
  unfold hasConstraints in He. destruct (constraints e); [discriminate|discriminate].
Qed.

(** The outcome of the pipe: a 500 when no instance is built, otherwise by
    the number of violated rules. *)
Lemma transform_outcome dto body :
  distinctConstraints dto ->
  (toInstance dto body = None
   /\ transform isEmailValidator NumberToString StringToNumber dto body
      = InternalServerError)
  \/ exists instance,
       toInstance dto body = Some instance
       /\ ((violatedRules isEmailValidator dto instance = 0
            /\ transform isEmailValidator NumberToString StringToNumber dto body
               = Accepted instance)
           \/ (0 < violatedRules isEmailValidator dto instance
               /\ transform isEmailValidator NumberToString StringToNumber dto body
                  = BadRequest (reportedMessages isEmailValidator dto instance))).
Proof.
  intros Hd. unfold transform, toInstance.
  destruct (plainToInstance NumberToString StringToNumber dto body)
    as [instance|] eqn:Hi; [right|now left].
  exists instance. split; [reflexivity|].
  pose proof (flatten_validate dto instance Hd) as Hf.
  pose proof (reportedMessages_length dto instance) as Hl.
  pose proof (validate_nil_flatten dto instance) as Hn.
  destruct (validate isEmailValidator dto instance) as [|e rest] eqn:E.
  - left. split; [|reflexivity].
    rewrite <- Hl, <- Hf. reflexivity.
  - right. rewrite Hf. split; [|reflexivity].
    rewrite <- Hl.
    destruct (reportedMessages isEmailValidator dto instance) eqn:R; simpl; [|lia].
    rewrite Hf in Hn. destruct Hn as [_ Hn]. discriminate (Hn eq_refl).
Qed.

End PipeFacts.

(** ** Field order of the request body *)

Section FieldOrder.
Import Js ClassValidator ValidationPipe.
Variable isEmailValidator : string -> bool.
Variable NumberToString : Number -> string.
Variable StringToNumber : string -> Number.







End FieldOrder.

(* ===================================================================== *)
(** ** Single fields *)

(** The password field is accepted exactly when every decorator holds. *)
Lemma password_decorators_distinct :
  NoDup (map ClassValidator.constraintName
           (ClassValidator.decorators Dto.CreateUserDto_password)).
Proof. repeat constructor; simpl; intuition discriminate. Qed.

Lemma password_field_accepted (isEmailValidator : string -> bool) (v : Js.Value) :
  fieldMessages isEmailValidator Dto.CreateUserDto_password v = []
  <-> exists s, v = Js.Str s
                /\ 8 <= String.length s /\ String.length s <= 128
                /\ Pattern.passwordPattern s = true.
Proof.
  unfold fieldMessages.
  pose proof (customValidations_nil isEmailValidator
                (ClassValidator.propertyName Dto.CreateUserDto_password) v
                (ClassValidator.decorators Dto.CreateUserDto_password)
                password_decorators_distinct) as Hnil.
  split.
  - intros H. apply map_eq_nil in H. apply (proj1 Hnil) in H. clear Hnil.
    destruct v as [| |b|n|s|items|fields]; try discriminate H.
    exists s. cbn [forallb ClassValidator.decorators Dto.CreateUserDto_password ClassValidator.holds] in H.  rewrite !andb_true_iff in H.
    destruct H as [_ [_ [Hmin [Hmax [Hpat _]]]]].
    apply Nat.leb_le in Hmin, Hmax. auto.
  - intros [s [-> [Hmin [Hmax Hpat]]]].
    rewrite (proj2 Hnil); [reflexivity|].
    cbn [forallb ClassValidator.decorators Dto.CreateUserDto_password ClassValidator.holds].
    rewrite Hpat.
    apply Nat.leb_le in Hmin, Hmax. rewrite Hmin, Hmax.
    destruct s; [discriminate Hmin|reflexivity].
Qed.

(** C10. The password pattern constrains only the first character to
    [[A-Za-z0-9@$!%*?&]]: an accepted password starts with such a
    character, stays accepted when any characters are appended within the
    length bound, and ["Aa1@efgh#"], whose last character is outside the
    set, is accepted. *)
Theorem password_pattern_checks_first_character_only
  (isEmailValidator : string -> bool) (s t : string) :
  fieldMessages isEmailValidator Dto.CreateUserDto_password (Js.Str s) = [] ->
  String.length (s ++ t) <= 128 ->
  Pattern.startsWith Pattern.passwordChar s = true
  /\ fieldMessages isEmailValidator Dto.CreateUserDto_password (Js.Str (s ++ t)) = []
  /\ fieldMessages isEmailValidator Dto.CreateUserDto_password (Js.Str "Aa1@efgh#") = []
  /\ Pattern.allOf Pattern.passwordChar "Aa1@efgh#" = false.
Proof.
  intros Hok Hlen.
  apply password_field_accepted in Hok.
  destruct Hok as [s' [E [Hmin [Hmax Hpat]]]]. inversion E; subst s'. clear E.
  unfold Pattern.passwordPattern in Hpat. rewrite !andb_true_iff in Hpat.
  destruct Hpat as [[[[Hl Hu] Hd] Hs] Hfirst].
  split; [exact Hfirst|]. split; [|split; [|vm_compute; reflexivity]].
  - apply password_field_accepted. exists (s ++ t). split; [reflexivity|].
    split; [rewrite length_append; lia|]. split; [exact Hlen|].
    unfold Pattern.passwordPattern.
    rewrite !dotStarThen_app, startsWith_app by assumption. reflexivity.
  - apply password_field_accepted. exists "Aa1@efgh#".
    split; [reflexivity|]. split; [vm_compute; lia|].
    split; [vm_compute; lia|]. vm_compute. reflexivity.
Qed.

(** ["Aa1@efgh"] is accepted, and so is ["Aa1@efgh#"]. *)
Lemma password_pattern_checks_first_character_only_witness :
  fieldMessages Demo.isEmailValidator Dto.CreateUserDto_password (Js.Str "Aa1@efgh") = []
  /\ fieldMessages Demo.isEmailValidator Dto.CreateUserDto_password
       (Js.Str ("Aa1@efgh" ++ "#")) = [].
Proof.
  assert (H : fieldMessages Demo.isEmailValidator Dto.CreateUserDto_password
                (Js.Str "Aa1@efgh") = []) by (vm_compute; reflexivity).
  split; [exact H|].
  apply (password_pattern_checks_first_character_only
           Demo.isEmailValidator "Aa1@efgh" "#" H).
  vm_compute. lia.
Defined.


(** ** Accepted registration bodies *)

Section AcceptedFacts.
Import Js ClassValidator ValidationPipe.
Variable isEmailValidator : string -> bool.
Variable NumberToString : Number -> string.
Variable StringToNumber : string -> Number.

Lemma list_sum_zero (l : list nat) : list_sum l = 0 -> Forall (fun n => n = 0) l.
Proof.
  induction l as [|n l IH]; simpl; intros H; constructor.
  - lia.
  - apply IH. lia.
Qed.

Lemma violatedRules_zero dto instance :
  violatedRules isEmailValidator dto instance = 0 ->
  forallb (declared dto) (keys instance) = true
  /\ forall p, In p dto ->
       forallb (fun d => holds isEmailValidator d (get (propertyName p) instance))
               (decorators p) = true.
Proof.
  unfold violatedRules. intros H.
  assert (H1 : List.length (filter (fun k => negb (declared dto k)) (keys instance)) = 0)
    by lia.
  assert (H2 : list_sum
                 (map (fun p =>
                         List.length
                           (filter (fun d => violated isEmailValidator d
                                               (get (propertyName p) instance))
                                   (decorators p))) dto) = 0) by lia.
  clear H. split.
  - apply length_zero_iff_nil in H1. apply forallb_forall. intros k Hk.
    destruct (declared dto k) eqn:E; [reflexivity|].
    assert (Hin : In k (filter (fun k => negb (declared dto k)) (keys instance))).
    { apply filter_In. split; [exact Hk|]. now rewrite E. }
    rewrite H1 in Hin. contradiction.
  - intros p Hp. apply list_sum_zero in H2. rewrite Forall_forall in H2.
    specialize (H2 _ (in_map _ _ _ Hp)). simpl in H2.
    apply length_zero_iff_nil in H2. apply forallb_forall. intros d Hd.
    destruct (holds isEmailValidator d (get (propertyName p) instance)) eqn:E;
      [reflexivity|].
    assert (Hin : In d (filter (fun d => violated isEmailValidator d
                                           (get (propertyName p) instance))
                               (decorators p))).
    { apply filter_In. split; [exact Hd|]. unfold violated. now rewrite E. }
    rewrite H2 in Hin. contradiction.
Qed.

(** The keys of an instance without undeclared key: every key of the body
    is declared or skipped. *)
Lemma declared_or_skipped dto body instance :
  plainToInstance NumberToString StringToNumber dto body = Some instance ->
  forallb (declared dto) (keys instance) = true ->
  forallb (fun k => declared dto k || skipped k) (keys body) = true.
Proof.
  intros Hi Hk.
  rewrite (plainToInstance_keys NumberToString StringToNumber _ _ _ Hi) in Hk.
  rewrite forallb_forall in Hk. apply forallb_forall. intros k Hin.
  destruct (skipped k) eqn:Sk; [apply orb_true_r|].
  rewrite Hk; [reflexivity|]. apply filter_In. split; [exact Hin|].
  now rewrite Sk.
Qed.

Lemma declared_or_skipped_instance dto body instance :
  plainToInstance NumberToString StringToNumber dto body = Some instance ->
  forallb (fun k => declared dto k || skipped k) (keys body) = true ->
  forallb (declared dto) (keys instance) = true.
Proof.
  intros Hi Hk.
  rewrite (plainToInstance_keys NumberToString StringToNumber _ _ _ Hi).
  rewrite forallb_forall in Hk. apply forallb_forall. intros k Hin.
  apply filter_In in Hin. destruct Hin as [Hin Hs].
  specialize (Hk k Hin). destruct (skipped k); [discriminate Hs|].
  now rewrite orb_false_r in Hk.
Qed.

(** An accepted registration body yields a well-typed [CreateUserDto]
    whose fields are the instance's, satisfy the decorators, and come from
    the body by the declared conversion and [@Transform]. *)
Lemma accepted_CreateUserDto body instance :
  transform isEmailValidator NumberToString StringToNumber
    Dto.CreateUserDto_class body = Accepted instance ->
  exists dto,
    Dto.asCreateUserDto instance = Some dto
    /\ (get "name" instance = Str (Dto.name dto)
        /\ get "email" instance = Str (Dto.email dto)
        /\ get "password" instance = Str (Dto.password dto))
    /\ isEmailValidator (Dto.email dto) = true
    /\ fieldMessages isEmailValidator Dto.CreateUserDto_password
         (Str (Dto.password dto)) = []
    /\ Dto.optTrim (toStringValue NumberToString (get "name" body))
       = Some (Str (Dto.name dto))
    /\ Dto.optLowerTrim (toStringValue NumberToString (get "email" body))
       = Some (Str (Dto.email dto))
    /\ toStringValue NumberToString (get "password" body) = Str (Dto.password dto)
    /\ (exists a, toNumberValue StringToNumber (get "age" body) = Num a
                  /\ toZ a = Some (Dto.age dto))
    /\ forallb (fun k => declared Dto.CreateUserDto_class k || skipped k) (keys body)
       = true.
Proof.
  intros Hacc.
  destruct (transform_outcome isEmailValidator NumberToString StringToNumber
              Dto.CreateUserDto_class body CreateUserDto_distinct)
    as [[_ Ho]|[inst [Hi [[Hz Ho]|[Hz Ho]]]]];
    rewrite Ho in Hacc; try discriminate.
  inversion Hacc; subst inst. clear Hacc Ho.
  destruct (violatedRules_zero _ _ Hz) as [Hkeys Hall].
  pose proof (Hall Dto.CreateUserDto_name (or_introl eq_refl)) as Hn.
  pose proof (Hall Dto.CreateUserDto_email (or_intror (or_introl eq_refl))) as He.
  pose proof (Hall Dto.CreateUserDto_password
                (or_intror (or_intror (or_introl eq_refl)))) as Hp.
  pose proof (Hall Dto.CreateUserDto_age
                (or_intror (or_intror (or_intror (or_introl eq_refl))))) as Ha.
  clear Hall.
  pose proof (plainToInstance_get NumberToString StringToNumber _ _ _ "name"
                Dto.CreateUserDto_name
                (CreateUserDto_regular NumberToString StringToNumber) Hi eq_refl) as Bn.
  pose proof (plainToInstance_get NumberToString StringToNumber _ _ _ "email"
                Dto.CreateUserDto_email
                (CreateUserDto_regular NumberToString StringToNumber) Hi eq_refl) as Be.
  pose proof (plainToInstance_get NumberToString StringToNumber _ _ _ "password"
                Dto.CreateUserDto_password
                (CreateUserDto_regular NumberToString StringToNumber) Hi eq_refl) as Bp.
  pose proof (plainToInstance_get NumberToString StringToNumber _ _ _ "age"
                Dto.CreateUserDto_age
                (CreateUserDto_regular NumberToString StringToNumber) Hi eq_refl) as Ba.
  unfold transformProperty in Bn, Be, Bp, Ba.
  cbn [designType transformFn implicitConversion Dto.CreateUserDto_name
       Dto.CreateUserDto_email Dto.CreateUserDto_password Dto.CreateUserDto_age]
    in Bn, Be, Bp, Ba.
  destruct (convertible (get "name" body)); [|discriminate Bn].
  destruct (convertible (get "email" body)); [|discriminate Be].
  destruct (convertible (get "password" body)); [|discriminate Bp].
  destruct (convertible (get "age" body)); [|discriminate Ba].
  cbn [forallb decorators propertyName holds Dto.CreateUserDto_name
       Dto.CreateUserDto_email Dto.CreateUserDto_password Dto.CreateUserDto_age]
    in Hn, He, Hp, Ha.
  destruct (get "name" instance) as [| | | |n| |] eqn:En; try discriminate Hn.
  destruct (get "email" instance) as [| | | |e| |] eqn:Ee; try discriminate He.
  destruct (get "password" instance) as [| | | |p| |] eqn:Ep; try discriminate Hp.
  destruct (get "age" instance) as [| | |a| | |] eqn:Ea; try discriminate Ha.
  destruct a as [q| |]; try discriminate Ha.
  apply andb_true_iff in Ha. destruct Ha as [Hint _].
  apply andb_true_iff in He. destruct He as [Hmail _].
  exists {| Dto.name := n; Dto.email := e; Dto.password := p;
            Dto.age := (Qnum q / Zpos (Qden q))%Z |}.
  cbn [Dto.name Dto.email Dto.password Dto.age].
  assert (Hz' : toZ (Finite q) = Some (Qnum q / Zpos (Qden q))%Z).
  { unfold toZ. now rewrite Hint. }
  split.
  { unfold Dto.asCreateUserDto. rewrite En, Ee, Ep, Ea, Hz'. reflexivity. }
  split; [auto|].
  split; [exact Hmail|].
  split.
  { unfold fieldMessages.
    rewrite (proj2 (customValidations_nil isEmailValidator
                      (propertyName Dto.CreateUserDto_password) (Str p)
                      (decorators Dto.CreateUserDto_password)
                      password_decorators_distinct)); [reflexivity|exact Hp]. }
  split; [exact Bn|]. split; [exact Be|].
  split; [now inversion Bp|].
  split; [exists (Finite q); split; [now inversion Ba|exact Hz']|].
  now apply (declared_or_skipped Dto.CreateUserDto_class body instance Hi).
Qed.

End AcceptedFacts.

(** ** The register service *)

Section ServiceFacts.
Import Js Prisma.
Variable isEmailValidator : string -> bool.
Variable NumberToString : Number -> string.
Variable StringToNumber : string -> Number.
Variable Token : Type.
Variable cuid : nat -> string.
Variable bcrypt_hash : string -> nat -> nat -> string.
Variable jwtSign : JwtPayload -> nat -> Token.

Let serviceRegister := UserService.register cuid bcrypt_hash jwtSign.
Let controllerRegister :=
  UserController.register isEmailValidator NumberToString StringToNumber
    Token cuid bcrypt_hash jwtSign.
Let pipe :=
  ValidationPipe.transform isEmailValidator NumberToString StringToNumber
    Dto.CreateUserDto_class.

Lemma findUniqueByEmail_Some e rows u :
  findUniqueByEmail e rows = Some u -> In u rows /\ email u = e.
Proof.
  unfold findUniqueByEmail. intros H. apply find_some in H.
  destruct H as [Hin Heq]. apply String.eqb_eq in Heq. now split.
Qed.

Lemma findUniqueByEmail_None e rows :
  findUniqueByEmail e rows = None <-> ~ In e (map email rows).
Proof.
  unfold findUniqueByEmail. split.
  - intros H Hin. apply in_map_iff in Hin. destruct Hin as [u [Heq Hin]].
    pose proof (find_none _ _ H u Hin) as Hn. simpl in Hn.
    rewrite Heq, String.eqb_refl in Hn. discriminate.
  - intros H. destruct (find (fun u => String.eqb (email u) e) rows) as [u|] eqn:F;
      [|reflexivity].
    apply find_some in F. destruct F as [Hin Heq]. apply String.eqb_eq in Heq.
    exfalso. apply H. rewrite <- Heq. now apply in_map.
Qed.

Lemma findUniqueByEmail_In e rows :
  In e (map email rows) -> exists u, findUniqueByEmail e rows = Some u.
Proof.
  intros Hin. destruct (findUniqueByEmail e rows) as [u|] eqn:F; [now exists u|].
  apply findUniqueByEmail_None in F. contradiction.
Qed.

Lemma service_register_conflict dto w u :
  findUniqueByEmail (Dto.email dto) (users w) = Some u ->
  serviceRegister dto w = (Throw (ConflictException "Cet email est déjà utilisé"), w).
Proof.
  intros H. unfold serviceRegister, UserService.register. now rewrite H.
Qed.

Lemma service_register_fresh dto w :
  findUniqueByEmail (Dto.email dto) (users w) = None ->
  serviceRegister dto w
  = (Return {| UserService.access_token :=
                 jwtSign {| sub := Str (cuid (created w));
                            jwt_email := Str (Dto.email dto) |} (signed w) |},
     {| users := users w
                 ++ [ {| id := cuid (created w);
                         name := Dto.name dto;
                         email := Dto.email dto;
                         password := bcrypt_hash (Dto.password dto)
                                       UserService.saltRounds (hashed w);
                         age := Dto.age dto |} ];
        created := S (created w);
        hashed := S (hashed w);
        signed := S (signed w) |}).
Proof.
  intros H. unfold serviceRegister, UserService.register. now rewrite H.
Qed.

(** The controller either replies 400 or 500 without touching the store,
    or hands a well-typed DTO to the service. *)
Lemma controller_register_cases body w :
  (exists e, controllerRegister body w = (Throw e, w)
             /\ forall instance, pipe body <> ValidationPipe.Accepted instance)
  \/ (exists instance dto,
         pipe body = ValidationPipe.Accepted instance
         /\ Dto.asCreateUserDto instance = Some dto
         /\ controllerRegister body w = serviceRegister dto w).
Proof.
  unfold controllerRegister, UserController.register, pipe.
  destruct (ValidationPipe.transform isEmailValidator NumberToString StringToNumber
              Dto.CreateUserDto_class body) as [instance|messages|] eqn:E.
  - right. destruct (accepted_CreateUserDto isEmailValidator NumberToString
                       StringToNumber body instance E) as [dto [Hdto _]].
    exists instance, dto. rewrite Hdto. auto.
  - left. eexists. split; [reflexivity|discriminate].
  - left. eexists. split; [reflexivity|discriminate].
Qed.

(** A registration either leaves the table as it is or appends one row
    whose email is in normalized form and is the email of no earlier row. *)
Lemma controller_register_users body w :
  users (snd (controllerRegister body w)) = users w
  \/ exists row,
       users (snd (controllerRegister body w)) = (users w ++ [row])%list
       /\ ~ In (email row) (map email (users w))
       /\ Dto.normalizeEmail (email row) = email row.
Proof.
  destruct (controller_register_cases body w)
    as [[e [He _]]|[instance [dto [Hacc [Hdto Hc]]]]].
  - left. now rewrite He.
  - rewrite Hc.
    destruct (findUniqueByEmail (Dto.email dto) (users w)) as [u|] eqn:F.
    + left. now rewrite (service_register_conflict dto w u F).
    + right. rewrite (service_register_fresh dto w F). simpl.
      eexists. split; [reflexivity|]. simpl.
      split; [now apply findUniqueByEmail_None|].
      destruct (accepted_CreateUserDto isEmailValidator NumberToString
                  StringToNumber body instance Hacc)
        as [dto' [Hd' [_ [_ [_ [_ [Hn _]]]]]]].
      assert (E : dto' = dto) by congruence. subst dto'.
      destruct (ValidationPipe.toStringValue NumberToString (get "email" body))
        as [| | | |raw| |]; try discriminate Hn.
      simpl in Hn. inversion Hn as [Hraw].
      apply normalizeEmail_idempotent.
Qed.

Lemma registerAll_keeps_emails bodies w e :
  In e (map email (users w)) ->
  In e (map email
          (users (registerAll isEmailValidator NumberToString StringToNumber
                    Token cuid bcrypt_hash jwtSign bodies w))).
Proof.
  revert w. induction bodies as [|body rest IH]; simpl; intros w Hin; [exact Hin|].
  apply IH.
  destruct (controller_register_users body w) as [H|[row [H _]]];
    unfold controllerRegister in H; rewrite H; [exact Hin|].
  rewrite map_app, in_app_iff. now left.
Qed.

Lemma reachable_NoDup_emails w :
  reachable isEmailValidator NumberToString StringToNumber
    Token cuid bcrypt_hash jwtSign w ->
  NoDup (map email (users w)).
Proof.
  induction 1 as [|body w Hr IH]; simpl; [constructor|].
  destruct (controller_register_users body w) as [H|[row [H [Hfresh _]]]];
    unfold controllerRegister in H; rewrite H; [exact IH|].
  rewrite map_app. simpl.
  apply NoDup_app; [exact IH|repeat constructor; intros []|].
  intros x Hx [Hx'|[]]. subst x. contradiction.
Qed.

(** Every stored email is its own normalized form. *)
Lemma reachable_normalized_emails w :
  reachable isEmailValidator NumberToString StringToNumber
    Token cuid bcrypt_hash jwtSign w ->
  map (fun u => Dto.normalizeEmail (email u)) (users w) = map email (users w).
Proof.
  induction 1 as [|body w Hr IH]; simpl; [reflexivity|].
  destruct (controller_register_users body w) as [H|[row [H [_ Hnorm]]]];
    unfold controllerRegister in H; rewrite H; [exact IH|].
  rewrite !map_app, IH. simpl. now rewrite Hnorm.
Qed.

Lemma reachable_registerAll bodies w :
  reachable isEmailValidator NumberToString StringToNumber
    Token cuid bcrypt_hash jwtSign w ->
  reachable isEmailValidator NumberToString StringToNumber
    Token cuid bcrypt_hash jwtSign
    (registerAll isEmailValidator NumberToString StringToNumber
       Token cuid bcrypt_hash jwtSign bodies w).
Proof.
  revert w. induction bodies as [|body rest IH]; simpl; intros w Hr; [exact Hr|].
  apply IH. now constructor.
Qed.

End ServiceFacts.

(* ===================================================================== *)
(** * The properties of the specification *)


(** C9. Whenever [register] fails with the conflict exception, a stored
    row already has the DTO's email and the world is returned as it was:
    no row is inserted, no digest is computed, no token is issued. *)
Theorem register_conflict_leaves_store_unchanged
  (Token : Type) (cuid : nat -> string)
  (bcrypt_hash : string -> nat -> nat -> string)
  (jwtSign : JwtPayload -> nat -> Token)
  (dto : Dto.CreateUserDto) (w : World) (message : string) :
  fst (UserService.register cuid bcrypt_hash jwtSign dto w)
  = Throw (ConflictException message) ->
  snd (UserService.register cuid bcrypt_hash jwtSign dto w) = w
  /\ users (snd (UserService.register cuid bcrypt_hash jwtSign dto w)) = users w
  /\ hashed (snd (UserService.register cuid bcrypt_hash jwtSign dto w)) = hashed w
  /\ signed (snd (UserService.register cuid bcrypt_hash jwtSign dto w)) = signed w
  /\ exists u, In u (users w) /\ Prisma.email u = Dto.email dto.
Proof.
  intros H.
  destruct (Prisma.findUniqueByEmail (Dto.email dto) (users w)) as [u|] eqn:F.
  - rewrite (service_register_conflict Token cuid bcrypt_hash jwtSign dto w u F).
    simpl. repeat split; try reflexivity.
    exists u. now apply findUniqueByEmail_Some.
  - rewrite (service_register_fresh Token cuid bcrypt_hash jwtSign dto w F) in H.
    discriminate H.
Qed.

(** Registering Jean Dupont twice: the second call conflicts and changes
    nothing. *)
Lemma register_conflict_leaves_store_unchanged_witness :
  let dto := {| Dto.name := "Jean Dupont"; Dto.email := "jean@example.com";
                Dto.password := "Secure1!abc"; Dto.age := 30 |} in
  let w1 := snd (UserService.register Demo.cuid Demo.bcrypt_hash Demo.jwtSign
                   dto initialWorld) in
  List.length (users w1) = 1
  /\ snd (UserService.register Demo.cuid Demo.bcrypt_hash Demo.jwtSign dto w1) = w1.
Proof.
  intros dto w1. split; [reflexivity|].
  apply (register_conflict_leaves_store_unchanged Demo.Token Demo.cuid
           Demo.bcrypt_hash Demo.jwtSign dto w1 "Cet email est déjà utilisé").
  reflexivity.
Defined.




(** C2. In every store that a sequence of registrations reaches, no two
    rows share a normalized email; and once a body has been registered, any later
    body that the pipe accepts and whose email normalizes (lower-casing,
    trimming) to the same string is refused with the conflict exception,
    whatever was registered in between, leaving the store as it was. *)
Theorem duplicate_email_is_rejected
  (isEmailValidator : string -> bool)
  (NumberToString : Js.Number -> string) (StringToNumber : string -> Js.Number)
  (Token : Type) (cuid : nat -> string)
  (bcrypt_hash : string -> nat -> nat -> string)
  (jwtSign : JwtPayload -> nat -> Token)
  (w : World) (first second : Js.Object) (between : list Js.Object)
  (token : UserService.AccessToken Token) (instance : Js.Object) :
  let register :=
    UserController.register isEmailValidator NumberToString StringToNumber
      Token cuid bcrypt_hash jwtSign in
  let later :=
    registerAll isEmailValidator NumberToString StringToNumber
      Token cuid bcrypt_hash jwtSign between (snd (register first w)) in
  reachable isEmailValidator NumberToString StringToNumber
    Token cuid bcrypt_hash jwtSign w ->
  fst (register first w) = Return token ->
  ValidationPipe.transform isEmailValidator NumberToString StringToNumber
    Dto.CreateUserDto_class second = ValidationPipe.Accepted instance ->
  Dto.optLowerTrim (ValidationPipe.toStringValue NumberToString (Js.get "email" first))
  = Dto.optLowerTrim (ValidationPipe.toStringValue NumberToString (Js.get "email" second)) ->
  register second later = (Throw (ConflictException "Cet email est déjà utilisé"), later)
  /\ NoDup (map (fun u => Dto.normalizeEmail (Prisma.email u)) (users w))
  /\ NoDup (map (fun u => Dto.normalizeEmail (Prisma.email u)) (users later)).
Proof.
  intros register later Hreach Hfirst Hsecond Hsame.
  assert (Hlater : reachable isEmailValidator NumberToString StringToNumber
                     Token cuid bcrypt_hash jwtSign later).
  { apply reachable_registerAll. now constructor. }
  split;
    [|split;
      rewrite (reachable_normalized_emails isEmailValidator NumberToString
                 StringToNumber Token cuid bcrypt_hash jwtSign) by assumption;
      now apply (reachable_NoDup_emails isEmailValidator NumberToString
                   StringToNumber Token cuid bcrypt_hash jwtSign)].
  (* the first registration stored the normalized email *)
  destruct (controller_register_cases isEmailValidator NumberToString StringToNumber
              Token cuid bcrypt_hash jwtSign first w)
    as [[e [He _]]|[i1 [dto1 [Hacc1 [Hdto1 Hc1]]]]].
  { unfold register in Hfirst. rewrite He in Hfirst. discriminate Hfirst. }
  destruct (accepted_CreateUserDto isEmailValidator NumberToString StringToNumber
              first i1 Hacc1) as [dto1' [Hd1 [_ [_ [_ [_ [Hn1 _]]]]]]].
  assert (E : dto1' = dto1) by congruence. subst dto1'. clear Hd1.
  destruct (accepted_CreateUserDto isEmailValidator NumberToString StringToNumber
              second instance Hsecond) as [dto2 [Hd2 [_ [_ [_ [_ [Hn2 _]]]]]]].
  assert (Hmail : Dto.email dto1 = Dto.email dto2).
  { rewrite Hsame, Hn2 in Hn1. now inversion Hn1. }
  assert (Hstored : In (Dto.email dto2)
                       (map Prisma.email (users (snd (register first w))))).
  { unfold register in *. rewrite Hc1 in *.
    destruct (Prisma.findUniqueByEmail (Dto.email dto1) (users w)) as [u|] eqn:F.
    - rewrite (service_register_conflict Token cuid bcrypt_hash jwtSign dto1 w u F)
        in Hfirst. discriminate Hfirst.
    - rewrite (service_register_fresh Token cuid bcrypt_hash jwtSign dto1 w F).
      simpl. rewrite map_app, in_app_iff. right. simpl. now left. }
  apply (registerAll_keeps_emails isEmailValidator NumberToString StringToNumber
           Token cuid bcrypt_hash jwtSign between) in Hstored.
  fold later in Hstored.
  apply findUniqueByEmail_In in Hstored. destruct Hstored as [u Hu].
  unfold register, UserController.register. rewrite Hsecond, Hd2.
  apply (service_register_conflict Token cuid bcrypt_hash jwtSign dto2 later u Hu).
Qed.

(** Jean registers; a rejected body and another user follow; a body with
    the email written ["  JEAN@Example.com "] is then refused. *)
Lemma duplicate_email_is_rejected_witness :
  let between :=
    [ Demo.shortName;
      [ ("name", Js.Str "Ana"); ("email", Js.Str "ana@example.com");
        ("password", Js.Str "Secure1!abc"); ("age", Js.Num (Js.ofZ 41)) ] ] in
  let second :=
    [ ("name", Js.Str "Jeanne"); ("email", Js.Str "  JEAN@Example.com ");
      ("password", Js.Str "Other2?pass"); ("age", Js.Num (Js.ofZ 52)) ] in
  let later :=
    registerAll Demo.isEmailValidator Demo.NumberToString Demo.StringToNumber
      Demo.Token Demo.cuid Demo.bcrypt_hash Demo.jwtSign between
      (snd (Demo.register Demo.jean initialWorld)) in
  map Prisma.email (users later) = ["jean@example.com"; "ana@example.com"]
  /\ Demo.register second later
     = (Throw (ConflictException "Cet email est déjà utilisé"), later).
Proof.
  intros between second later. split; [vm_compute; reflexivity|].
  refine (proj1 (duplicate_email_is_rejected
                   Demo.isEmailValidator Demo.NumberToString Demo.StringToNumber
                   Demo.Token Demo.cuid Demo.bcrypt_hash Demo.jwtSign
                   initialWorld Demo.jean second between
                   {| UserService.access_token :=
                        ({| sub := Js.Str "c0";
                            jwt_email := Js.Str "jean@example.com" |}, 0) |}
                   [ ("name", Js.Str "Jeanne"); ("email", Js.Str "jean@example.com");
                     ("password", Js.Str "Other2?pass"); ("age", Js.Num (Js.ofZ 52)) ]
                   _ _ _ _)).
  - constructor.
  - vm_compute. reflexivity.
  - vm_compute. reflexivity.
  - vm_compute. reflexivity.
Defined.

(** ** The character classes of the patterns and of the stated rules *)

Section ClassFacts.
Import Js Pattern.

Lemma lower_lowercaseLetter c : lower c = Spec.lowercaseLetter c.
Proof. destruct c as [[] [] [] [] [] [] [] []]; vm_compute; reflexivity. Qed.

Lemma upper_uppercaseLetter c : upper c = Spec.uppercaseLetter c.
Proof. destruct c as [[] [] [] [] [] [] [] []]; vm_compute; reflexivity. Qed.

Lemma digit_decimalDigit c : digit c = Spec.decimalDigit c.
Proof. destruct c as [[] [] [] [] [] [] [] []]; vm_compute; reflexivity. Qed.

Lemma symbol_allowedSymbol c : symbol c = Spec.allowedSymbol c.
Proof. destruct c as [[] [] [] [] [] [] [] []]; vm_compute; reflexivity. Qed.


Lemma contains_ext (C D : ascii -> bool) s :
  (forall c, C c = D c) -> Spec.contains C s = Spec.contains D s.
Proof.
  intros H. induction s as [|c rest IH]; simpl; [reflexivity|].
  now rewrite H, IH.
Qed.


Lemma dotStarThen_contains (C : ascii -> bool) s :
  dotStarThen C s = true -> Spec.contains C s = true.
Proof.
  induction s as [|c rest IH]; simpl; [discriminate|].
  destruct (C c); [reflexivity|]. simpl.
  intros H. apply andb_true_iff in H. now apply IH.
Qed.

(** A password the pattern accepts has the four kinds of character. *)
Lemma passwordPattern_kinds s :
  passwordPattern s = true ->
  Spec.contains Spec.lowercaseLetter s = true
  /\ Spec.contains Spec.uppercaseLetter s = true
  /\ Spec.contains Spec.decimalDigit s = true
  /\ Spec.contains Spec.allowedSymbol s = true.
Proof.
  unfold passwordPattern. rewrite !andb_true_iff.
  intros [[[[Hl Hu] Hd] Hs] _].
  rewrite <- (contains_ext lower _ s lower_lowercaseLetter),
          <- (contains_ext upper _ s upper_uppercaseLetter),
          <- (contains_ext digit _ s digit_decimalDigit),
          <- (contains_ext symbol _ s symbol_allowedSymbol).
  auto using dotStarThen_contains.
Qed.

(** On one line, the look-aheads find exactly the four kinds of character. *)
Lemma passwordPattern_one_line s :
  Spec.firstLine s = s ->
  passwordPattern s
  = Spec.contains Spec.lowercaseLetter s && Spec.contains Spec.uppercaseLetter s
    && Spec.contains Spec.decimalDigit s && Spec.contains Spec.allowedSymbol s
    && startsWith passwordChar s.
Proof.
  intros Hline. unfold passwordPattern.
  rewrite (contains_firstLine_dotStarThen lower s),
          (contains_firstLine_dotStarThen upper s),
          (contains_firstLine_dotStarThen digit s),
          (contains_firstLine_dotStarThen symbol s).
  - rewrite Hline.
    now rewrite (contains_ext lower _ s lower_lowercaseLetter),
                (contains_ext upper _ s upper_uppercaseLetter),
                (contains_ext digit _ s digit_decimalDigit),
                (contains_ext symbol _ s symbol_allowedSymbol).
  - apply class_not_terminator. intros c H. unfold passwordChar.
    rewrite H. now rewrite !orb_true_r.
  - apply class_not_terminator. intros c H. unfold passwordChar.
    rewrite H. now rewrite !orb_true_r.
  - apply class_not_terminator. intros c H. unfold passwordChar. now rewrite H.
  - apply class_not_terminator. intros c H. unfold passwordChar.
    rewrite H. now rewrite orb_true_r.
Qed.

End ClassFacts.

(** C5. The password rule as the decorator words it is not the rule the
    pattern checks: ["#Aa1@efgh"] has 9 characters, among them a lowercase
    letter, an uppercase letter, a digit and the symbol [@], and the
    password field refuses it with the pattern message, alone and in a body
    whose other fields are valid.  The pattern is never laxer than the
    rule: every value it accepts satisfies the rule; and on a one-line
    password that starts with a character of [[A-Za-z0-9@$!%*?&]] the two
    agree.  A string password reaches the service as sent, and the new row
    stores [bcrypt.hash] of exactly that string. *)
Theorem password_pattern_refuses_conforming_password
  (isEmailValidator : string -> bool)
  (NumberToString : Js.Number -> string) (StringToNumber : string -> Js.Number)
  (Token : Type) (cuid : nat -> string)
  (bcrypt_hash : string -> nat -> nat -> string)
  (jwtSign : JwtPayload -> nat -> Token) :
  Spec.passwordRule (Js.Str "#Aa1@efgh") = true
  /\ fieldMessages isEmailValidator Dto.CreateUserDto_password (Js.Str "#Aa1@efgh")
     = ["Le mot de passe doit contenir au moins une lettre minuscule, une lettre majuscule, un chiffre et un caractère spécial (@$!%*?&)"]
  /\ (isEmailValidator "jean@example.com" = true ->
      ValidationPipe.transform isEmailValidator NumberToString StringToNumber
        Dto.CreateUserDto_class
        [ ("name", Js.Str "Jean Dupont"); ("email", Js.Str "jean@example.com");
          ("password", Js.Str "#Aa1@efgh"); ("age", Js.Num (Js.ofZ 30)) ]
      = ValidationPipe.BadRequest
          ["Le mot de passe doit contenir au moins une lettre minuscule, une lettre majuscule, un chiffre et un caractère spécial (@$!%*?&)"])
  /\ (forall v,
         fieldMessages isEmailValidator Dto.CreateUserDto_password v = [] ->
         Spec.passwordRule v = true)
  /\ (forall s,
         Pattern.startsWith Pattern.passwordChar s = true ->
         Spec.firstLine s = s ->
         Spec.passwordRule (Js.Str s) = true ->
         fieldMessages isEmailValidator Dto.CreateUserDto_password (Js.Str s) = [])
  /\ (forall body w plain token w',
         Js.get "password" body = Js.Str plain ->
         UserController.register isEmailValidator NumberToString StringToNumber
           Token cuid bcrypt_hash jwtSign body w = (Return token, w') ->
         exists row,
           users w' = (users w ++ [row])%list
           /\ Prisma.password row
              = bcrypt_hash plain UserService.saltRounds (hashed w)).
Proof.
  split; [vm_compute; reflexivity|].
  split; [vm_compute; reflexivity|].
  split; [intros Hmail; vm_compute; vm_compute in Hmail; rewrite Hmail; reflexivity|].
  split; [|split].
  - intros v Hv. apply password_field_accepted in Hv.
    destruct Hv as [s [-> [Hmin [Hmax Hpat]]]].
    destruct (passwordPattern_kinds s Hpat) as [Hl [Hu [Hd Hs]]].
    unfold Spec.passwordRule. rewrite Hl, Hu, Hd, Hs.
    apply Nat.leb_le in Hmin, Hmax. now rewrite Hmin, Hmax.
  - intros s Hfirst Hline Hrule. apply password_field_accepted.
    exists s. split; [reflexivity|].
    unfold Spec.passwordRule in Hrule. rewrite !andb_true_iff in Hrule.
    destruct Hrule as [[[[[Hmin Hmax] Hl] Hu] Hd] Hs].
    apply Nat.leb_le in Hmin, Hmax. split; [exact Hmin|]. split; [exact Hmax|].
    rewrite (passwordPattern_one_line s Hline), Hl, Hu, Hd, Hs, Hfirst.
    reflexivity.
  - intros body w plain token w' Hraw Hreg.
    destruct (controller_register_cases isEmailValidator NumberToString StringToNumber
                Token cuid bcrypt_hash jwtSign body w)
      as [[e [He _]]|[instance [dto [Hacc [Hdto Hc]]]]].
    { rewrite He in Hreg. discriminate Hreg. }
    destruct (accepted_CreateUserDto isEmailValidator NumberToString StringToNumber
                body instance Hacc) as [dto' [Hd' [_ [_ [_ [_ [_ [Hpw _]]]]]]]].
    assert (E : dto' = dto) by congruence. subst dto'.
    rewrite Hraw in Hpw. simpl in Hpw. inversion Hpw as [Hplain].
    rewrite Hc in Hreg.
    destruct (Prisma.findUniqueByEmail (Dto.email dto) (users w)) as [u|] eqn:F.
    + rewrite (service_register_conflict Token cuid bcrypt_hash jwtSign dto w u F)
        in Hreg. discriminate Hreg.
    + rewrite (service_register_fresh Token cuid bcrypt_hash jwtSign dto w F) in Hreg.
      inversion Hreg; subst. simpl. eexists. split; reflexivity.
Qed.

(** C3 (what the code does). [GET /users/:id] never throws: for an id
    that no row has it replies with [null], not with a 404 exception; for
    a stored id it replies with the selected fields of that row. *)
Theorem getUserById_missing_id_returns_null :
  UserController.getUserById "unknown" initialWorld = Return None
  /\ (forall i w e, UserController.getUserById i w <> Throw e)
  /\ (forall i w,
         UserController.getUserById i w
         = Return (option_map
                     (fun u => Prisma.select UserService.publicFields (Prisma.toObject u))
                     (Prisma.findUniqueById i (users w)))).
Proof.
  split; [reflexivity|]. split.
  - intros i w e. unfold UserController.getUserById. discriminate.
  - intros i w. reflexivity.
Qed.

(** C6. A login with an email no row has, and a login with a stored email
    whose password fails verification against the stored hash, both fail
    with the same exception, [InvalidCredentials]; the two replies are
    equal and neither changes the store. *)
Theorem login_failures_are_indistinguishable
  (Token : Type) (bcrypt_compare : string -> string -> bool)
  (jwtSign : JwtPayload -> nat -> Token)
  (unknown wrong : Dto.LoginDto) (w : World) (u : Prisma.User) :
  Prisma.findUniqueByEmail (Dto.login_email unknown) (users w) = None ->
  Prisma.findUniqueByEmail (Dto.login_email wrong) (users w) = Some u ->
  bcrypt_compare (Dto.login_password wrong) (Prisma.password u) = false ->
  AuthService.login bcrypt_compare jwtSign unknown w
  = (Throw AuthService.InvalidCredentials, w)
  /\ AuthService.login bcrypt_compare jwtSign wrong w
     = (Throw AuthService.InvalidCredentials, w)
  /\ fst (AuthService.login bcrypt_compare jwtSign unknown w)
     = fst (AuthService.login bcrypt_compare jwtSign wrong w).
Proof.
  intros Hunknown Hfound Hwrong.
  unfold AuthService.login. rewrite Hunknown, Hfound, Hwrong. auto.
Qed.

(** After Jean's registration: an unknown email and Jean's email with the
    password ["wrong"] get the same reply from [POST /auth/login]. *)
Lemma login_failures_are_indistinguishable_witness :
  let w1 := snd (Demo.register Demo.jean initialWorld) in
  Demo.login [ ("email", Js.Str "nobody@example.com"); ("password", Js.Str "wrong") ] w1
  = Demo.login [ ("email", Js.Str "jean@example.com"); ("password", Js.Str "wrong") ] w1
  /\ fst (AuthService.login Demo.bcrypt_compare Demo.jwtSign
            {| Dto.login_email := "nobody@example.com"; Dto.login_password := "wrong" |}
            w1)
     = fst (AuthService.login Demo.bcrypt_compare Demo.jwtSign
              {| Dto.login_email := "jean@example.com"; Dto.login_password := "wrong" |}
              w1).
Proof.
  intros w1. split; [vm_compute; reflexivity|].
  refine (proj2 (proj2 (login_failures_are_indistinguishable
                          Demo.Token Demo.bcrypt_compare Demo.jwtSign
                          {| Dto.login_email := "nobody@example.com";
                             Dto.login_password := "wrong" |}
                          {| Dto.login_email := "jean@example.com";
                             Dto.login_password := "wrong" |}
                          w1
                          {| Prisma.id := "c0"; Prisma.name := "Jean Dupont";
                             Prisma.email := "jean@example.com";
                             Prisma.password := Demo.bcrypt_hash "Secure1!abc" 10 0;
                             Prisma.age := 30 |}
                          _ _ _))); vm_compute; reflexivity.
Defined.

(** ** What the replies are built from *)

Section ResponseFacts.
Import Js Prisma.

Lemma select_public_keys u :
  keys (select UserService.publicFields (toObject u)) = UserService.publicFields.
Proof. destruct u. reflexivity. Qed.

Lemma select_public_redact u :
  select UserService.publicFields (toObject (redactUser u))
  = select UserService.publicFields (toObject u).
Proof. destruct u. reflexivity. Qed.

Lemma findUniqueById_redact i rows :
  findUniqueById i (map redactUser rows) = option_map redactUser (findUniqueById i rows).
Proof.
  unfold findUniqueById. induction rows as [|u rest IH]; simpl; [reflexivity|].
  destruct (String.eqb (id u) i); [reflexivity|exact IH].
Qed.

Lemma findUniqueByEmail_redact e rows :
  findUniqueByEmail e (map redactUser rows)
  = option_map redactUser (findUniqueByEmail e rows).
Proof.
  unfold findUniqueByEmail. induction rows as [|u rest IH]; simpl; [reflexivity|].
  destruct (String.eqb (email u) e); [reflexivity|exact IH].
Qed.

Lemma reportedMessages_sources isEmailValidator dto instance :
  Forall (fun m =>
            In m (declaredMessages dto)
            \/ exists k, In k (keys instance)
                         /\ m = ("property " ++ k ++ " should not exist")%string)
         (reportedMessages isEmailValidator dto instance).
Proof.
  unfold reportedMessages. apply Forall_app. split.
  - apply Forall_forall. intros m Hm. right.
    apply in_map_iff in Hm. destruct Hm as [k [Hk Hin]].
    apply filter_In in Hin. exists k. split; [tauto|now symmetry].
  - apply Forall_forall. intros m Hm. left.
    apply in_flat_map in Hm. destruct Hm as [p [Hp Hm]].
    apply in_map_iff in Hm. destruct Hm as [d [Hd Hin]].
    apply filter_In in Hin. destruct Hin as [Hin _]. apply in_rev in Hin.
    unfold declaredMessages. apply in_flat_map. exists p. split; [exact Hp|].
    rewrite <- Hd. now apply in_map.
Qed.

(** The messages of a 400 reply come from the class's declared texts or
    name a key of the body. *)
Lemma transform_messages_sources isEmailValidator NumberToString StringToNumber
      dto body :
  distinctConstraints dto ->
  match ValidationPipe.transform isEmailValidator NumberToString StringToNumber
          dto body with
  | ValidationPipe.BadRequest messages =>
      Forall (fun m =>
                In m (declaredMessages dto)
                \/ exists k, In k (keys body)
                             /\ m = ("property " ++ k ++ " should not exist")%string)
             messages
  | ValidationPipe.Accepted _ => True
  | ValidationPipe.InternalServerError =>
      ValidationPipe.plainToInstance NumberToString StringToNumber dto body = None
  end.
Proof.
  intros Hd.
  destruct (transform_outcome isEmailValidator NumberToString StringToNumber
              dto body Hd) as [[Hi Ho]|[instance [Hi [[_ Ho]|[_ Ho]]]]];
    rewrite Ho; [exact Hi|exact I|].
  pose proof (reportedMessages_sources isEmailValidator dto instance) as Hs.
  rewrite (plainToInstance_keys NumberToString StringToNumber dto body instance Hi)
    in Hs.
  eapply Forall_impl; [|exact Hs].
  intros m [Hm|[k [Hk Hm]]]; [now left|right].
  exists k. split; [|exact Hm]. apply filter_In in Hk. apply Hk.
Qed.

End ResponseFacts.

(** An accepted login body yields a well-typed [LoginDto]. *)
Lemma accepted_LoginDto
  (isEmailValidator : string -> bool)
  (NumberToString : Js.Number -> string) (StringToNumber : string -> Js.Number)
  (body instance : Js.Object) :
  ValidationPipe.transform isEmailValidator NumberToString StringToNumber
    Dto.LoginDto_class body = ValidationPipe.Accepted instance ->
  exists dto, Dto.asLoginDto instance = Some dto.
Proof.
  intros Hacc.
  destruct (transform_outcome isEmailValidator NumberToString StringToNumber
              Dto.LoginDto_class body LoginDto_distinct)
    as [[_ Ho]|[inst [Hi [[Hz Ho]|[Hz Ho]]]]];
    rewrite Ho in Hacc; try discriminate.
  inversion Hacc; subst inst. clear Hacc Ho.
  destruct (violatedRules_zero _ _ _ Hz) as [_ Hall].
  pose proof (Hall Dto.LoginDto_email (or_introl eq_refl)) as He.
  pose proof (Hall Dto.LoginDto_password (or_intror (or_introl eq_refl))) as Hp.
  cbn [forallb ClassValidator.decorators ClassValidator.propertyName
       ClassValidator.holds Dto.LoginDto_email Dto.LoginDto_password] in He, Hp.
  unfold Dto.asLoginDto.
  destruct (Js.get "email" instance) as [| | | |e| |]; try discriminate He.
  destruct (Js.get "password" instance) as [| | | |p| |]; try discriminate Hp.
  now eexists.
Qed.

(** C7. No reply carries a password or a digest.  Every user object that
    [getUsers], [getUserById] and [getProfile] return has exactly the keys
    id, name, email, age, and these queries return the same on the store
    with its password column blanked.  The reply of [register] is the same
    when the plaintext, the stored digests and the digest function are
    replaced.  A login replies with [InvalidCredentials] or with a token
    signed over the id and email of a stored row.  The error replies of the
    two controllers carry only declared message texts, messages naming a
    key of the body, or a fixed text; a 500 reply, which carries nothing of
    the request, is given only when the pipe fails to build the instance. *)
Theorem replies_never_carry_password
  (isEmailValidator : string -> bool)
  (NumberToString : Js.Number -> string) (StringToNumber : string -> Js.Number)
  (Token : Type) (cuid : nat -> string)
  (bcrypt_hash bcrypt_hash' : string -> nat -> nat -> string)
  (bcrypt_compare : string -> string -> bool)
  (jwtSign : JwtPayload -> nat -> Token)
  (jwtVerify : Token -> option JwtPayload)
  (w : World) (i : string) (token : Token)
  (dto : Dto.CreateUserDto) (credentials : Dto.LoginDto) (body : Js.Object) :
  Forall (fun o => Js.keys o = ["id"; "name"; "email"; "age"]) (UserService.getUsers w)
  /\ match UserService.getUserById i w with
     | Some o => Js.keys o = ["id"; "name"; "email"; "age"]
     | None => True
     end
  /\ match AuthService.getProfile jwtVerify token w with
     | Return o => Js.keys o = ["id"; "name"; "email"; "age"]
     | Throw _ => True
     end
  /\ UserService.getUsers (redactWorld w) = UserService.getUsers w
  /\ UserService.getUserById i (redactWorld w) = UserService.getUserById i w
  /\ AuthService.getProfile jwtVerify token (redactWorld w)
     = AuthService.getProfile jwtVerify token w
  /\ fst (UserService.register cuid bcrypt_hash' jwtSign (redactDto dto) (redactWorld w))
     = fst (UserService.register cuid bcrypt_hash jwtSign dto w)
  /\ (fst (AuthService.login bcrypt_compare jwtSign credentials w)
      = Throw AuthService.InvalidCredentials
      \/ exists u,
           In u (users w)
           /\ fst (AuthService.login bcrypt_compare jwtSign credentials w)
              = Return {| UserService.access_token :=
                            jwtSign {| sub := Js.Str (Prisma.id u);
                                       jwt_email := Js.Str (Prisma.email u) |}
                                    (signed w) |})
  /\ match fst (UserController.register isEmailValidator NumberToString StringToNumber
                  Token cuid bcrypt_hash jwtSign body w) with
     | Return _ => True
     | Throw (BadRequestException messages) =>
         Forall (fun m =>
                   In m (declaredMessages Dto.CreateUserDto_class)
                   \/ exists k, In k (Js.keys body)
                                /\ m = "property " ++ k ++ " should not exist")
                messages
     | Throw (ConflictException message) => message = "Cet email est déjà utilisé"
     | Throw InternalServerErrorException =>
         ValidationPipe.plainToInstance NumberToString StringToNumber
           Dto.CreateUserDto_class body = None
     | Throw _ => False
     end
  /\ match fst (AuthController.login isEmailValidator NumberToString StringToNumber
                  Token bcrypt_compare jwtSign body w) with
     | Return _ => True
     | Throw (BadRequestException messages) =>
         Forall (fun m =>
                   In m (declaredMessages Dto.LoginDto_class)
                   \/ exists k, In k (Js.keys body)
                                /\ m = "property " ++ k ++ " should not exist")
                messages
     | Throw (UnauthorizedException message) => message = "Invalid credentials"
     | Throw InternalServerErrorException =>
         ValidationPipe.plainToInstance NumberToString StringToNumber
           Dto.LoginDto_class body = None
     | Throw _ => False
     end.
Proof.
  assert (Hquery : forall rows,
             map (fun u => Prisma.select UserService.publicFields (Prisma.toObject u))
                 (map redactUser rows)
             = map (fun u => Prisma.select UserService.publicFields (Prisma.toObject u))
                   rows).
  { intros rows. rewrite map_map. apply map_ext. intros u. apply select_public_redact. }
  repeat apply conj.
  - unfold UserService.getUsers. apply Forall_forall. intros o Ho.
    apply in_map_iff in Ho. destruct Ho as [u [<- _]]. apply select_public_keys.
  - unfold UserService.getUserById.
    destruct (Prisma.findUniqueById i (users w)) as [u|]; cbn [option_map]; [|exact I].
    apply select_public_keys.
  - unfold AuthService.getProfile.
    destruct (jwtVerify token) as [claims|]; [|exact I].
    destruct (sub claims) as [| | | |s| |]; try exact I.
    destruct (Prisma.findUniqueById s (users w)) as [u|]; [|exact I].
    apply select_public_keys.
  - unfold UserService.getUsers. cbn [users redactWorld]. apply Hquery.
  - unfold UserService.getUserById. cbn [users redactWorld].
    rewrite findUniqueById_redact.
    destruct (Prisma.findUniqueById i (users w)) as [u|]; cbn [option_map];
      [|reflexivity].
    now rewrite select_public_redact.
  - unfold AuthService.getProfile.
    destruct (jwtVerify token) as [claims|]; [|reflexivity].
    destruct (sub claims) as [| | | |s| |]; try reflexivity.
    cbn [users redactWorld]. rewrite findUniqueById_redact.
    destruct (Prisma.findUniqueById s (users w)) as [u|]; cbn [option_map];
      [|reflexivity].
    now rewrite select_public_redact.
  - unfold UserService.register.
    cbn [users redactWorld Dto.email redactDto]. rewrite findUniqueByEmail_redact.
    destruct (Prisma.findUniqueByEmail (Dto.email dto) (users w)); reflexivity.
  - unfold AuthService.login.
    destruct (Prisma.findUniqueByEmail (Dto.login_email credentials) (users w))
      as [u|] eqn:F; [|now left].
    destruct (bcrypt_compare (Dto.login_password credentials) (Prisma.password u));
      [|now left].
    right. exists u. split; [|reflexivity].
    now apply findUniqueByEmail_Some in F.
  - pose proof (transform_messages_sources isEmailValidator NumberToString
                  StringToNumber Dto.CreateUserDto_class body
                  CreateUserDto_distinct) as Hm.
    unfold UserController.register.
    destruct (ValidationPipe.transform isEmailValidator NumberToString StringToNumber
                Dto.CreateUserDto_class body) as [instance|messages|] eqn:E;
      simpl; [|exact Hm|exact Hm].
    destruct (accepted_CreateUserDto isEmailValidator NumberToString StringToNumber
                body instance E) as [d [Hd _]].
    rewrite Hd. unfold UserService.register.
    destruct (Prisma.findUniqueByEmail (Dto.email d) (users w)); simpl; auto.
  - pose proof (transform_messages_sources isEmailValidator NumberToString
                  StringToNumber Dto.LoginDto_class body
                  LoginDto_distinct) as Hm.
    unfold AuthController.login.
    destruct (ValidationPipe.transform isEmailValidator NumberToString StringToNumber
                Dto.LoginDto_class body) as [instance|messages|] eqn:E;
      simpl; [|exact Hm|exact Hm].
    destruct (accepted_LoginDto isEmailValidator NumberToString StringToNumber
                body instance E) as [d Hd].
    rewrite Hd. unfold AuthService.login.
    destruct (Prisma.findUniqueByEmail (Dto.login_email d) (users w)) as [u|];
      simpl; [|reflexivity].
    destruct (bcrypt_compare (Dto.login_password d) (Prisma.password u)); simpl; auto.
Qed.

(* ===================================================================== *)
(** * Further properties of the validation rules *)

Section AcceptanceFacts.
Import Js ClassValidator ValidationPipe.
Variable isEmailValidator : string -> bool.
Variable NumberToString : Number -> string.
Variable StringToNumber : string -> Number.

Lemma fieldMessages_nil p v :
  NoDup (map constraintName (decorators p)) ->
  fieldMessages isEmailValidator p v = []
  <-> forallb (fun d => holds isEmailValidator d v) (decorators p) = true.
Proof.
  intros Hnd. unfold fieldMessages.
  rewrite <- (customValidations_nil isEmailValidator (propertyName p) v
                (decorators p) Hnd).
  split; [apply map_eq_nil|intros ->; reflexivity].
Qed.

(** What an accepted body tells: its instance, its keys, its fields. *)
Lemma accepted_inversion dto body instance :
  distinctConstraints dto ->
  transform isEmailValidator NumberToString StringToNumber dto body
  = Accepted instance ->
  plainToInstance NumberToString StringToNumber dto body = Some instance
  /\ forallb (fun k => declared dto k || skipped k) (keys body) = true
  /\ forall p, In p dto ->
       fieldMessages isEmailValidator p (get (propertyName p) instance) = [].
Proof.
  intros Hd Hacc.
  destruct (transform_outcome isEmailValidator NumberToString StringToNumber
              dto body Hd) as [[_ Ho]|[inst [Hi [[Hz Ho]|[Hz Ho]]]]];
    rewrite Ho in Hacc; try discriminate.
  inversion Hacc; subst inst.
  destruct (violatedRules_zero isEmailValidator dto instance Hz) as [Hk Hall].
  split; [exact Hi|]. split.
  - now apply (declared_or_skipped NumberToString StringToNumber dto body instance Hi).
  - intros p Hp. apply fieldMessages_nil; [|now apply Hall].
    unfold distinctConstraints in Hd. rewrite Forall_forall in Hd. now apply Hd.
Qed.

(** The converse: declared keys and satisfied fields are accepted. *)
Lemma accepted_intro dto body instance :
  distinctConstraints dto ->
  plainToInstance NumberToString StringToNumber dto body = Some instance ->
  forallb (fun k => declared dto k || skipped k) (keys body) = true ->
  (forall p, In p dto ->
     fieldMessages isEmailValidator p (get (propertyName p) instance) = []) ->
  transform isEmailValidator NumberToString StringToNumber dto body
  = Accepted instance.
Proof.
  intros Hd Hi Hk Hall.
  apply (declared_or_skipped_instance NumberToString StringToNumber
           dto body instance Hi) in Hk.
  destruct (transform_outcome isEmailValidator NumberToString StringToNumber
              dto body Hd) as [[Hi' _]|[inst [Hi' [[Hz Ho]|[Hz Ho]]]]];
    rewrite Hi in Hi'; inversion Hi'; subst inst; [exact Ho|].
  exfalso. unfold violatedRules in Hz.
  assert (H1 : filter (fun k => negb (declared dto k)) (keys instance) = []).
  { rewrite forallb_forall in Hk.
    destruct (filter (fun k => negb (declared dto k)) (keys instance)) as [|k ks] eqn:E;
      [reflexivity|].
    assert (Hin : In k (filter (fun k => negb (declared dto k)) (keys instance)))
      by (rewrite E; now left).
    apply filter_In in Hin. destruct Hin as [Hin Hneg].
    rewrite (Hk k Hin) in Hneg. discriminate Hneg. }
  rewrite H1 in Hz. simpl in Hz.
  assert (H2 : forall ps, (forall p, In p ps -> In p dto) ->
             list_sum
               (map (fun p =>
                       List.length
                         (filter (fun d => violated isEmailValidator d
                                             (get (propertyName p) instance))
                                 (decorators p))) ps) = 0).
  { induction ps as [|p ps IH]; simpl; intros Hsub; [reflexivity|].
    rewrite IH by (intros q Hq; apply Hsub; now right).
    unfold distinctConstraints in Hd. rewrite Forall_forall in Hd.
    rewrite <- (customValidations_length isEmailValidator (propertyName p)
                  (get (propertyName p) instance) (decorators p))
      by (apply Hd, Hsub; now left).
    pose proof (Hall p (Hsub p (or_introl eq_refl))) as Hp.
    unfold fieldMessages in Hp. apply map_eq_nil in Hp. now rewrite Hp. }
  rewrite (H2 dto) in Hz by auto. lia.
Qed.

End AcceptanceFacts.

Lemma name_decorators_distinct :
  NoDup (map ClassValidator.constraintName
           (ClassValidator.decorators Dto.CreateUserDto_name)).
Proof. repeat constructor; simpl; intuition discriminate. Qed.

Lemma age_decorators_distinct :
  NoDup (map ClassValidator.constraintName
           (ClassValidator.decorators Dto.CreateUserDto_age)).
Proof. repeat constructor; simpl; intuition discriminate. Qed.

Lemma login_password_decorators_distinct :
  NoDup (map ClassValidator.constraintName
           (ClassValidator.decorators Dto.LoginDto_password)).
Proof. repeat constructor; simpl; intuition discriminate. Qed.

Lemma allOf_startsWith (C : ascii -> bool) (s : string) :
  Pattern.allOf C s = true -> 1 <= String.length s ->
  Pattern.startsWith C s = true.
Proof.
  destruct s as [|c rest]; simpl; intros H Hl; [lia|].
  now apply andb_true_iff in H.
Qed.

(** The name field is accepted exactly for strings of 2 to 50 characters
    drawn from the name alphabet. *)
Lemma name_field_accepted (isEmailValidator : string -> bool) (v : Js.Value) :
  fieldMessages isEmailValidator Dto.CreateUserDto_name v = []
  <-> exists s, v = Js.Str s
                /\ 2 <= String.length s /\ String.length s <= 50
                /\ Pattern.allOf Pattern.nameChar s = true.
Proof.
  rewrite (fieldMessages_nil isEmailValidator Dto.CreateUserDto_name v
             name_decorators_distinct).
  cbn [forallb ClassValidator.decorators Dto.CreateUserDto_name].
  split.
  - destruct v as [| |b|n|s|items|fields]; try discriminate.
    cbn [ClassValidator.holds]. rewrite !andb_true_iff.
    intros [_ [_ [Hmin [Hmax [Hpat _]]]]].
    exists s. apply Nat.leb_le in Hmin, Hmax.
    unfold Pattern.namePattern in Hpat. apply andb_true_iff in Hpat.
    destruct Hpat as [_ Hall]. auto.
  - intros [s [-> [Hmin [Hmax Hall]]]].
    cbn [ClassValidator.holds]. unfold Pattern.namePattern.
    rewrite Hall, (allOf_startsWith _ _ Hall) by lia.
    apply Nat.leb_le in Hmin, Hmax. rewrite Hmin, Hmax.
    destruct s; [discriminate Hmin|reflexivity].
Qed.

Lemma email_decorators_distinct :
  NoDup (map ClassValidator.constraintName
           (ClassValidator.decorators Dto.CreateUserDto_email)).
Proof. repeat constructor; simpl; intuition discriminate. Qed.

(** The email field is accepted exactly for non-empty strings that
    [isEmail] accepts. *)
Lemma email_field_accepted (isEmailValidator : string -> bool) (v : Js.Value) :
  fieldMessages isEmailValidator Dto.CreateUserDto_email v = []
  <-> exists s, v = Js.Str s /\ s <> "" /\ isEmailValidator s = true.
Proof.
  rewrite (fieldMessages_nil isEmailValidator Dto.CreateUserDto_email v
             email_decorators_distinct).
  cbn [forallb ClassValidator.decorators Dto.CreateUserDto_email].
  split.
  - destruct v as [| |b|n|s|items|fields]; try discriminate.
    cbn [ClassValidator.holds]. rewrite !andb_true_iff.
    intros [Hmail [Hne _]]. exists s. split; [reflexivity|]. split; [|exact Hmail].
    intros ->. discriminate Hne.
  - intros [s [-> [Hne Hmail]]]. cbn [ClassValidator.holds]. rewrite Hmail.
    destruct s; [now destruct Hne|reflexivity].
Qed.

(** The age field is accepted exactly for integral numbers from 13 to 120. *)
Lemma age_field_accepted (isEmailValidator : string -> bool) (v : Js.Value) :
  fieldMessages isEmailValidator Dto.CreateUserDto_age v = []
  <-> exists n z, v = Js.Num n /\ Js.toZ n = Some z /\ (13 <= z <= 120)%Z.
Proof.
  rewrite (fieldMessages_nil isEmailValidator Dto.CreateUserDto_age v
             age_decorators_distinct).
  cbn [forallb ClassValidator.decorators Dto.CreateUserDto_age].
  assert (Hq : forall q,
             Js.isInteger (Js.Finite q) = true ->
             (Qle_bool (inject_Z 13) q = true
              <-> (13 <= Qnum q / Zpos (Qden q))%Z)
             /\ (Qle_bool q (inject_Z 120) = true
                 <-> (Qnum q / Zpos (Qden q) <= 120)%Z)).
  { intros [num den] Hint. unfold Js.isInteger in Hint. simpl in *.
    apply Z.eqb_eq in Hint.
    pose proof (Z.div_mod num (Zpos den) ltac:(discriminate)) as Hdm.
    rewrite Hint, Z.add_0_r in Hdm.
    set (z := (num / Zpos den)%Z) in *.
    unfold Qle_bool. simpl. rewrite !Z.leb_le, !Z.mul_1_r.
    assert (Hpos : (0 < Zpos den)%Z) by reflexivity.
    split; split; intros H; nia. }
  split.
  - destruct v as [| |b|n|s|items|fields]; try discriminate.
    cbn [ClassValidator.holds]. rewrite !andb_true_iff.
    intros [Hint [Hge [Hle _]]].
    destruct n as [q| |]; try discriminate Hint.
    exists (Js.Finite q), (Qnum q / Zpos (Qden q))%Z.
    split; [reflexivity|]. split; [unfold Js.toZ; now rewrite Hint|].
    destruct (Hq q Hint) as [H13 H120]. simpl in Hge, Hle.
    split; [now apply H13|now apply H120].
  - intros [n [z [-> [Hz [H13 H120]]]]]. cbn [ClassValidator.holds].
    destruct n as [q| |]; try discriminate Hz.
    unfold Js.toZ in Hz. destruct (Js.isInteger (Js.Finite q)) eqn:Hint;
      [|discriminate Hz].
    inversion Hz; subst z.
    destruct (Hq q Hint) as [H13' H120']. simpl.
    rewrite (proj2 H13' H13), (proj2 H120' H120). reflexivity.
Qed.

(** The login password is accepted exactly for non-empty strings. *)
Lemma login_password_field_accepted (isEmailValidator : string -> bool) (v : Js.Value) :
  fieldMessages isEmailValidator Dto.LoginDto_password v = []
  <-> exists s, v = Js.Str s /\ s <> "".
Proof.
  rewrite (fieldMessages_nil isEmailValidator Dto.LoginDto_password v
             login_password_decorators_distinct).
  cbn [forallb ClassValidator.decorators Dto.LoginDto_password].
  split.
  - destruct v as [| |b|n|s|items|fields]; try discriminate.
    cbn [ClassValidator.holds]. rewrite !andb_true_iff.
    intros [_ [Hne _]]. exists s. split; [reflexivity|].
    intros ->. discriminate Hne.
  - intros [s [-> Hne]]. cbn [ClassValidator.holds].
    destruct s; [now destruct Hne|reflexivity].
Qed.

Section CriterionFacts.
Import Js ClassValidator ValidationPipe.
Variable isEmailValidator : string -> bool.
Variable NumberToString : Number -> string.
Variable StringToNumber : string -> Number.

(** A body with distinct keys is accepted exactly when each of its keys is
    declared or skipped and every declared field, converted and
    transformed, satisfies its decorators. *)
Lemma accepted_iff dto body :
  regularClass NumberToString StringToNumber dto -> distinctConstraints dto ->
  NoDup (keys body) ->
  (exists instance,
      transform isEmailValidator NumberToString StringToNumber dto body
      = Accepted instance)
  <-> forallb (fun k => declared dto k || skipped k) (keys body) = true
      /\ forall p, In p dto ->
           exists v,
             transformProperty NumberToString StringToNumber p
               (get (propertyName p) body) = Some v
             /\ fieldMessages isEmailValidator p v = [].
Proof.
  intros Ht Hd Hnd.
  assert (Hfind : forall p, In p dto -> findProperty (propertyName p) dto = Some p).
  { intros p Hp.
    apply (regular_property NumberToString StringToNumber dto p Ht Hp). }
  split.
  - intros [instance Hacc].
    destruct (accepted_inversion isEmailValidator NumberToString StringToNumber
                dto body instance Hd Hacc) as [Hi [Hk Hall]].
    split; [exact Hk|]. intros p Hp. exists (get (propertyName p) instance).
    split; [|now apply Hall].
    apply (plainToInstance_get NumberToString StringToNumber dto body instance
             (propertyName p) p Ht Hi (Hfind p Hp)).
  - intros [Hk Hall].
    destruct (plainToInstance_defined NumberToString StringToNumber dto body Hnd)
      as [instance Hi].
    { intros k p Hin _ Hf.
      destruct (findProperty_In k dto p Hf) as [Hp Hname].
      destruct (Hall p Hp) as [v [Hv _]]. exists v. now rewrite <- Hname. }
    { intros k Hin Hs Hf. rewrite forallb_forall in Hk. specialize (Hk k Hin).
      rewrite (findProperty_declared k dto), Hf, Hs in Hk. discriminate Hk. }
    exists instance.
    apply (accepted_intro isEmailValidator NumberToString StringToNumber
             dto body instance Hd Hi Hk).
    intros p Hp. destruct (Hall p Hp) as [v [Hv Hm]].
    pose proof (plainToInstance_get NumberToString StringToNumber dto body instance
                  (propertyName p) p Ht Hi (Hfind p Hp)) as Hg.
    rewrite Hv in Hg. inversion Hg; subst. exact Hm.
Qed.

Lemma CreateUserDto_findProperty p :
  In p Dto.CreateUserDto_class ->
  findProperty (propertyName p) Dto.CreateUserDto_class = Some p.
Proof.
  simpl. intros Hp.
  repeat (destruct Hp as [Hp|Hp]; [subst p; reflexivity|]). contradiction.
Qed.

Lemma LoginDto_findProperty p :
  In p Dto.LoginDto_class ->
  findProperty (propertyName p) Dto.LoginDto_class = Some p.
Proof.
  simpl. intros Hp.
  repeat (destruct Hp as [Hp|Hp]; [subst p; reflexivity|]). contradiction.
Qed.

End CriterionFacts.

(** ** Conversions, and bodies of primitives *)

Section ConversionFacts.
Import Js ClassValidator ValidationPipe.
Variable isEmailValidator : string -> bool.
Variable NumberToString : Number -> string.
Variable StringToNumber : string -> Number.

(** [String(value)] returns [s] exactly when the implicit conversion
    returns and stores the string [s]. *)
Lemma asString_toStringValue v s :
  Spec.asString NumberToString v = Some s
  <-> convertible v = true /\ toStringValue NumberToString v = Str s.
Proof.
  destruct v as [| |b|n|t|items|fields]; simpl.
  - split; [discriminate|intros [_ H]; discriminate H].
  - split; [discriminate|intros [_ H]; discriminate H].
  - destruct b; split; intros H; try (inversion H; now split);
      destruct H as [_ H]; now inversion H.
  - split; intros H; [inversion H; now split|destruct H as [_ H]; now inversion H].
  - split; intros H; [inversion H; now split|destruct H as [_ H]; now inversion H].
  - split; [discriminate|intros [_ H]; discriminate H].
  - destruct (existsb (fun kv => String.eqb (fst kv) "toString") fields); simpl.
    + split; [discriminate|intros [H _]; discriminate H].
    + split; intros H; [inversion H; now split|destruct H as [_ H]; now inversion H].
Qed.

(** [Number(value)], likewise. *)
Lemma asNumber_toNumberValue v a :
  Spec.asNumber StringToNumber v = Some a
  <-> convertible v = true /\ toNumberValue StringToNumber v = Num a.
Proof.
  destruct v as [| |b|n|t|items|fields]; simpl.
  - split; [discriminate|intros [_ H]; discriminate H].
  - split; [discriminate|intros [_ H]; discriminate H].
  - destruct b; split; intros H; try (inversion H; now split);
      destruct H as [_ H]; now inversion H.
  - split; intros H; [inversion H; now split|destruct H as [_ H]; now inversion H].
  - split; intros H; [inversion H; now split|destruct H as [_ H]; now inversion H].
  - split; [discriminate|intros [_ H]; discriminate H].
  - destruct (existsb (fun kv => String.eqb (fst kv) "toString") fields); simpl.
    + split; [discriminate|intros [H _]; discriminate H].
    + split; intros H; [inversion H; now split|destruct H as [_ H]; now inversion H].
Qed.

(** A string field without [@Transform] stores [String(value)]. *)
Lemma stored_string p v s :
  designType p = TString -> transformFn p = None ->
  transformProperty NumberToString StringToNumber p v = Some (Str s)
  <-> Spec.asString NumberToString v = Some s.
Proof.
  intros Ht Hf. unfold transformProperty. rewrite Ht, Hf. simpl.
  rewrite asString_toStringValue.
  destruct (convertible v); split.
  - intros H. inversion H. now split.
  - intros [_ H]. now rewrite H.
  - discriminate.
  - intros [H _]. discriminate H.
Qed.

(** A string field with a [@Transform] that maps strings by [f] stores
    [f (String(value))]. *)
Lemma stored_transformed_string p v (f : string -> string) g t :
  designType p = TString -> transformFn p = Some g ->
  (forall u, g u = match u with
                   | Undefined | Null => Some Undefined
                   | Str s => Some (Str (f s))
                   | _ => None
                   end) ->
  transformProperty NumberToString StringToNumber p v = Some (Str t)
  <-> exists s, Spec.asString NumberToString v = Some s /\ t = f s.
Proof.
  intros Ht Hf Hg. unfold transformProperty. rewrite Ht, Hf. simpl.
  split.
  - destruct (convertible v) eqn:C; [|discriminate].
    rewrite Hg. intros H.
    destruct (toStringValue NumberToString v) as [| | | |s| |] eqn:E;
      try discriminate H.
    exists s. split; [apply asString_toStringValue; now split|now inversion H].
  - intros [s [Hs ->]]. apply asString_toStringValue in Hs.
    destruct Hs as [C E]. now rewrite C, Hg, E.
Qed.

(** A number field without [@Transform] stores [Number(value)]. *)
Lemma stored_number p v a :
  designType p = TNumber -> transformFn p = None ->
  transformProperty NumberToString StringToNumber p v = Some (Num a)
  <-> Spec.asNumber StringToNumber v = Some a.
Proof.
  intros Ht Hf. unfold transformProperty. rewrite Ht, Hf. simpl.
  rewrite asNumber_toNumberValue.
  destruct (convertible v); split.
  - intros H. inversion H. now split.
  - intros [_ H]. now rewrite H.
  - discriminate.
  - intros [H _]. discriminate H.
Qed.

(** A body of primitives becomes an instance, whatever its keys. *)
Lemma plainToInstance_primitives dto body :
  (forall p v, In p dto -> isPrimitive v = true ->
     exists v', transformProperty NumberToString StringToNumber p v = Some v') ->
  forallb isPrimitive (map snd body) = true ->
  exists instance,
    plainToInstance NumberToString StringToNumber dto body = Some instance.
Proof.
  intros Hdto. induction body as [|[k v] rest IH]; simpl; intros H; [now eexists|].
  apply andb_true_iff in H. destruct H as [Hv Hrest].
  destruct (IH Hrest) as [inst Hi]. rewrite Hi.
  destruct (skipped k); [now eexists|].
  destruct (findProperty k dto) as [p|] eqn:Hf.
  - apply findProperty_In in Hf. destruct Hf as [Hp _].
    destruct (Hdto p v Hp Hv) as [v' Hv']. rewrite Hv'. now eexists.
  - unfold transformPlain.
    destruct v; try discriminate Hv; simpl; now eexists.
Qed.

Lemma CreateUserDto_primitives p v :
  In p Dto.CreateUserDto_class -> isPrimitive v = true ->
  exists v', transformProperty NumberToString StringToNumber p v = Some v'.
Proof.
  intros Hp Hv. simpl in Hp.
  destruct Hp as [<-|[<-|[<-|[<-|[]]]]];
    destruct v as [| |b|n|s| |]; try discriminate Hv; eexists; reflexivity.
Qed.

Lemma LoginDto_primitives p v :
  In p Dto.LoginDto_class -> isPrimitive v = true ->
  exists v', transformProperty NumberToString StringToNumber p v = Some v'.
Proof.
  intros Hp Hv. simpl in Hp.
  destruct Hp as [<-|[<-|[]]];
    destruct v as [| |b|n|s| |]; try discriminate Hv; eexists; reflexivity.
Qed.

(** An undeclared key that is not skipped is reported, unless the pipe
    fails to build the instance. *)
Lemma undeclared_key_reported dto body k :
  distinctConstraints dto ->
  In k (keys body) -> declared dto k = false -> skipped k = false ->
  match transform isEmailValidator NumberToString StringToNumber dto body with
  | Accepted _ => False
  | BadRequest messages => In ("property " ++ k ++ " should not exist")%string messages
  | InternalServerError =>
      plainToInstance NumberToString StringToNumber dto body = None
  end.
Proof.
  intros Hd Hk Hundeclared Hs.
  destruct (transform_outcome isEmailValidator NumberToString StringToNumber
              dto body Hd) as [[Hi Ho]|[inst [Hi Hout]]].
  { now rewrite Ho. }
  assert (Hin : In k (filter (fun k => negb (declared dto k)) (keys inst))).
  { rewrite (plainToInstance_keys NumberToString StringToNumber dto body inst Hi).
    apply filter_In. split; [|now rewrite Hundeclared].
    apply filter_In. split; [exact Hk|now rewrite Hs]. }
  destruct Hout as [[Hz Ho]|[_ Ho]]; rewrite Ho.
  - unfold violatedRules in Hz.
    destruct (filter (fun k => negb (declared dto k)) (keys inst));
      [contradiction|simpl in Hz; lia].
  - unfold reportedMessages. apply in_or_app. left.
    apply (in_map (fun k => ("property " ++ k ++ " should not exist")%string)).
    exact Hin.
Qed.

End ConversionFacts.

(** C8, as stated, fails twice on one body: its key [toString] is not
    declared and its name is the boolean [true], yet the pipe accepts it;
    the instance holds the string ["true"] as name, which is neither the raw
    value nor a trimmed or lower-cased string of the body. *)
Lemma strict_schema_counterexample :
  let body :=
    [ ("name", Js.Boolean true); ("email", Js.Str "a@b.com");
      ("password", Js.Str "Secure1!abc"); ("age", Js.Num (Js.ofZ 30));
      ("toString", Js.Str "x") ] in
  exists instance,
    Demo.transform Dto.CreateUserDto_class body = ValidationPipe.Accepted instance
    /\ In "toString" (Js.keys body)
    /\ ClassValidator.declared Dto.CreateUserDto_class "toString" = false
    /\ Js.get "name" instance = Js.Str "true"
    /\ ~ Spec.onlyStatedCoercion Demo.StringToNumber "name"
           (Js.get "name" body) (Js.get "name" instance).
Proof.
  eexists. split; [vm_compute; reflexivity|].
  split; [simpl; tauto|]. split; [reflexivity|]. split; [reflexivity|].
  unfold Spec.onlyStatedCoercion. simpl.
  intros [H|[[s [H _]]|[H _]]]; discriminate H.
Qed.

(** C8, amended. For the registration and the login class alike: a body
    with a key that the class does not declare and that is not one of the
    skipped keys ([__proto__], [constructor], the method names of
    [Object.prototype]) is never accepted; it is rejected with a validation
    error naming that key, or, only when the body carries an array or an
    object, with a 500.  In an accepted registration body the name is
    [String(value)] trimmed, the email is [String(value)] lower-cased and
    trimmed, the password is [String(value)] and the age is [Number(value)]
    of the raw values, where [String] leaves a string and [Number] a number
    as it is; in an accepted login body the email and the password
    likewise. *)
Theorem strict_schema_and_declared_coercions
  (isEmailValidator : string -> bool)
  (NumberToString : Js.Number -> string) (StringToNumber : string -> Js.Number)
  (dto : ClassValidator.Metadata) (body : Js.Object) :
  dto = Dto.CreateUserDto_class \/ dto = Dto.LoginDto_class ->
  (forall k,
      In k (Js.keys body) -> ClassValidator.declared dto k = false ->
      ValidationPipe.skipped k = false ->
      match ValidationPipe.transform isEmailValidator NumberToString StringToNumber
              dto body with
      | ValidationPipe.Accepted _ => False
      | ValidationPipe.BadRequest messages =>
          In ("property " ++ k ++ " should not exist") messages
      | ValidationPipe.InternalServerError =>
          forallb Js.isPrimitive (map snd body) = false
      end)
  /\ (forall instance,
         ValidationPipe.transform isEmailValidator NumberToString StringToNumber
           Dto.CreateUserDto_class body = ValidationPipe.Accepted instance ->
         (exists n, Spec.asString NumberToString (Js.get "name" body) = Some n
                    /\ Js.get "name" instance = Js.Str (Js.trim n))
         /\ (exists e, Spec.asString NumberToString (Js.get "email" body) = Some e
                       /\ Js.get "email" instance
                          = Js.Str (Js.trim (Js.toLowerCase e)))
         /\ (exists p, Spec.asString NumberToString (Js.get "password" body) = Some p
                       /\ Js.get "password" instance = Js.Str p)
         /\ (exists a, Spec.asNumber StringToNumber (Js.get "age" body) = Some a
                       /\ Js.get "age" instance = Js.Num a))
  /\ (forall instance,
         ValidationPipe.transform isEmailValidator NumberToString StringToNumber
           Dto.LoginDto_class body = ValidationPipe.Accepted instance ->
         (exists e, Spec.asString NumberToString (Js.get "email" body) = Some e
                    /\ Js.get "email" instance
                       = Js.Str (Js.trim (Js.toLowerCase e)))
         /\ (exists p, Spec.asString NumberToString (Js.get "password" body) = Some p
                       /\ Js.get "password" instance = Js.Str p)).
Proof.
  intros Hdto.
  assert (HoptTrim : forall u, Dto.optTrim u
                               = match u with
                                 | Js.Undefined | Js.Null => Some Js.Undefined
                                 | Js.Str s => Some (Js.Str (Js.trim s))
                                 | _ => None
                                 end)
    by (intros u; destruct u; reflexivity).
  assert (HoptLower : forall u, Dto.optLowerTrim u
                                = match u with
                                  | Js.Undefined | Js.Null => Some Js.Undefined
                                  | Js.Str s =>
                                      Some (Js.Str (Js.trim (Js.toLowerCase s)))
                                  | _ => None
                                  end)
    by (intros u; destruct u; reflexivity).
  split; [|split].
  - intros k Hk Hundeclared Hs.
    assert (Hd : distinctConstraints dto).
    { destruct Hdto; subst dto; [apply CreateUserDto_distinct|apply LoginDto_distinct]. }
    pose proof (undeclared_key_reported isEmailValidator NumberToString StringToNumber
                  dto body k Hd Hk Hundeclared Hs) as H.
    destruct (ValidationPipe.transform isEmailValidator NumberToString StringToNumber
                dto body) as [i|m|]; try exact H.
    destruct (forallb Js.isPrimitive (map snd body)) eqn:P; [|reflexivity].
    exfalso.
    destruct (plainToInstance_primitives NumberToString StringToNumber dto body)
      as [inst Hi]; [|exact P|congruence].
    destruct Hdto; subst dto;
      [apply CreateUserDto_primitives|apply LoginDto_primitives].
  - intros instance Hacc.
    destruct (accepted_inversion isEmailValidator NumberToString StringToNumber
                Dto.CreateUserDto_class body instance CreateUserDto_distinct Hacc)
      as [Hi [_ Hall]].
    pose proof (Hall Dto.CreateUserDto_name (or_introl eq_refl)) as Mn.
    pose proof (Hall Dto.CreateUserDto_email (or_intror (or_introl eq_refl))) as Me.
    pose proof (Hall Dto.CreateUserDto_password
                  (or_intror (or_intror (or_introl eq_refl)))) as Mp.
    pose proof (Hall Dto.CreateUserDto_age
                  (or_intror (or_intror (or_intror (or_introl eq_refl))))) as Ma.
    cbn [ClassValidator.propertyName Dto.CreateUserDto_name Dto.CreateUserDto_email
         Dto.CreateUserDto_password Dto.CreateUserDto_age] in Mn, Me, Mp, Ma.
    pose proof (plainToInstance_get NumberToString StringToNumber _ _ _ "name"
                  Dto.CreateUserDto_name
                  (CreateUserDto_regular NumberToString StringToNumber) Hi eq_refl) as Tn.
    pose proof (plainToInstance_get NumberToString StringToNumber _ _ _ "email"
                  Dto.CreateUserDto_email
                  (CreateUserDto_regular NumberToString StringToNumber) Hi eq_refl) as Te.
    pose proof (plainToInstance_get NumberToString StringToNumber _ _ _ "password"
                  Dto.CreateUserDto_password
                  (CreateUserDto_regular NumberToString StringToNumber) Hi eq_refl) as Tp.
    pose proof (plainToInstance_get NumberToString StringToNumber _ _ _ "age"
                  Dto.CreateUserDto_age
                  (CreateUserDto_regular NumberToString StringToNumber) Hi eq_refl) as Ta.
    apply name_field_accepted in Mn. destruct Mn as [n [En _]].
    apply email_field_accepted in Me. destruct Me as [e [Ee _]].
    apply password_field_accepted in Mp. destruct Mp as [p [Ep _]].
    apply age_field_accepted in Ma. destruct Ma as [a [z [Ea _]]].
    rewrite En in Tn. rewrite Ee in Te. rewrite Ep in Tp. rewrite Ea in Ta.
    apply (stored_transformed_string NumberToString StringToNumber
             Dto.CreateUserDto_name _ Js.trim Dto.optTrim n eq_refl eq_refl HoptTrim)
      in Tn.
    apply (stored_transformed_string NumberToString StringToNumber
             Dto.CreateUserDto_email _ (fun s => Js.trim (Js.toLowerCase s))
             Dto.optLowerTrim e eq_refl eq_refl HoptLower) in Te.
    apply (stored_string NumberToString StringToNumber
             Dto.CreateUserDto_password _ p eq_refl eq_refl) in Tp.
    apply (stored_number NumberToString StringToNumber
             Dto.CreateUserDto_age _ a eq_refl eq_refl) in Ta.
    destruct Tn as [rn [Hrn ->]]. destruct Te as [re [Hre ->]].
    split; [exists rn; auto|]. split; [exists re; auto|].
    split; [exists p; auto|]. exists a; auto.
  - intros instance Hacc.
    destruct (accepted_inversion isEmailValidator NumberToString StringToNumber
                Dto.LoginDto_class body instance LoginDto_distinct Hacc)
      as [Hi [_ Hall]].
    pose proof (Hall Dto.LoginDto_email (or_introl eq_refl)) as Me.
    pose proof (Hall Dto.LoginDto_password (or_intror (or_introl eq_refl))) as Mp.
    cbn [ClassValidator.propertyName Dto.LoginDto_email Dto.LoginDto_password]
      in Me, Mp.
    pose proof (plainToInstance_get NumberToString StringToNumber _ _ _ "email"
                  Dto.LoginDto_email
                  (LoginDto_regular NumberToString StringToNumber) Hi eq_refl) as Te.
    pose proof (plainToInstance_get NumberToString StringToNumber _ _ _ "password"
                  Dto.LoginDto_password
                  (LoginDto_regular NumberToString StringToNumber) Hi eq_refl) as Tp.
    apply (email_field_accepted isEmailValidator) in Me. destruct Me as [e [Ee _]].
    apply login_password_field_accepted in Mp. destruct Mp as [p [Ep _]].
    rewrite Ee in Te. rewrite Ep in Tp.
    apply (stored_transformed_string NumberToString StringToNumber
             Dto.LoginDto_email _ (fun s => Js.trim (Js.toLowerCase s))
             Dto.optLowerTrim e eq_refl eq_refl HoptLower) in Te.
    apply (stored_string NumberToString StringToNumber
             Dto.LoginDto_password _ p eq_refl eq_refl) in Tp.
    destruct Te as [re [Hre ->]].
    split; [exists re; auto|]. exists p; auto.
Qed.

(** A registration body with the extra field [role] is rejected with the
    message naming it. *)
Lemma strict_schema_and_declared_coercions_witness :
  exists messages,
    Demo.transform Dto.CreateUserDto_class (("role", Js.Str "admin") :: Demo.jean)
    = ValidationPipe.BadRequest messages
    /\ In "property role should not exist" messages.
Proof.
  pose proof (proj1 (strict_schema_and_declared_coercions
                       Demo.isEmailValidator Demo.NumberToString Demo.StringToNumber
                       Dto.CreateUserDto_class (("role", Js.Str "admin") :: Demo.jean)
                       (or_introl eq_refl)) "role"
                (or_introl eq_refl) eq_refl eq_refl) as H.
  unfold Demo.transform.
  destruct (ValidationPipe.transform Demo.isEmailValidator Demo.NumberToString
              Demo.StringToNumber Dto.CreateUserDto_class
              (("role", Js.Str "admin") :: Demo.jean)) as [i|m|].
  - contradiction.
  - exists m. split; [reflexivity|exact H].
  - discriminate H.
Defined.

(** ** The stated rules against the decorators *)

Section RuleFacts.
Import Js ClassValidator ValidationPipe.
Variable isEmailValidator : string -> bool.
Variable NumberToString : Number -> string.
Variable StringToNumber : string -> Number.















End RuleFacts.




(* ===================================================================== *)
(** * Further properties of the validation pipe *)

(** X1. A registration body with distinct keys is accepted by the pipe
    exactly when each of its keys is declared or skipped and, with
    [String(value)] of the raw name, email and password and
    [Number(value)] of the raw age: the trimmed name has 2 to 50 characters
    of the name alphabet; the lower-cased, trimmed email is non-empty and
    passes [isEmail]; the password has 8 to 128 characters and matches the
    password pattern; the age is an integer from 13 to 120. *)
Theorem registration_accepted_iff
  (isEmailValidator : string -> bool)
  (NumberToString : Js.Number -> string) (StringToNumber : string -> Js.Number)
  (body : Js.Object) :
  NoDup (Js.keys body) ->
  ((exists instance,
       ValidationPipe.transform isEmailValidator NumberToString StringToNumber
         Dto.CreateUserDto_class body = ValidationPipe.Accepted instance)
   <-> forallb (fun k => ClassValidator.declared Dto.CreateUserDto_class k
                         || ValidationPipe.skipped k) (Js.keys body) = true
       /\ (exists n,
              Spec.asString NumberToString (Js.get "name" body) = Some n
              /\ 2 <= String.length (Js.trim n) /\ String.length (Js.trim n) <= 50
              /\ Pattern.allOf Pattern.nameChar (Js.trim n) = true)
       /\ (exists e,
              Spec.asString NumberToString (Js.get "email" body) = Some e
              /\ Js.trim (Js.toLowerCase e) <> ""
              /\ isEmailValidator (Js.trim (Js.toLowerCase e)) = true)
       /\ (exists p,
              Spec.asString NumberToString (Js.get "password" body) = Some p
              /\ 8 <= String.length p /\ String.length p <= 128
              /\ Pattern.passwordPattern p = true)
       /\ (exists a z,
              Spec.asNumber StringToNumber (Js.get "age" body) = Some a
              /\ Js.toZ a = Some z /\ (13 <= z <= 120)%Z)).
Proof.
  intros Hnd.
  assert (HoptTrim : forall u, Dto.optTrim u
                               = match u with
                                 | Js.Undefined | Js.Null => Some Js.Undefined
                                 | Js.Str s => Some (Js.Str (Js.trim s))
                                 | _ => None
                                 end)
    by (intros u; destruct u; reflexivity).
  assert (HoptLower : forall u, Dto.optLowerTrim u
                                = match u with
                                  | Js.Undefined | Js.Null => Some Js.Undefined
                                  | Js.Str s =>
                                      Some (Js.Str (Js.trim (Js.toLowerCase s)))
                                  | _ => None
                                  end)
    by (intros u; destruct u; reflexivity).
  rewrite (accepted_iff isEmailValidator NumberToString StringToNumber
             Dto.CreateUserDto_class body
             (CreateUserDto_regular NumberToString StringToNumber)
             CreateUserDto_distinct Hnd).
  split.
  - intros [Hk Hall]. split; [exact Hk|].
    destruct (Hall Dto.CreateUserDto_name (or_introl eq_refl)) as [vn [Tn Mn]].
    destruct (Hall Dto.CreateUserDto_email (or_intror (or_introl eq_refl)))
      as [ve [Te Me]].
    destruct (Hall Dto.CreateUserDto_password
                (or_intror (or_intror (or_introl eq_refl)))) as [vp [Tp Mp]].
    destruct (Hall Dto.CreateUserDto_age
                (or_intror (or_intror (or_intror (or_introl eq_refl)))))
      as [va [Ta Ma]].
    cbn [ClassValidator.propertyName Dto.CreateUserDto_name Dto.CreateUserDto_email
         Dto.CreateUserDto_password Dto.CreateUserDto_age] in Tn, Te, Tp, Ta.
    apply name_field_accepted in Mn. destruct Mn as [n [-> Hn]].
    apply email_field_accepted in Me. destruct Me as [e [-> He]].
    apply password_field_accepted in Mp. destruct Mp as [p [-> Hp]].
    apply age_field_accepted in Ma. destruct Ma as [a [z [-> Ha]]].
    apply (stored_transformed_string NumberToString StringToNumber
             Dto.CreateUserDto_name _ Js.trim Dto.optTrim n eq_refl eq_refl HoptTrim)
      in Tn.
    apply (stored_transformed_string NumberToString StringToNumber
             Dto.CreateUserDto_email _ (fun s => Js.trim (Js.toLowerCase s))
             Dto.optLowerTrim e eq_refl eq_refl HoptLower) in Te.
    apply (stored_string NumberToString StringToNumber
             Dto.CreateUserDto_password _ p eq_refl eq_refl) in Tp.
    apply (stored_number NumberToString StringToNumber
             Dto.CreateUserDto_age _ a eq_refl eq_refl) in Ta.
    destruct Tn as [rn [Hrn ->]]. destruct Te as [re [Hre ->]].
    split; [exists rn; auto|]. split; [exists re; auto|].
    split; [exists p; auto|]. exists a, z. auto.
  - intros [Hk [[n [Tn Hn]] [[e [Te He]] [[p [Tp Hp]] [a [z [Ta Ha]]]]]]].
    split; [exact Hk|]. simpl. intros q Hq.
    destruct Hq as [<-|[<-|[<-|[<-|[]]]]];
      cbn [ClassValidator.propertyName Dto.CreateUserDto_name Dto.CreateUserDto_email
           Dto.CreateUserDto_password Dto.CreateUserDto_age].
    + exists (Js.Str (Js.trim n)). split.
      * apply (stored_transformed_string NumberToString StringToNumber
                 Dto.CreateUserDto_name _ Js.trim Dto.optTrim (Js.trim n)
                 eq_refl eq_refl HoptTrim).
        exists n. auto.
      * apply name_field_accepted. eauto.
    + exists (Js.Str (Js.trim (Js.toLowerCase e))). split.
      * apply (stored_transformed_string NumberToString StringToNumber
                 Dto.CreateUserDto_email _ (fun s => Js.trim (Js.toLowerCase s))
                 Dto.optLowerTrim (Js.trim (Js.toLowerCase e))
                 eq_refl eq_refl HoptLower).
        exists e. auto.
      * apply email_field_accepted. eauto.
    + exists (Js.Str p). split.
      * now apply (stored_string NumberToString StringToNumber
                     Dto.CreateUserDto_password _ p eq_refl eq_refl).
      * apply password_field_accepted. eauto.
    + exists (Js.Num a). split.
      * now apply (stored_number NumberToString StringToNumber
                     Dto.CreateUserDto_age _ a eq_refl eq_refl).
      * apply age_field_accepted. eauto.
Qed.

(** Jean's body with the keys [toString] and [__proto__] added is
    accepted: the two keys are skipped. *)
Lemma registration_accepted_iff_witness :
  exists instance,
    ValidationPipe.transform Demo.isEmailValidator Demo.NumberToString
      Demo.StringToNumber Dto.CreateUserDto_class
      (Demo.jean ++ [ ("toString", Js.Str "x"); ("__proto__", Js.Null) ])%list
    = ValidationPipe.Accepted instance.
Proof.
  apply (proj2 (registration_accepted_iff
                  Demo.isEmailValidator Demo.NumberToString Demo.StringToNumber
                  (Demo.jean ++ [ ("toString", Js.Str "x"); ("__proto__", Js.Null) ])%list
                  ltac:(repeat constructor; simpl; intuition discriminate))).
  split; [reflexivity|].
  split; [exists "Jean Dupont"; repeat split; vm_compute; try reflexivity; lia|].
  split; [exists "Jean@Example.COM"; repeat split; vm_compute; discriminate|].
  split; [exists "Secure1!abc"; repeat split; vm_compute; try reflexivity; lia|].
  exists (Js.ofZ 30), 30%Z. repeat split; vm_compute; try reflexivity; discriminate.
Defined.

(** X2. A login body with distinct keys is accepted by the pipe exactly
    when each of its keys is declared or skipped, the lower-cased, trimmed
    [String(value)] of its email is non-empty and passes [isEmail], and
    [String(value)] of its password is non-empty: no length bound and no
    pattern apply. *)
Theorem login_accepted_iff
  (isEmailValidator : string -> bool)
  (NumberToString : Js.Number -> string) (StringToNumber : string -> Js.Number)
  (body : Js.Object) :
  NoDup (Js.keys body) ->
  ((exists instance,
       ValidationPipe.transform isEmailValidator NumberToString StringToNumber
         Dto.LoginDto_class body = ValidationPipe.Accepted instance)
   <-> forallb (fun k => ClassValidator.declared Dto.LoginDto_class k
                         || ValidationPipe.skipped k) (Js.keys body) = true
       /\ (exists e,
              Spec.asString NumberToString (Js.get "email" body) = Some e
              /\ Js.trim (Js.toLowerCase e) <> ""
              /\ isEmailValidator (Js.trim (Js.toLowerCase e)) = true)
       /\ (exists p,
              Spec.asString NumberToString (Js.get "password" body) = Some p
              /\ p <> "")).
Proof.
  intros Hnd.
  assert (HoptLower : forall u, Dto.optLowerTrim u
                                = match u with
                                  | Js.Undefined | Js.Null => Some Js.Undefined
                                  | Js.Str s =>
                                      Some (Js.Str (Js.trim (Js.toLowerCase s)))
                                  | _ => None
                                  end)
    by (intros u; destruct u; reflexivity).
  rewrite (accepted_iff isEmailValidator NumberToString StringToNumber
             Dto.LoginDto_class body
             (LoginDto_regular NumberToString StringToNumber)
             LoginDto_distinct Hnd).
  split.
  - intros [Hk Hall]. split; [exact Hk|].
    destruct (Hall Dto.LoginDto_email (or_introl eq_refl)) as [ve [Te Me]].
    destruct (Hall Dto.LoginDto_password (or_intror (or_introl eq_refl)))
      as [vp [Tp Mp]].
    cbn [ClassValidator.propertyName Dto.LoginDto_email Dto.LoginDto_password]
      in Te, Tp.
    apply (email_field_accepted isEmailValidator ve) in Me.
    destruct Me as [e [-> He]].
    apply login_password_field_accepted in Mp. destruct Mp as [p [-> Hp]].
    apply (stored_transformed_string NumberToString StringToNumber
             Dto.LoginDto_email _ (fun s => Js.trim (Js.toLowerCase s))
             Dto.optLowerTrim e eq_refl eq_refl HoptLower) in Te.
    apply (stored_string NumberToString StringToNumber
             Dto.LoginDto_password _ p eq_refl eq_refl) in Tp.
    destruct Te as [re [Hre ->]].
    split; [exists re; auto|]. exists p; auto.
  - intros [Hk [[e [Te He]] [p [Tp Hp]]]].
    split; [exact Hk|]. simpl. intros q Hq.
    destruct Hq as [<-|[<-|[]]];
      cbn [ClassValidator.propertyName Dto.LoginDto_email Dto.LoginDto_password].
    + exists (Js.Str (Js.trim (Js.toLowerCase e))). split.
      * apply (stored_transformed_string NumberToString StringToNumber
                 Dto.LoginDto_email _ (fun s => Js.trim (Js.toLowerCase s))
                 Dto.optLowerTrim (Js.trim (Js.toLowerCase e))
                 eq_refl eq_refl HoptLower).
        exists e. auto.
      * apply (email_field_accepted isEmailValidator
                 (Js.Str (Js.trim (Js.toLowerCase e)))). eauto.
    + exists (Js.Str p). split.
      * now apply (stored_string NumberToString StringToNumber
                     Dto.LoginDto_password _ p eq_refl eq_refl).
      * apply login_password_field_accepted. eauto.
Qed.

(** A login body with the one-character password ["x"] is accepted. *)
Lemma login_accepted_iff_witness :
  exists instance,
    ValidationPipe.transform Demo.isEmailValidator Demo.NumberToString
      Demo.StringToNumber Dto.LoginDto_class
      [ ("email", Js.Str " Jean@Example.COM "); ("password", Js.Str "x") ]
    = ValidationPipe.Accepted instance.
Proof.
  apply (proj2 (login_accepted_iff
                  Demo.isEmailValidator Demo.NumberToString Demo.StringToNumber
                  [ ("email", Js.Str " Jean@Example.COM "); ("password", Js.Str "x") ]
                  ltac:(repeat constructor; simpl; intuition discriminate))).
  split; [reflexivity|].
  split; [exists " Jean@Example.COM "; repeat split; vm_compute; discriminate|].
  exists "x". split; [reflexivity|discriminate].
Defined.

Lemma plainToInstance_cons_declared
  (NumberToString : Js.Number -> string) (StringToNumber : string -> Js.Number)
  (dto : ClassValidator.Metadata) k v rest p v' rest' :
  ValidationPipe.skipped k = false ->
  ClassValidator.findProperty k dto = Some p ->
  ValidationPipe.transformProperty NumberToString StringToNumber p v = Some v' ->
  ValidationPipe.plainToInstance NumberToString StringToNumber dto rest = Some rest' ->
  ValidationPipe.plainToInstance NumberToString StringToNumber dto ((k, v) :: rest)
  = Some ((k, v') :: rest').
Proof. intros Hs Hf Hv Hr. simpl. now rewrite Hs, Hf, Hv, Hr. Qed.

(** X3. The email and password of an accepted registration body, sent as a
    login body, are accepted by the login pipe, and the login DTO carries
    the same normalized email and the same password as the registration
    instance. *)
Theorem registered_credentials_pass_login_validation
  (isEmailValidator : string -> bool)
  (NumberToString : Js.Number -> string) (StringToNumber : string -> Js.Number)
  (body instance : Js.Object) :
  ValidationPipe.transform isEmailValidator NumberToString StringToNumber
    Dto.CreateUserDto_class body = ValidationPipe.Accepted instance ->
  exists e p,
    Js.get "email" instance = Js.Str e
    /\ Js.get "password" instance = Js.Str p
    /\ ValidationPipe.transform isEmailValidator NumberToString StringToNumber
         Dto.LoginDto_class
         [ ("email", Js.get "email" body); ("password", Js.get "password" body) ]
       = ValidationPipe.Accepted [ ("email", Js.Str e); ("password", Js.Str p) ]
    /\ Dto.asLoginDto [ ("email", Js.Str e); ("password", Js.Str p) ]
       = Some {| Dto.login_email := e; Dto.login_password := p |}.
Proof.
  intros Hacc.
  destruct (accepted_inversion isEmailValidator NumberToString StringToNumber
              Dto.CreateUserDto_class body instance
              CreateUserDto_distinct Hacc) as [Hi [_ Hall]].
  pose proof (Hall Dto.CreateUserDto_email (or_intror (or_introl eq_refl))) as Me.
  pose proof (Hall Dto.CreateUserDto_password
                (or_intror (or_intror (or_introl eq_refl)))) as Mp.
  cbn [ClassValidator.propertyName Dto.CreateUserDto_email
       Dto.CreateUserDto_password] in Me, Mp.
  pose proof (plainToInstance_get NumberToString StringToNumber _ _ _ "email"
                Dto.CreateUserDto_email
                (CreateUserDto_regular NumberToString StringToNumber) Hi eq_refl) as Te.
  pose proof (plainToInstance_get NumberToString StringToNumber _ _ _ "password"
                Dto.CreateUserDto_password
                (CreateUserDto_regular NumberToString StringToNumber) Hi eq_refl) as Tp.
  destruct (proj1 (email_field_accepted isEmailValidator _) Me) as [e [Ee [Hne Hmail]]].
  destruct (proj1 (password_field_accepted isEmailValidator _) Mp)
    as [p [Ep [Hmin _]]].
  rewrite Ee in Te. rewrite Ep in Tp.
  exists e, p. split; [exact Ee|]. split; [exact Ep|]. split; [|reflexivity].
  apply (accepted_intro isEmailValidator NumberToString StringToNumber
           Dto.LoginDto_class _ _ LoginDto_distinct).
  - apply (plainToInstance_cons_declared NumberToString StringToNumber
             Dto.LoginDto_class "email" _ _ Dto.LoginDto_email (Js.Str e)
             [("password", Js.Str p)]);
      [reflexivity|reflexivity|exact Te|].
    apply (plainToInstance_cons_declared NumberToString StringToNumber
             Dto.LoginDto_class "password" _ _ Dto.LoginDto_password (Js.Str p) []);
      [reflexivity|reflexivity|exact Tp|reflexivity].
  - reflexivity.
  - intros q [<-|[<-|[]]]; cbn [ClassValidator.propertyName Dto.LoginDto_email
                                 Dto.LoginDto_password Js.get String.eqb Ascii.eqb
                                 Bool.eqb].
    + apply (email_field_accepted isEmailValidator (Js.Str e)). eauto.
    + apply login_password_field_accepted. exists p. split; [reflexivity|].
      intros ->. simpl in Hmin. lia.
Qed.

(** Jean's registration body: its credentials pass the login pipe with
    the email lower-cased. *)
Lemma registered_credentials_pass_login_validation_witness :
  ValidationPipe.transform Demo.isEmailValidator Demo.NumberToString
    Demo.StringToNumber Dto.LoginDto_class
    [ ("email", Js.Str "Jean@Example.COM"); ("password", Js.Str "Secure1!abc") ]
  = ValidationPipe.Accepted
      [ ("email", Js.Str "jean@example.com"); ("password", Js.Str "Secure1!abc") ].
Proof.
  destruct (registered_credentials_pass_login_validation
              Demo.isEmailValidator Demo.NumberToString Demo.StringToNumber
              Demo.jean
              [ ("name", Js.Str "Jean Dupont"); ("email", Js.Str "jean@example.com");
                ("password", Js.Str "Secure1!abc"); ("age", Js.Num (Js.ofZ 30)) ])
    as [e [p [He [Hp [Hlogin _]]]]].
  - vm_compute. reflexivity.
  - vm_compute in He, Hp. inversion He; inversion Hp; subst. exact Hlogin.
Defined.

(** X4. A registration or login body in which a declared field is absent
    or [null] is never accepted: it is rejected with a non-empty list of
    messages, or, only when the body carries an array or an object, with
    a 500. *)
Theorem missing_or_null_field_is_rejected
  (isEmailValidator : string -> bool)
  (NumberToString : Js.Number -> string) (StringToNumber : string -> Js.Number)
  (dto : ClassValidator.Metadata) (p : ClassValidator.Property) (body : Js.Object) :
  dto = Dto.CreateUserDto_class \/ dto = Dto.LoginDto_class ->
  In p dto ->
  Js.get (ClassValidator.propertyName p) body = Js.Undefined
  \/ Js.get (ClassValidator.propertyName p) body = Js.Null ->
  match ValidationPipe.transform isEmailValidator NumberToString StringToNumber
          dto body with
  | ValidationPipe.Accepted _ => False
  | ValidationPipe.BadRequest messages => messages <> []
  | ValidationPipe.InternalServerError =>
      forallb Js.isPrimitive (map snd body) = false
  end.
Proof.
  intros Hdto Hp Hmissing.
  assert (Ht : regularClass NumberToString StringToNumber dto).
  { destruct Hdto; subst dto; [apply CreateUserDto_regular|apply LoginDto_regular]. }
  assert (Hd : distinctConstraints dto).
  { destruct Hdto; subst dto; [apply CreateUserDto_distinct|apply LoginDto_distinct]. }
  destruct (transform_outcome isEmailValidator NumberToString StringToNumber
              dto body Hd) as [[Hi Ho]|[instance [Hi [[_ Ho]|[Hz Ho]]]]].
  - rewrite Ho.
    destruct (forallb Js.isPrimitive (map snd body)) eqn:P; [|reflexivity].
    exfalso.
    destruct (plainToInstance_primitives NumberToString StringToNumber dto body)
      as [inst Hinst]; [|exact P|congruence].
    destruct Hdto; subst dto;
      [apply CreateUserDto_primitives|apply LoginDto_primitives].
  - exfalso.
    destruct (accepted_inversion isEmailValidator NumberToString StringToNumber
                dto body instance Hd Ho) as [_ [_ Hall]].
    pose proof (Hall p Hp) as Mv.
    pose proof (plainToInstance_get NumberToString StringToNumber dto body instance
                  (ClassValidator.propertyName p) p Ht Hi
                  (proj1 (proj2 (regular_property NumberToString StringToNumber
                                   dto p Ht Hp)))) as Tv.
    assert (Hv : Js.get (ClassValidator.propertyName p) instance = Js.Undefined
                 \/ Js.get (ClassValidator.propertyName p) instance = Js.Null).
    { destruct Hdto; subst dto; simpl in Hp;
        repeat (destruct Hp as [Hp|Hp]; [subst p|]); try contradiction;
        destruct Hmissing as [Hm|Hm]; rewrite Hm in Tv;
        vm_compute in Tv; inversion Tv; auto. }
    destruct Hdto; subst dto; simpl in Hp;
      repeat (destruct Hp as [Hp|Hp]; [subst p|]); try contradiction;
      destruct Hv as [Hv|Hv]; rewrite Hv in Mv; vm_compute in Mv; discriminate Mv.
  - rewrite Ho. intros E.
    pose proof (reportedMessages_length isEmailValidator dto instance) as L.
    rewrite E in L. simpl in L. lia.
Qed.

(** Jean's body without the age is rejected. *)
Lemma missing_or_null_field_is_rejected_witness :
  exists messages,
    Demo.transform Dto.CreateUserDto_class
      [ ("name", Js.Str "Jean Dupont"); ("email", Js.Str "Jean@Example.COM");
        ("password", Js.Str "Secure1!abc") ]
    = ValidationPipe.BadRequest messages
    /\ messages <> [].
Proof.
  pose proof (missing_or_null_field_is_rejected
                Demo.isEmailValidator Demo.NumberToString Demo.StringToNumber
                Dto.CreateUserDto_class Dto.CreateUserDto_age
                [ ("name", Js.Str "Jean Dupont"); ("email", Js.Str "Jean@Example.COM");
                  ("password", Js.Str "Secure1!abc") ]
                (or_introl eq_refl)
                (or_intror (or_intror (or_intror (or_introl eq_refl))))
                (or_introl eq_refl)) as H.
  unfold Demo.transform.
  destruct (ValidationPipe.transform Demo.isEmailValidator Demo.NumberToString
              Demo.StringToNumber Dto.CreateUserDto_class
              [ ("name", Js.Str "Jean Dupont"); ("email", Js.Str "Jean@Example.COM");
                ("password", Js.Str "Secure1!abc") ]) as [i|m|].
  - contradiction.
  - exists m. split; [reflexivity|exact H].
  - discriminate H.
Defined.

(* ===================================================================== *)
(** * Further properties of the email normalization *)

Section NormalizationFacts.
Import Js Pattern.

Lemma isUpperCase_lowerChar c : isUpperCase (lowerChar c) = false.
Proof. destruct c as [[] [] [] [] [] [] [] []]; vm_compute; reflexivity. Qed.

Lemma toLowerCase_app s t : toLowerCase (s ++ t) = toLowerCase s ++ toLowerCase t.
Proof. induction s as [|c rest IH]; simpl; [reflexivity|now rewrite IH]. Qed.

Lemma allOf_whitespace_lower pad :
  allOf isWhiteSpace pad = true -> allOf isWhiteSpace (toLowerCase pad) = true.
Proof.
  induction pad as [|c rest IH]; simpl; [reflexivity|].
  rewrite isWhiteSpace_lowerChar. intros H. apply andb_true_iff in H.
  destruct H as [Hc Hr]. now rewrite Hc, IH.
Qed.

Lemma allOf_trimStart C s : allOf C s = true -> allOf C (trimStart s) = true.
Proof.
  induction s as [|c rest IH]; simpl; [reflexivity|]. intros H.
  destruct (isWhiteSpace c); [|exact H].
  apply andb_true_iff in H. now apply IH.
Qed.

Lemma allOf_trimEnd C s : allOf C s = true -> allOf C (trimEnd s) = true.
Proof.
  induction s as [|c rest IH]; simpl; [reflexivity|]. intros H.
  apply andb_true_iff in H. destruct H as [Hc Hr]. specialize (IH Hr).
  destruct (trimEnd rest) as [|k kept].
  - destruct (isWhiteSpace c); simpl; [reflexivity|now rewrite Hc].
  - change (allOf C (String c (String k kept)))
      with (C c && allOf C (String k kept)).
    now rewrite Hc, IH.
Qed.

Lemma trimStart_whitespace pad : allOf isWhiteSpace pad = true -> trimStart pad = "".
Proof.
  induction pad as [|c rest IH]; simpl; [reflexivity|]. intros H.
  apply andb_true_iff in H. destruct H as [Hc Hr]. rewrite Hc. now apply IH.
Qed.

Lemma trimEnd_whitespace pad : allOf isWhiteSpace pad = true -> trimEnd pad = "".
Proof.
  induction pad as [|c rest IH]; simpl; [reflexivity|]. intros H.
  apply andb_true_iff in H. destruct H as [Hc Hr]. now rewrite IH, Hc.
Qed.

Lemma trimStart_pad pad s :
  allOf isWhiteSpace pad = true -> trimStart (pad ++ s) = trimStart s.
Proof.
  induction pad as [|c rest IH]; simpl; [reflexivity|]. intros H.
  apply andb_true_iff in H. destruct H as [Hc Hr]. rewrite Hc. now apply IH.
Qed.

Lemma trimEnd_pad s pad :
  allOf isWhiteSpace pad = true -> trimEnd (s ++ pad) = trimEnd s.
Proof.
  intros H. induction s as [|c rest IH]; simpl.
  - now apply trimEnd_whitespace.
  - now rewrite IH.
Qed.

Lemma trim_pad pad s pad' :
  allOf isWhiteSpace pad = true -> allOf isWhiteSpace pad' = true ->
  trim (pad ++ s ++ pad') = trim s.
Proof.
  intros Hp Hp'. unfold trim. rewrite trimStart_pad by exact Hp.
  induction s as [|c rest IH]; simpl.
  - now rewrite trimStart_whitespace.
  - destruct (isWhiteSpace c); [exact IH|].
    apply (trimEnd_pad (String c rest) pad' Hp').
Qed.

Lemma trimEnd_last s t c :
  trimEnd s = t ++ String c "" -> isWhiteSpace c = false.
Proof.
  revert t. induction s as [|a rest IH]; simpl; intros t H.
  - destruct t; discriminate H.
  - destruct (trimEnd rest) as [|k kept] eqn:E.
    + destruct (isWhiteSpace a) eqn:W; [destruct t; discriminate H|].
      destruct t as [|b t]; simpl in H; inversion H; subst; [exact W|].
      destruct t; discriminate.
    + destruct t as [|b t]; simpl in H; inversion H; subst.
      now apply (IH t).
Qed.

End NormalizationFacts.

(** X5. The email normalization [toLowerCase().trim()] ignores surrounding
    whitespace and an earlier lower-casing, is idempotent, and its result has
    no upper-case letter, no leading and no trailing whitespace. *)
Theorem email_normalization_is_canonical (s pad pad' : string) :
  Pattern.allOf Js.isWhiteSpace pad = true ->
  Pattern.allOf Js.isWhiteSpace pad' = true ->
  Dto.normalizeEmail (pad ++ s ++ pad') = Dto.normalizeEmail s
  /\ Dto.normalizeEmail (Js.toLowerCase s) = Dto.normalizeEmail s
  /\ Dto.normalizeEmail (Dto.normalizeEmail s) = Dto.normalizeEmail s
  /\ Pattern.allOf (fun c => negb (Js.isUpperCase c)) (Dto.normalizeEmail s) = true
  /\ Pattern.startsWith Js.isWhiteSpace (Dto.normalizeEmail s) = false
  /\ (forall t c, Dto.normalizeEmail s = t ++ String c "" -> Js.isWhiteSpace c = false).
Proof.
  intros Hp Hp'. unfold Dto.normalizeEmail. repeat apply conj.
  - rewrite !toLowerCase_app.
    apply trim_pad; now apply allOf_whitespace_lower.
  - now rewrite toLowerCase_idempotent.
  - apply normalizeEmail_idempotent.
  - unfold Js.trim. apply allOf_trimEnd, allOf_trimStart.
    induction s as [|c rest IH]; simpl; [reflexivity|].
    now rewrite isUpperCase_lowerChar, IH.
  - unfold Js.trim. apply startsWith_trimEnd, startsWith_trimStart.
  - intros t c H. unfold Js.trim in H. now apply trimEnd_last in H.
Qed.

(** ["\t Jean@Example.COM  "] and ["jean@example.com"] normalize alike. *)
Lemma email_normalization_is_canonical_witness :
  Dto.normalizeEmail (String (ascii_of_nat 9) " " ++ "Jean@Example.COM" ++ "  ")
  = "jean@example.com".
Proof.
  refine (eq_trans
            (proj1 (email_normalization_is_canonical "Jean@Example.COM"
                      (String (ascii_of_nat 9) " ") "  " _ _)) _);
    vm_compute; reflexivity.
Defined.

(* ===================================================================== *)
(** * Further properties of the user services *)

Section StoreFacts.
Import Js Prisma.
Variable isEmailValidator : string -> bool.
Variable NumberToString : Number -> string.
Variable StringToNumber : string -> Number.
Variable Token : Type.
Variable cuid : nat -> string.
Variable bcrypt_hash : string -> nat -> nat -> string.
Variable jwtSign : JwtPayload -> nat -> Token.

Let controllerRegister :=
  UserController.register isEmailValidator NumberToString StringToNumber
    Token cuid bcrypt_hash jwtSign.
Let reach :=
  reachable isEmailValidator NumberToString StringToNumber
    Token cuid bcrypt_hash jwtSign.

(** A registration fails and returns the world as it was, or succeeds with
    the world extended by one row built from the accepted DTO. *)
Lemma controller_register_world body w :
  (exists e, controllerRegister body w = (Throw e, w))
  \/ exists instance dto token,
       ValidationPipe.transform isEmailValidator NumberToString StringToNumber
         Dto.CreateUserDto_class body = ValidationPipe.Accepted instance
       /\ Dto.asCreateUserDto instance = Some dto
       /\ findUniqueByEmail (Dto.email dto) (users w) = None
       /\ controllerRegister body w
          = (Return token,
             {| users := users w
                         ++ [ {| id := cuid (created w);
                                 name := Dto.name dto;
                                 email := Dto.email dto;
                                 password := bcrypt_hash (Dto.password dto)
                                               UserService.saltRounds (hashed w);
                                 age := Dto.age dto |} ];
                created := S (created w);
                hashed := S (hashed w);
                signed := S (signed w) |}).
Proof.
  destruct (controller_register_cases isEmailValidator NumberToString StringToNumber
              Token cuid bcrypt_hash jwtSign body w)
    as [[e [He _]]|[instance [dto [Hacc [Hdto Hc]]]]].
  - left. now exists e.
  - unfold controllerRegister. rewrite Hc.
    destruct (findUniqueByEmail (Dto.email dto) (users w)) as [u|] eqn:F.
    + left. eexists.
      apply (service_register_conflict Token cuid bcrypt_hash jwtSign dto w u F).
    + right. exists instance, dto. eexists.
      split; [exact Hacc|]. split; [exact Hdto|]. split; [exact F|].
      apply (service_register_fresh Token cuid bcrypt_hash jwtSign dto w F).
Qed.

Lemma reachable_counters w :
  reach w ->
  created w = List.length (users w)
  /\ hashed w = List.length (users w)
  /\ signed w = List.length (users w)
  /\ map id (users w) = map cuid (seq 0 (List.length (users w))).
Proof.
  induction 1 as [|body w Hr [Hc [Hh [Hs Hids]]]]; [simpl; auto|].
  destruct (controller_register_world body w)
    as [[e He]|[instance [dto [token [_ [_ [_ Hreg]]]]]]];
    unfold controllerRegister in *.
  - rewrite He. simpl. auto.
  - rewrite Hreg. simpl. rewrite !length_app. simpl.
    rewrite Nat.add_1_r. repeat split; try congruence.
    rewrite map_app, Hids, seq_S, map_app. simpl. now rewrite Hc.
Qed.

Lemma findUniqueById_app i rows row :
  findUniqueById i (rows ++ [row])
  = match findUniqueById i rows with
    | Some u => Some u
    | None => if String.eqb (id row) i then Some row else None
    end.
Proof.
  unfold findUniqueById. induction rows as [|u rest IH]; simpl; [reflexivity|].
  destruct (String.eqb (id u) i); [reflexivity|exact IH].
Qed.

Lemma findUniqueById_None i rows :
  ~ In i (map id rows) -> findUniqueById i rows = None.
Proof.
  unfold findUniqueById. induction rows as [|u rest IH]; simpl; [reflexivity|].
  intros H. destruct (String.eqb (id u) i) eqn:E.
  - apply String.eqb_eq in E. exfalso. apply H. now left.
  - apply IH. intros Hin. apply H. now right.
Qed.

Lemma findUniqueById_NoDup rows u :
  NoDup (map id rows) -> In u rows -> findUniqueById (id u) rows = Some u.
Proof.
  unfold findUniqueById. induction rows as [|r rest IH]; simpl; intros Hnd Hin;
    [contradiction|].
  inversion Hnd as [|? ? Hnotin Hrest]; subst.
  destruct Hin as [->|Hin]; [now rewrite String.eqb_refl|].
  destruct (String.eqb (id r) (id u)) eqn:E; [|now apply IH].
  apply String.eqb_eq in E. exfalso. apply Hnotin. rewrite E. now apply in_map.
Qed.

Lemma fresh_id_not_stored w :
  (forall a b, cuid a = cuid b -> a = b) ->
  reach w -> ~ In (cuid (created w)) (map id (users w)).
Proof.
  intros Hinj Hr Hin.
  destruct (reachable_counters w Hr) as [Hc [_ [_ Hids]]].
  rewrite Hids in Hin. apply in_map_iff in Hin. destruct Hin as [k [Hk Hin]].
  apply Hinj in Hk. apply in_seq in Hin. lia.
Qed.

Lemma reachable_NoDup_ids w :
  (forall a b, cuid a = cuid b -> a = b) -> reach w -> NoDup (map id (users w)).
Proof.
  intros Hinj Hr. destruct (reachable_counters w Hr) as [_ [_ [_ Hids]]].
  rewrite Hids. apply Finite.Injective_map_NoDup; [exact Hinj|apply seq_NoDup].
Qed.

End StoreFacts.

(** X6. In every store reached by registrations, the numbers of ids drawn,
    digests computed and tokens signed all equal the number of rows, the
    k-th row carries the k-th generated id, and, the id generator being
    injective, no two rows share an id. *)
Theorem reachable_store_invariants
  (isEmailValidator : string -> bool)
  (NumberToString : Js.Number -> string) (StringToNumber : string -> Js.Number)
  (Token : Type) (cuid : nat -> string)
  (bcrypt_hash : string -> nat -> nat -> string)
  (jwtSign : JwtPayload -> nat -> Token) (w : World) :
  (forall a b, cuid a = cuid b -> a = b) ->
  reachable isEmailValidator NumberToString StringToNumber
    Token cuid bcrypt_hash jwtSign w ->
  created w = List.length (users w)
  /\ hashed w = List.length (users w)
  /\ signed w = List.length (users w)
  /\ map Prisma.id (users w) = map cuid (seq 0 (List.length (users w)))
  /\ NoDup (map Prisma.id (users w)).
Proof.
  intros Hinj Hr.
  destruct (reachable_counters isEmailValidator NumberToString StringToNumber
              Token cuid bcrypt_hash jwtSign w Hr) as [Hc [Hh [Hs Hids]]].
  repeat split; try assumption.
  now apply (reachable_NoDup_ids isEmailValidator NumberToString StringToNumber
               Token cuid bcrypt_hash jwtSign).
Qed.

Lemma tally_injective : forall a b, Demo.tally a = Demo.tally b -> a = b.
Proof.
  induction a as [|a IH]; intros [|b] H; simpl in H; try discriminate; [reflexivity|].
  inversion H. f_equal. now apply IH.
Qed.

(** After Jean's and Ana's registrations the store holds two rows with
    distinct ids. *)
Lemma reachable_store_invariants_witness :
  let register :=
    UserController.register Demo.isEmailValidator Demo.NumberToString
      Demo.StringToNumber Demo.Token Demo.tally Demo.bcrypt_hash Demo.jwtSign in
  let ana :=
    [ ("name", Js.Str "Ana"); ("email", Js.Str "ana@example.com");
      ("password", Js.Str "Secure1!abc"); ("age", Js.Num (Js.ofZ 41)) ] in
  let w2 := snd (register ana (snd (register Demo.jean initialWorld))) in
  List.length (users w2) = 2 /\ NoDup (map Prisma.id (users w2)).
Proof.
  intros register ana w2. split; [vm_compute; reflexivity|].
  apply (reachable_store_invariants
           Demo.isEmailValidator Demo.NumberToString Demo.StringToNumber
           Demo.Token Demo.tally Demo.bcrypt_hash Demo.jwtSign w2 tally_injective).
  unfold w2, register. repeat constructor.
Defined.

(** X7. On a reached store, with an injective id generator: a rejected
    registration returns the store as it was; a successful one makes the new
    user retrievable under the generated id, with the trimmed name, the
    normalized email and the age of the body, appends exactly that object to
    the listing, and leaves every earlier lookup as it was. *)
Theorem registration_then_lookup
  (isEmailValidator : string -> bool)
  (NumberToString : Js.Number -> string) (StringToNumber : string -> Js.Number)
  (Token : Type) (cuid : nat -> string)
  (bcrypt_hash : string -> nat -> nat -> string)
  (jwtSign : JwtPayload -> nat -> Token)
  (body : Js.Object) (w : World) :
  let after :=
    UserController.register isEmailValidator NumberToString StringToNumber
      Token cuid bcrypt_hash jwtSign body w in
  (forall a b, cuid a = cuid b -> a = b) ->
  reachable isEmailValidator NumberToString StringToNumber
    Token cuid bcrypt_hash jwtSign w ->
  match fst after with
  | Throw _ => snd after = w
  | Return _ =>
      exists n e a,
        let view :=
          [ ("id", Js.Str (cuid (created w))); ("name", Js.Str n);
            ("email", Js.Str e); ("age", Js.Num (Js.ofZ a)) ] in
        UserService.getUserById (cuid (created w)) (snd after) = Some view
        /\ UserService.getUsers (snd after) = (UserService.getUsers w ++ [view])%list
        /\ Dto.optTrim (ValidationPipe.toStringValue NumberToString
                          (Js.get "name" body)) = Some (Js.Str n)
        /\ Dto.optLowerTrim (ValidationPipe.toStringValue NumberToString
                               (Js.get "email" body)) = Some (Js.Str e)
        /\ (exists number,
               ValidationPipe.toNumberValue StringToNumber (Js.get "age" body)
               = Js.Num number
               /\ Js.toZ number = Some a)
        /\ forall i o,
             UserService.getUserById i w = Some o ->
             UserService.getUserById i (snd after) = Some o
  end.
Proof.
  intros after Hinj Hr. unfold after.
  destruct (controller_register_world isEmailValidator NumberToString StringToNumber
              Token cuid bcrypt_hash jwtSign body w)
    as [[e He]|[instance [dto [token [Hacc [Hdto [F Hreg]]]]]]].
  - rewrite He. reflexivity.
  - rewrite Hreg. cbn [fst snd].
    destruct (accepted_CreateUserDto isEmailValidator NumberToString StringToNumber
                body instance Hacc)
      as [dto' [Hd' [_ [_ [_ [Hn [He [_ [Ha _]]]]]]]]].
    assert (E : dto' = dto) by congruence. subst dto'.
    exists (Dto.name dto), (Dto.email dto), (Dto.age dto).
    pose proof (fresh_id_not_stored isEmailValidator NumberToString StringToNumber
                  Token cuid bcrypt_hash jwtSign w Hinj Hr) as Hfresh.
    apply findUniqueById_None in Hfresh.
    split; [|split; [|split; [exact Hn|split; [exact He|split; [exact Ha|]]]]].
    + unfold UserService.getUserById. cbn [users].
      rewrite findUniqueById_app, Hfresh. cbn [Prisma.id].
      rewrite String.eqb_refl. reflexivity.
    + unfold UserService.getUsers. cbn [users]. rewrite map_app. reflexivity.
    + intros i o Ho. unfold UserService.getUserById in *. cbn [users].
      rewrite findUniqueById_app.
      destruct (Prisma.findUniqueById i (users w)); [exact Ho|discriminate Ho].
Qed.

(** Jean registers on the empty store and is then found under the first
    id. *)
Lemma registration_then_lookup_witness :
  let register :=
    UserController.register Demo.isEmailValidator Demo.NumberToString
      Demo.StringToNumber Demo.Token Demo.tally Demo.bcrypt_hash Demo.jwtSign in
  UserService.getUserById (Demo.tally 0) (snd (register Demo.jean initialWorld))
  = Some [ ("id", Js.Str ""); ("name", Js.Str "Jean Dupont");
           ("email", Js.Str "jean@example.com"); ("age", Js.Num (Js.ofZ 30)) ].
Proof.
  intros register.
  pose proof (registration_then_lookup
                Demo.isEmailValidator Demo.NumberToString Demo.StringToNumber
                Demo.Token Demo.tally Demo.bcrypt_hash Demo.jwtSign
                Demo.jean initialWorld tally_injective
                (reachable_initial _ _ _ _ _ _ _)) as H.
  vm_compute in H.
  destruct H as [n [e [a [Hget [_ [Hn [He [[number [Hnum Ha]] _]]]]]]]].
  inversion Hn; inversion He; inversion Hnum; subst.
  vm_compute in Ha. inversion Ha; subst.
  vm_compute. exact Hget.
Defined.

(** X8. Whatever [getUserById] returns is an element of [getUsers] and
    carries the requested id; and on a reached store, with an injective id
    generator, every listed user is returned by [getUserById] under its own
    id. *)
Theorem listing_and_lookup_agree
  (isEmailValidator : string -> bool)
  (NumberToString : Js.Number -> string) (StringToNumber : string -> Js.Number)
  (Token : Type) (cuid : nat -> string)
  (bcrypt_hash : string -> nat -> nat -> string)
  (jwtSign : JwtPayload -> nat -> Token) (w : World) :
  (forall a b, cuid a = cuid b -> a = b) ->
  reachable isEmailValidator NumberToString StringToNumber
    Token cuid bcrypt_hash jwtSign w ->
  (forall i o,
      UserService.getUserById i w = Some o ->
      In o (UserService.getUsers w) /\ Js.get "id" o = Js.Str i)
  /\ (forall o,
         In o (UserService.getUsers w) ->
         exists i, Js.get "id" o = Js.Str i
                   /\ UserService.getUserById i w = Some o)
  /\ List.length (UserService.getUsers w) = created w.
Proof.
  intros Hinj Hr. split; [|split].
  - intros i o H. unfold UserService.getUserById in H.
    destruct (Prisma.findUniqueById i (users w)) as [u|] eqn:F; [|discriminate H].
    simpl in H. inversion H; subst o. clear H.
    unfold Prisma.findUniqueById in F. apply find_some in F.
    destruct F as [Hin Heq]. apply String.eqb_eq in Heq.
    split.
    + unfold UserService.getUsers.
      apply (in_map (fun u => Prisma.select UserService.publicFields
                                (Prisma.toObject u))). exact Hin.
    + destruct u. simpl in *. now subst.
  - intros o Ho. unfold UserService.getUsers in Ho. apply in_map_iff in Ho.
    destruct Ho as [u [<- Hin]]. exists (Prisma.id u). split.
    + destruct u. reflexivity.
    + unfold UserService.getUserById.
      rewrite (findUniqueById_NoDup (users w) u); [reflexivity| |exact Hin].
      now apply (reachable_NoDup_ids isEmailValidator NumberToString StringToNumber
                   Token cuid bcrypt_hash jwtSign).
  - unfold UserService.getUsers. rewrite length_map.
    destruct (reachable_counters isEmailValidator NumberToString StringToNumber
                Token cuid bcrypt_hash jwtSign w Hr) as [Hc _]. now rewrite Hc.
Qed.

(** After Jean's registration the listing has one user, found by its id. *)
Lemma listing_and_lookup_agree_witness :
  let w1 :=
    snd (UserController.register Demo.isEmailValidator Demo.NumberToString
           Demo.StringToNumber Demo.Token Demo.tally Demo.bcrypt_hash Demo.jwtSign
           Demo.jean initialWorld) in
  List.length (UserService.getUsers w1) = created w1.
Proof.
  intros w1.
  apply (listing_and_lookup_agree
           Demo.isEmailValidator Demo.NumberToString Demo.StringToNumber
           Demo.Token Demo.tally Demo.bcrypt_hash Demo.jwtSign w1 tally_injective).
  unfold w1. repeat constructor.
Defined.


Lemma findUniqueByEmail_app e rows row :
  Prisma.findUniqueByEmail e (rows ++ [row])
  = match Prisma.findUniqueByEmail e rows with
    | Some u => Some u
    | None => if String.eqb (Prisma.email row) e then Some row else None
    end.
Proof.
  unfold Prisma.findUniqueByEmail.
  induction rows as [|u rest IH]; simpl; [reflexivity|].
  destruct (String.eqb (Prisma.email u) e); [reflexivity|exact IH].
Qed.

(** X9. [createUser] on a store that does not yet hold the next id.  When
    no row has the DTO's email: it returns the selected fields of the new
    row, which is exactly what [getUserById] then returns under the new id
    and what the listing gains; the object has the keys id, name, email,
    age; a lookup by the DTO's email finds the new row itself, holding the
    digest of the DTO's password; one digest is computed, no token is
    signed, and earlier lookups are unchanged.  When a row already has the
    DTO's email: the unique index refuses the insert, the call fails with a
    500 after the digest was computed, and the table is unchanged. *)
Theorem created_user_is_retrievable
  (cuid : nat -> string) (bcrypt_hash : string -> nat -> nat -> string)
  (dto : Dto.CreateUserDto) (w : World) :
  Prisma.findUniqueById (cuid (created w)) (users w) = None ->
  let result := UserService.createUser cuid bcrypt_hash dto w in
  match Prisma.findUniqueByEmail (Dto.email dto) (users w) with
  | None =>
      exists view,
        fst result = Return view
        /\ UserService.getUserById (cuid (created w)) (snd result) = Some view
        /\ UserService.getUsers (snd result) = (UserService.getUsers w ++ [view])%list
        /\ Js.keys view = ["id"; "name"; "email"; "age"]
        /\ Prisma.findUniqueByEmail (Dto.email dto) (users (snd result))
           = Some {| Prisma.id := cuid (created w);
                     Prisma.name := Dto.name dto;
                     Prisma.email := Dto.email dto;
                     Prisma.password :=
                       bcrypt_hash (Dto.password dto) UserService.saltRounds (hashed w);
                     Prisma.age := Dto.age dto |}
        /\ signed (snd result) = signed w
        /\ hashed (snd result) = S (hashed w)
        /\ forall i o,
             UserService.getUserById i w = Some o ->
             UserService.getUserById i (snd result) = Some o
  | Some _ =>
      fst result = Throw InternalServerErrorException
      /\ users (snd result) = users w
      /\ created (snd result) = created w
      /\ signed (snd result) = signed w
      /\ hashed (snd result) = S (hashed w)
  end.
Proof.
  intros Hfresh result. unfold result, UserService.createUser.
  destruct (Prisma.findUniqueByEmail (Dto.email dto) (users w)) as [u|] eqn:F;
    cbn [fst snd].
  { repeat split; reflexivity. }
  eexists. split; [reflexivity|].
  split; [|split; [|split; [reflexivity|split; [|split; [reflexivity|split;
                                                          [reflexivity|]]]]]].
  - unfold UserService.getUserById. cbn [users].
    rewrite findUniqueById_app, Hfresh. cbn [Prisma.id].
    now rewrite String.eqb_refl.
  - unfold UserService.getUsers. cbn [users]. now rewrite map_app.
  - cbn [users]. rewrite findUniqueByEmail_app, F. cbn [Prisma.email].
    now rewrite String.eqb_refl.
  - intros i o Ho. unfold UserService.getUserById in *. cbn [users].
    rewrite findUniqueById_app.
    destruct (Prisma.findUniqueById i (users w)); [exact Ho|discriminate Ho].
Qed.

(** Creating Jean on the empty store, then once more: the second call
    fails and leaves one row. *)
Lemma created_user_is_retrievable_witness :
  let dto := {| Dto.name := "Jean Dupont"; Dto.email := "jean@example.com";
                Dto.password := "Secure1!abc"; Dto.age := 30 |} in
  let first := UserService.createUser Demo.cuid Demo.bcrypt_hash dto initialWorld in
  let second := UserService.createUser Demo.cuid Demo.bcrypt_hash dto (snd first) in
  (exists view,
      fst first = Return view
      /\ UserService.getUserById "c0" (snd first) = Some view)
  /\ fst second = Throw InternalServerErrorException
  /\ users (snd second) = users (snd first).
Proof.
  intros dto first second. split.
  - destruct (created_user_is_retrievable Demo.cuid Demo.bcrypt_hash
                dto initialWorld eq_refl) as [view [Hv [Hg _]]].
    exists view. split; [exact Hv|exact Hg].
  - destruct (created_user_is_retrievable Demo.cuid Demo.bcrypt_hash
                dto (snd first) eq_refl) as [Hthrow [Husers _]].
    split; [exact Hthrow|exact Husers].
Defined.

Lemma split_nonempty sep s : Bootstrap.split sep s <> [].
Proof.
  destruct s as [|c rest]; simpl; [discriminate|].
  destruct (Ascii.eqb c sep); [discriminate|].
  destruct (Bootstrap.split sep rest); discriminate.
Qed.

Lemma join_split sep s : Bootstrap.join sep (Bootstrap.split sep s) = s.
Proof.
  induction s as [|c rest IH]; [reflexivity|].
  cbn [Bootstrap.split].
  pose proof (split_nonempty sep rest) as Hne.
  destruct (Bootstrap.split sep rest) as [|piece pieces]; [contradiction|].
  destruct (Ascii.eqb c sep) eqn:E.
  - apply Ascii.eqb_eq in E. subst c.
    change (Bootstrap.join sep (EmptyString :: piece :: pieces))
      with (String sep (Bootstrap.join sep (piece :: pieces))).
    now rewrite IH.
  - destruct pieces as [|next others].
    + simpl in *. now rewrite IH.
    + change (Bootstrap.join sep (String c piece :: next :: others))
        with (String c (Bootstrap.join sep (piece :: next :: others))).
      now rewrite IH.
Qed.

Lemma split_pieces_free sep s :
  Forall (fun piece => Spec.contains (Ascii.eqb sep) piece = false)
         (Bootstrap.split sep s).
Proof.
  induction s as [|c rest IH]; simpl; [repeat constructor|].
  destruct (Ascii.eqb c sep) eqn:E; [constructor; [reflexivity|exact IH]|].
  destruct (Bootstrap.split sep rest) as [|piece pieces]; [repeat constructor|].
  - simpl. rewrite Ascii.eqb_sym, E. reflexivity.
  - inversion IH; subst. constructor; [|assumption].
    simpl. rewrite Ascii.eqb_sym, E. assumption.
Qed.

(** X10. The CORS origins read from a set [CORS_ORIGINS] are never empty,
    contain no comma, and joined by commas give the variable back, so every
    piece is kept as written, blanks and empty pieces included; the default
    origin is used only when the variable is unset (or spells it). *)
Theorem cors_origins_split_faithfully (s : string) :
  Bootstrap.corsOrigins (Some s) <> []
  /\ Bootstrap.join "," (Bootstrap.corsOrigins (Some s)) = s
  /\ Forall (fun origin => Spec.contains (Ascii.eqb ",") origin = false)
            (Bootstrap.corsOrigins (Some s))
  /\ (Bootstrap.corsOrigins (Some s) = Bootstrap.corsOrigins None
      <-> s = "http://localhost:5173")
  /\ Bootstrap.corsOrigins (Some "") = [""].
Proof.
  unfold Bootstrap.corsOrigins. split; [apply split_nonempty|].
  split; [apply join_split|]. split; [apply split_pieces_free|].
  split; [|reflexivity]. split.
  - intros H. rewrite <- (join_split "," s), H. reflexivity.
  - intros ->. vm_compute. reflexivity.
Qed.

Section StoredRowFacts.
Import Js Prisma.
Variable isEmailValidator : string -> bool.
Variable NumberToString : Number -> string.
Variable StringToNumber : string -> Number.

(** The DTO of an accepted registration body satisfies the field rules. *)
Lemma accepted_dto_valid body instance dto :
  ValidationPipe.transform isEmailValidator NumberToString StringToNumber
    Dto.CreateUserDto_class body = ValidationPipe.Accepted instance ->
  Dto.asCreateUserDto instance = Some dto ->
  (2 <= String.length (Dto.name dto) /\ String.length (Dto.name dto) <= 50
   /\ Pattern.allOf Pattern.nameChar (Dto.name dto) = true
   /\ trim (Dto.name dto) = Dto.name dto)
  /\ (Dto.email dto <> "" /\ isEmailValidator (Dto.email dto) = true)
  /\ (13 <= Dto.age dto <= 120)%Z.
Proof.
  intros Hacc Hdto.
  destruct (accepted_inversion isEmailValidator NumberToString StringToNumber
              Dto.CreateUserDto_class body instance
              CreateUserDto_distinct Hacc) as [_ [_ Hall]].
  pose proof (Hall Dto.CreateUserDto_name (or_introl eq_refl)) as Mn.
  pose proof (Hall Dto.CreateUserDto_email (or_intror (or_introl eq_refl))) as Me.
  pose proof (Hall Dto.CreateUserDto_age
                (or_intror (or_intror (or_intror (or_introl eq_refl))))) as Ma.
  cbn [ClassValidator.propertyName Dto.CreateUserDto_name Dto.CreateUserDto_email
       Dto.CreateUserDto_age] in Mn, Me, Ma.
  destruct (accepted_CreateUserDto isEmailValidator NumberToString StringToNumber
              body instance Hacc)
    as [dto' [Hd' [[Gn [Ge _]] [_ [_ [Tn _]]]]]].
  assert (E : dto' = dto) by congruence. subst dto'.
  apply name_field_accepted in Mn. destruct Mn as [n [En Hn]].
  apply email_field_accepted in Me. destruct Me as [e [Ee He]].
  apply age_field_accepted in Ma. destruct Ma as [a [z [Ea [Hz Ha]]]].
  rewrite Gn in En. inversion En; subst n.
  rewrite Ge in Ee. inversion Ee; subst e.
  split; [|split; [exact He|]].
  - destruct Hn as [H2 [H50 Hchars]]. repeat split; try assumption.
    destruct (ValidationPipe.toStringValue NumberToString (get "name" body))
      as [| | | |raw| |]; try discriminate Tn.
    simpl in Tn. inversion Tn as [Hraw]. apply trim_idempotent.
  - unfold Dto.asCreateUserDto in Hdto. rewrite Gn, Ge, Ea in Hdto.
    destruct (get "password" instance); try discriminate Hdto.
    rewrite Hz in Hdto. injection Hdto as <-. exact Ha.
Qed.

End StoredRowFacts.

(** X11. Every row of a store reached by registrations holds validated
    data: a trimmed name of 2 to 50 characters of the name alphabet, a
    non-empty normalized email that [isEmail] accepts, and an age from 13
    to 120. *)
Theorem stored_rows_are_valid
  (isEmailValidator : string -> bool)
  (NumberToString : Js.Number -> string) (StringToNumber : string -> Js.Number)
  (Token : Type) (cuid : nat -> string)
  (bcrypt_hash : string -> nat -> nat -> string)
  (jwtSign : JwtPayload -> nat -> Token) (w : World) :
  reachable isEmailValidator NumberToString StringToNumber
    Token cuid bcrypt_hash jwtSign w ->
  Forall (fun u =>
            (2 <= String.length (Prisma.name u) /\ String.length (Prisma.name u) <= 50
             /\ Pattern.allOf Pattern.nameChar (Prisma.name u) = true
             /\ Js.trim (Prisma.name u) = Prisma.name u)
            /\ (Prisma.email u <> ""
                /\ isEmailValidator (Prisma.email u) = true
                /\ Dto.normalizeEmail (Prisma.email u) = Prisma.email u)
            /\ (13 <= Prisma.age u <= 120)%Z)
         (users w).
Proof.
  induction 1 as [|body w Hr IH]; [constructor|].
  destruct (controller_register_world isEmailValidator NumberToString StringToNumber
              Token cuid bcrypt_hash jwtSign body w)
    as [[e He]|[instance [dto [token [Hacc [Hdto [_ Hreg]]]]]]].
  - rewrite He. exact IH.
  - rewrite Hreg. cbn [snd users]. apply Forall_app. split; [exact IH|].
    constructor; [|constructor]. cbn [Prisma.name Prisma.email Prisma.age].
    destruct (accepted_dto_valid isEmailValidator NumberToString StringToNumber
                body instance dto Hacc Hdto) as [Hn [[Hne Hmail] Ha]].
    split; [exact Hn|]. split; [|exact Ha].
    split; [exact Hne|]. split; [exact Hmail|].
    destruct (accepted_CreateUserDto isEmailValidator NumberToString StringToNumber
                body instance Hacc) as [dto' [Hd' [_ [_ [_ [_ [Te _]]]]]]].
    assert (E : dto' = dto) by congruence. subst dto'.
    destruct (ValidationPipe.toStringValue NumberToString (Js.get "email" body))
      as [| | | |raw| |]; try discriminate Te.
    simpl in Te. inversion Te as [Hraw]. apply normalizeEmail_idempotent.
Qed.

(** The store after Jean's registration. *)
Lemma stored_rows_are_valid_witness :
  Forall (fun u => (13 <= Prisma.age u <= 120)%Z)
         (users (snd (Demo.register Demo.jean initialWorld))).
Proof.
  eapply Forall_impl;
    [|apply (stored_rows_are_valid
               Demo.isEmailValidator Demo.NumberToString Demo.StringToNumber
               Demo.Token Demo.cuid Demo.bcrypt_hash Demo.jwtSign
               (snd (Demo.register Demo.jean initialWorld)));
      unfold Demo.register; repeat constructor].
  intros u [_ [_ Ha]]. exact Ha.
Defined.

